(** * MJ-RAG: the ingestion pipeline and the query strategy engine

    A shallow embedding of [src/mj_rag/algorithm.py] (class [MJRagAlgorithm])
    and of the service protocols of [src/mj_rag/interfaces.py].

    Conventions of the embedding.
    - A Python [str] is a Rocq [string]: the sequence of the bytes of its UTF-8
      encoding.  The characters the regular expressions of the class name
      (space, newline, the sentence terminators, '-') are ASCII, and an ASCII
      byte never occurs inside a multi-byte UTF-8 sequence; [str.strip] knows
      the whitespace characters outside ASCII by their UTF-8 encodings;
      [str.upper], whose case tables are not modelled, is a parameter.
    - A Python [int] is a [Z]; list indices and slices follow Python's rules
      for negative and out-of-range bounds.
    - A raised exception is a value of [exn]; fallible code returns [result].
    - The external collaborators (completion service, embedding service,
      vector store, metadata store) are type classes over an abstract service
      state; every call is recorded in a trace.
    - The three cache directories are finite maps keyed by the document hash. *)

From Stdlib Require Import ZArith Lia Ascii String List Bool.
From stdpp Require Import gmap strings list pretty.

(** ** Python built-ins used by the source *)

Module Py.

Definition chr (n : nat) : string := String (ascii_of_nat n) "".

(** The characters the source writes with an escape or a quote. *)
Definition nl : string := chr 10.
Definition dq : string := chr 34.

(** [s * n] *)
Fixpoint str_mul (s : string) (n : nat) : string :=
  match n with
  | O => ""
  | S k => s +:+ str_mul s k
  end.

(** [sep.join(parts)] *)
Fixpoint join (sep : string) (parts : list string) : string :=
  match parts with
  | [] => ""
  | [p] => p
  | p :: rest => p +:+ sep +:+ join sep rest
  end.

(** [range(start, stop, step)]; a zero step (a ValueError in Python) gives
    the empty list, no caller passes one. *)
Definition range (start stop step : Z) : list Z :=
  if (0 <? step)%Z then
    map (fun k => (start + Z.of_nat k * step)%Z)
        (seq 0 (Z.to_nat ((stop - start + step - 1) / step)))
  else if (step <? 0)%Z then
    map (fun k => (start + Z.of_nat k * step)%Z)
        (seq 0 (Z.to_nat ((start - stop - step - 1) / (- step))))
  else [].

(** [l[start:stop]], [None] for an omitted bound. *)
Definition slice {A} (l : list A) (start stop : option Z) : list A :=
  let n := Z.of_nat (length l) in
  let clamp i := if (i <? 0)%Z then Z.max 0 (i + n) else Z.min i n in
  let a := default 0%Z (clamp <$> start) in
  let b := default n (clamp <$> stop) in
  take (Z.to_nat (b - a)) (drop (Z.to_nat a) l).

(** [c.isspace()] for an ASCII character [c]. *)
Definition isspace (c : ascii) : bool :=
  let n := nat_of_ascii c in
  ((9 <=? n) && (n <=? 13)) || ((28 <=? n) && (n <=? 32)).

(** The whitespace characters outside ASCII, in UTF-8: U+0085 and U+00A0
    take two bytes; U+1680, U+2000 to U+200A, U+2028, U+2029, U+202F, U+205F
    and U+3000 take three. *)
Definition isspace2 (c1 c2 : ascii) : bool :=
  let n1 := nat_of_ascii c1 in
  let n2 := nat_of_ascii c2 in
  (n1 =? 194) && ((n2 =? 133) || (n2 =? 160)).

Definition isspace3 (c1 c2 c3 : ascii) : bool :=
  let n1 := nat_of_ascii c1 in
  let n2 := nat_of_ascii c2 in
  let n3 := nat_of_ascii c3 in
  ((n1 =? 225) && (n2 =? 154) && (n3 =? 128))
  || ((n1 =? 226) && (n2 =? 128)
      && (((128 <=? n3) && (n3 <=? 138)) || (n3 =? 168) || (n3 =? 169)
          || (n3 =? 175)))
  || ((n1 =? 226) && (n2 =? 129) && (n3 =? 159))
  || ((n1 =? 227) && (n2 =? 128) && (n3 =? 128)).

(** [s] is one whitespace character. *)
Definition is_space_str (s : string) : bool :=
  match s with
  | String c EmptyString => isspace c
  | String c1 (String c2 EmptyString) => isspace2 c1 c2
  | String c1 (String c2 (String c3 EmptyString)) => isspace3 c1 c2 c3
  | _ => false
  end.

(** [s.lstrip()]: the whitespace characters at the start are dropped, one
    character (of one, two or three bytes) after the other. *)
Fixpoint lstrip (s : string) : string :=
  match s with
  | EmptyString => ""
  | String c1 r1 =>
      if isspace c1 then lstrip r1
      else
        match r1 with
        | EmptyString => s
        | String c2 r2 =>
            if isspace2 c1 c2 then lstrip r2
            else
              match r2 with
              | EmptyString => s
              | String c3 r3 => if isspace3 c1 c2 c3 then lstrip r3 else s
              end
        end
  end.

(** [s.rstrip()]: what is left of [s] once the whitespace characters at its
    end are dropped.  A byte is dropped when, with what is left of the text
    after it, it makes one whitespace character. *)
Fixpoint rstrip (s : string) : string :=
  match s with
  | EmptyString => ""
  | String c r =>
      let r' := rstrip r in
      if is_space_str (String c r') then "" else String c r'
  end.

(** [s.strip()] *)
Definition strip (s : string) : string := rstrip (lstrip s).

(** [s.lstrip(chars)] for one character. *)
Fixpoint lstrip_char (c : ascii) (s : string) : string :=
  match s with
  | EmptyString => ""
  | String d r => if Ascii.eqb c d then lstrip_char c r else s
  end.

Definition map_chars (f : ascii -> ascii) : string -> string :=
  fix go s :=
    match s with
    | EmptyString => EmptyString
    | String c r => String (f c) (go r)
    end.

Definition lower_char (c : ascii) : ascii :=
  let n := nat_of_ascii c in
  if (65 <=? n) && (n <=? 90) then ascii_of_nat (n + 32) else c.

Definition upper_char (c : ascii) : ascii :=
  let n := nat_of_ascii c in
  if (97 <=? n) && (n <=? 122) then ascii_of_nat (n - 32) else c.

(** [s.lower()]: the letters A-Z are mapped and the other bytes are kept.
    The characters outside ASCII that [str.lower] maps are left as they are;
    none of them gives a y, an e or an s, so the test of "yes" in [s.lower()],
    the only use of [lower] in the program, is the one of Python for every
    text. *)
Definition lower : string -> string := map_chars lower_char.

(** [s.upper()] for an ASCII text: the letters a-z are mapped.  The program
    itself takes [str.upper] from [Libraries]. *)
Definition upper : string -> string := map_chars upper_char.

(** [sub in s] *)
Fixpoint contains (sub s : string) : bool :=
  String.prefix sub s ||
  match s with
  | EmptyString => false
  | String _ r => contains sub r
  end.

(** [s.replace(old, new)]: the occurrences of [old] are replaced from left
    to right, without overlap.  [skip] counts the characters of a replaced
    occurrence that are still to be dropped. *)
Fixpoint replace_go (old new s : string) (skip : nat) : string :=
  match s with
  | EmptyString => ""
  | String c r =>
      match skip with
      | S k => replace_go old new r k
      | O =>
          if String.prefix old s
          then new +:+ replace_go old new r (String.length old - 1)
          else String c (replace_go old new r 0)
      end
  end.

Definition replace (s old new : string) : string :=
  match old with
  | EmptyString =>
      (* the empty pattern matches before every character and at the end *)
      (fix go s := match s with
                   | EmptyString => new
                   | String c r => new +:+ String c (go r)
                   end) s
  | _ => replace_go old new s 0
  end.

(** Truth value of a string, of a list. *)
Definition truthy_str (s : string) : bool :=
  match s with EmptyString => false | _ => true end.
Definition truthy_list {A} (l : list A) : bool :=
  match l with [] => false | _ => true end.

End Py.

(** ** Exceptions and results *)

Inductive exn :=
| ValueError (msg : string)
| JSONDecodeError (msg : string)
| IndexError
| KeyError (key : string)
| TypeError
| ServiceError (msg : string).

Inductive result (A : Type) :=
| Ok (a : A)
| Raise (e : exn).
Arguments Ok {A} a.
Arguments Raise {A} e.

(** ** Data model *)

(** [SectionAnswerMode] *)
Inductive SectionAnswerMode :=
| FIRST_BEST_RAW
| FIRST_BEST_SUMMARY
| TOP_K_RAW
| TOP_K_COMBINE
| TOP_K_SUMMARY
| TOP_K_RESTRANSCRIPT.

(** One turn of a conversation: [{'role': ..., 'content': ...}]. *)
Record Message := mkMessage { role : string; msg_content : string }.

(** A section dictionary.  The completion service returns [header], [content]
    and an optional [subsections] (an absent key and an empty list are treated
    alike by every function below); [enrich_sections] sets [parents] and
    [level]; [_save_sections_in_sql_db] sets [sql_doc_id]. *)
#[warnings="-register-all"]
Inductive SectionNode := mkSection {
  header : string;
  content : string;
  subsections : list SectionNode;
  parents : option (list string);
  level : option Z;
  sql_doc_id : option string
}.

Definition SectionNode_nested_ind (P : SectionNode -> Prop)
    (step : forall h c subs p l i,
        Forall P subs -> P (mkSection h c subs p l i)) :
  forall s, P s :=
  fix go (s : SectionNode) : P s :=
    match s with
    | mkSection h c subs p l i =>
        step h c subs p l i
          ((fix all (l0 : list SectionNode) : Forall P l0 :=
              match l0 with
              | [] => List.Forall_nil P
              | x :: r => @List.Forall_cons _ P x r (go x) (all r)
              end) subs)
    end.

(** ** Section enricher *)

(** The body of the loop of [enrich_sections] for one [section]. *)
Fixpoint enrich_section (parents_ : list string) (level_ : Z)
    (section : SectionNode) : SectionNode :=
  match section with
  | mkSection header_ content_ subs _ _ id =>
      let content0 :=
        Py.str_mul "#" (Z.to_nat level_) +:+ " " +:+ header_ +:+ Py.nl +:+ Py.nl
        +:+ content_ in
      match subs with
      | [] => mkSection header_ content0 subs (Some parents_) (Some level_) id
      | _ :: _ =>
          let parents_to_pass := parents_ ++ [header_] in
          let subs' := map (enrich_section parents_to_pass (level_ + 1)) subs in
          let content1 :=
            fold_left (fun acc subsection =>
                         acc +:+ Py.nl +:+ Py.nl +:+ content subsection)
                      subs' content0 in
          mkSection header_ content1 subs' (Some parents_) (Some level_) id
      end
  end.

(** [enrich_sections(sections, parents=None, level=None)] *)
Definition enrich_sections (sections : list SectionNode)
    (parents_ : option (list string)) (level_ : option Z)
  : result (list SectionNode) :=
  match parents_, level_ with
  | None, _ => Ok (map (enrich_section [] 1) sections)
  | Some p, Some l => Ok (map (enrich_section p l) sections)
  | Some p, None =>
      match sections with
      | [] => Ok []
      | _ :: _ => Raise TypeError
      end
  end.

(** ** Section linearizer *)

(** The body of the loop of [_linearize_sections] for one [section]. *)
Fixpoint linearize_section (add_hierarchized_titles : bool)
    (section : SectionNode) : list SectionNode :=
  match section with
  | mkSection header_ content_ subs p l id =>
      [section]
      ++ (if add_hierarchized_titles then
            let parents_ := default [] p in
            if Py.truthy_list parents_ then
              map (fun i =>
                     let to_include := Py.slice parents_ (Some i) None ++ [header_] in
                     mkSection (Py.join " - " to_include) content_ subs p l id)
                  (Py.range (Z.of_nat (length parents_) - 1) (-1) (-1))
            else []
          else [])
      ++ concat (map (linearize_section add_hierarchized_titles) subs)
  end.

Definition _linearize_sections (add_hierarchized_titles : bool)
    (sections : list SectionNode) : list SectionNode :=
  concat (map (linearize_section add_hierarchized_titles) sections).

(** ** Document hash *)

(** [hashlib.sha256(data).hexdigest()] (FIPS 180-4). *)
Module SHA256.
Local Open Scope Z_scope.

Definition w32 (x : Z) : Z := x mod 4294967296.
Definition add32 (x y : Z) : Z := w32 (x + y).
Definition rotr (n x : Z) : Z :=
  Z.lor (Z.shiftr x n) (w32 (Z.shiftl x (32 - n))).
Definition not32 (x : Z) : Z := 4294967295 - x.

Definition Ch (x y z : Z) : Z := Z.lxor (Z.land x y) (Z.land (not32 x) z).
Definition Maj (x y z : Z) : Z :=
  Z.lxor (Z.lxor (Z.land x y) (Z.land x z)) (Z.land y z).
Definition Sigma0 (x : Z) : Z := Z.lxor (Z.lxor (rotr 2 x) (rotr 13 x)) (rotr 22 x).
Definition Sigma1 (x : Z) : Z := Z.lxor (Z.lxor (rotr 6 x) (rotr 11 x)) (rotr 25 x).
Definition sigma0 (x : Z) : Z := Z.lxor (Z.lxor (rotr 7 x) (rotr 18 x)) (Z.shiftr x 3).
Definition sigma1 (x : Z) : Z := Z.lxor (Z.lxor (rotr 17 x) (rotr 19 x)) (Z.shiftr x 10).

(** The first primes, by trial division. *)
Definition is_prime (n : nat) : bool :=
  (2 <=? n)%nat && forallb (fun d => negb (n mod d =? 0)%nat) (seq 2 (n - 2)).

Definition first_primes (count : nat) : list Z :=
  map Z.of_nat (take count (filter (fun n => is_prime n = true) (seq 2 310))).

(** The integer cube root, one bit after the other from bit [bits - 1]. *)
Fixpoint icbrt_from (bits : nat) (n r : Z) : Z :=
  match bits with
  | O => r
  | S b =>
      let r' := r + 2 ^ Z.of_nat b in
      icbrt_from b n (if r' * r' * r' <=? n then r' else r)
  end.

(** The round constants: the first 32 bits of the fractional parts of the
    cube roots of the first 64 primes. *)
Definition K : list Z :=
  Eval vm_compute in
    map (fun p => w32 (icbrt_from 40 (p * 2 ^ 96) 0)) (first_primes 64).

(** The initial hash value: the first 32 bits of the fractional parts of the
    square roots of the first 8 primes. *)
Definition H0 : list Z :=
  Eval vm_compute in
    map (fun p => w32 (Z.sqrt (p * 2 ^ 64))) (first_primes 8).

Definition bytes_of_string (s : string) : list Z :=
  map (fun c => Z.of_nat (nat_of_ascii c)) (list_ascii_of_string s).

(** Big-endian bytes of [x], [n] of them. *)
Fixpoint be_bytes (n : nat) (x : Z) : list Z :=
  match n with
  | O => []
  | S k => be_bytes k (Z.shiftr x 8) ++ [x mod 256]
  end.

(** The message followed by 0x80, zero bytes up to 56 modulo 64, and the
    bit length on 8 bytes. *)
Definition pad (msg : list Z) : list Z :=
  let len := Z.of_nat (length msg) in
  let zeros := Z.to_nat ((55 - len) mod 64) in
  msg ++ [128] ++ repeat 0 zeros ++ be_bytes 8 (8 * len).

Fixpoint be_words (n : nat) (bs : list Z) : list Z :=
  match n with
  | O => []
  | S k =>
      match bs with
      | b0 :: b1 :: b2 :: b3 :: r =>
          (b0 * 16777216 + b1 * 65536 + b2 * 256 + b3) :: be_words k r
      | _ => []
      end
  end.

Definition nth_word (l : list Z) (i : nat) : Z := nth i l 0.

(** The message schedule: [w] holds W[0..t-1], [n] words are still to add. *)
Fixpoint schedule (n : nat) (w : list Z) : list Z :=
  match n with
  | O => w
  | S k =>
      let t := length w in
      let x := add32 (add32 (sigma1 (nth_word w (t - 2))) (nth_word w (t - 7)))
                     (add32 (sigma0 (nth_word w (t - 15))) (nth_word w (t - 16))) in
      schedule k (w ++ [x])
  end.

Definition round (st : list Z) (kw : Z * Z) : list Z :=
  match st with
  | [a; b; c; d; e; f; g; h] =>
      let t1 := add32 (add32 (add32 h (Sigma1 e)) (add32 (Ch e f g) (fst kw))) (snd kw) in
      let t2 := add32 (Sigma0 a) (Maj a b c) in
      [add32 t1 t2; a; b; c; add32 d t1; e; f; g]
  | _ => st
  end.

Definition compress (hs : list Z) (block : list Z) : list Z :=
  let w := schedule 48 (be_words 16 block) in
  let st := fold_left round (combine K w) hs in
  map (fun p => add32 (fst p) (snd p)) (combine hs st).

Fixpoint blocks (n : nat) (hs : list Z) (bs : list Z) : list Z :=
  match n with
  | O => hs
  | S k => blocks k (compress hs (take 64 bs)) (drop 64 bs)
  end.

Definition digest (msg : list Z) : list Z :=
  let p := pad msg in
  blocks (length p / 64) H0 p.

Definition hex_digit (d : Z) : string :=
  String.substring (Z.to_nat d) 1 "0123456789abcdef".

Fixpoint hex_word (n : nat) (x : Z) : string :=
  match n with
  | O => ""
  | S k => hex_word k (Z.shiftr x 4) +:+ hex_digit (x mod 16)
  end.

Definition hexdigest (s : string) : string :=
  String.concat "" (map (hex_word 8) (digest (bytes_of_string s))).

End SHA256.

Definition space_char : ascii := ascii_of_nat 32.
Definition nl_char : ascii := ascii_of_nat 10.

(** [rgx_space.sub('', content)]: the pattern of [rgx_space] is one space
    character (U+0020). *)
Fixpoint rgx_space_sub_empty (content_ : string) : string :=
  match content_ with
  | EmptyString => ""
  | String c r =>
      if Ascii.eqb c space_char then rgx_space_sub_empty r
      else String c (rgx_space_sub_empty r)
  end.

(** [rgx_2_lines.sub('\n', content)]: the pattern of [rgx_2_lines] is a run
    of two or more newlines.  A newline that is followed by a newline belongs
    to such a run and is dropped, so that the last newline of every run is
    the one kept. *)
Fixpoint rgx_2_lines_sub_nl (content_ : string) : string :=
  match content_ with
  | EmptyString => ""
  | String c r =>
      match r with
      | String c' _ =>
          if Ascii.eqb c nl_char && Ascii.eqb c' nl_char
          then rgx_2_lines_sub_nl r
          else String c (rgx_2_lines_sub_nl r)
      | EmptyString => String c ""
      end
  end.

Definition get_doc_hash (content_ : string) : string :=
  let content1 := rgx_space_sub_empty content_ in
  let content2 := rgx_2_lines_sub_nl content1 in
  SHA256.hexdigest content2.

(** ** Regular expressions of the class *)

Definition is_terminator (c : ascii) : bool :=
  Ascii.eqb c "."%char || Ascii.eqb c "?"%char || Ascii.eqb c "!"%char
  || Ascii.eqb c nl_char.

Definition is_nl_or_space (c : ascii) : bool :=
  Ascii.eqb c nl_char || Ascii.eqb c space_char.

(** The longest prefix matched by the class [[\n ]*]. *)
Fixpoint span_nl_space (s : string) : string :=
  match s with
  | EmptyString => ""
  | String c r => if is_nl_or_space c then String c (span_nl_space r) else ""
  end.

(** [rgx_sentence_limiter.match(s)]: the text matched at the start of [s],
    if any.  The pattern is one group of two alternatives: a terminator
    (full stop, question mark, exclamation mark or newline) followed by one
    or more newlines or spaces; or a single newline. *)
Definition rgx_sentence_limiter_match (s : string) : option string :=
  match s with
  | EmptyString => None
  | String c r =>
      let run := span_nl_space r in
      if is_terminator c && Py.truthy_str run then Some (String c run)
      else if Ascii.eqb c nl_char then Some (String c "")
      else None
  end.

(** [rgx_sentence_limiter.split(s)]: the pattern is one capturing group, so
    the separators are part of the result.  [skip] counts the characters of
    the last separator that are still to be passed over, [cur] is the text
    since the last separator. *)
Fixpoint rgx_sentence_limiter_split_go (s : string) (skip : nat) (cur : string)
  : list string :=
  match s with
  | EmptyString => [cur]
  | String c r =>
      match skip with
      | S k => rgx_sentence_limiter_split_go r k cur
      | O =>
          match rgx_sentence_limiter_match s with
          | Some sep =>
              cur :: sep
              :: rgx_sentence_limiter_split_go r (String.length sep - 1) ""
          | None => rgx_sentence_limiter_split_go r 0 (cur +:+ String c "")
          end
      end
  end.

Definition rgx_sentence_limiter_split (s : string) : list string :=
  rgx_sentence_limiter_split_go s 0 "".

(** The text before the first newline of [s], when [s] has a newline. *)
Fixpoint until_nl (s : string) : option string :=
  match s with
  | EmptyString => None
  | String c r =>
      if Ascii.eqb c nl_char then Some ""
      else String c <$> until_nl r
  end.

(** [rgx_md_point.findall(s)]: the pattern is a dash, a space, a group of
    any characters but a newline, and a newline; the groups are returned. *)
Fixpoint rgx_md_point_findall_go (s : string) (skip : nat) : list string :=
  match s with
  | EmptyString => []
  | String c r =>
      match skip with
      | S k => rgx_md_point_findall_go r k
      | O =>
          if String.prefix "- " s then
            match until_nl (String.substring 2 (String.length s - 2) s) with
            | Some point =>
                point :: rgx_md_point_findall_go r (String.length point + 2)
            | None => rgx_md_point_findall_go r 0
            end
          else rgx_md_point_findall_go r 0
      end
  end.

Definition rgx_md_point_findall (s : string) : list string :=
  rgx_md_point_findall_go s 0.

(** [_extract_points] *)
Definition _extract_points (content_ : string) : list string :=
  let res := map Py.strip (rgx_md_point_findall content_) in
  filter (fun point => Py.truthy_str point = true) res.

(** ** Sentence windows *)

(** The two comprehensions and the double loop of
    [split_content_by_sentences]. *)
Definition sentence_lines (markdown_content : string) : list string :=
  map Py.strip
      (filter (fun senten => Py.truthy_str (Py.strip senten) = true)
              (rgx_sentence_limiter_split markdown_content)).

Definition window_sentence (parts : list string) : string :=
  fold_left (fun sentence part =>
               if rgx_sentence_limiter_match part is Some _
               then sentence +:+ part
               else sentence +:+ " " +:+ part)
            parts "".

Definition build_sentences_set (lines : list string) (count : Z) : list string :=
  let total_lines := Z.of_nat (length lines) in
  fold_left (fun sentences_set i =>
               let step := (i + count * 2)%Z in
               let sentence := window_sentence (Py.slice lines (Some i) (Some step)) in
               sentences_set ++ [sentence])
            (Py.range 0 (total_lines - 3) 2) [].

(** ** Context formatter *)

(** A section match returned by the vector store.  [m_score] is the text of
    the score as the f-string prints it. *)
Record SectionMatch := mkMatch {
  m_header : string;
  m_parents : list string;
  m_level : Z;
  m_score : string;
  m_source_title : string;
  m_source_url : option string;
  m_source_author : option string;
  m_source_type : option string;
  m_content : string;
  m_sql_doc_id : string
}.

Definition opt_line (label : string) (field : option string) : string :=
  match field with
  | Some v => if Py.truthy_str v then Py.nl +:+ label +:+ v else ""
  | None => ""
  end.

Definition _section_match_to_context_entry (section_match : SectionMatch) : string :=
  let header0 := m_header section_match in
  let parents_ := m_parents section_match in
  let '(header1, parents_hierarchy) :=
    if Py.truthy_list parents_ then
      let h1 := Py.strip (Py.replace header0 (Py.join " - " parents_) "") in
      let h2 := Py.strip (Py.lstrip_char "-"%char h1) in
      (h2, Py.join " -> " parents_)
    else (header0, "") in
  "Header: " +:+ header1 +:+ Py.nl +:+ "Parents Hierarchy: " +:+ parents_hierarchy
  +:+ Py.nl +:+ "Level: " +:+ pretty (m_level section_match)
  +:+ Py.nl +:+ "Semantic score: " +:+ m_score section_match
  +:+ Py.nl +:+ "Source title: " +:+ m_source_title section_match
  +:+ opt_line "Source url: " (m_source_url section_match)
  +:+ opt_line "Source author: " (m_source_author section_match)
  +:+ opt_line "Source type: " (m_source_type section_match)
  +:+ Py.nl +:+ "Content: " +:+ m_content section_match.

Definition format_context_entries (context_entries : list string) : string :=
  let ctx := Py.join (Py.nl +:+ "~~~~~~~~~" +:+ Py.nl) context_entries in
  "++++++++++++++++" +:+ Py.nl +:+ ctx +:+ Py.nl +:+ "++++++++++++++++".

(** ** External collaborators *)

(** One call of an external service, as the trace records it. *)
Inductive event :=
| LlmCall (messages : list Message) (response : result string)
| EncodeDocuments (documents : list string)
| GetPossibleAnswers (question : string)
    (alternates hypothetical_answers : option (list string))
| GetPossibleMatchs (header_ : string) (alternates : list string) (top_k : Z)
| SqlGetContent (doc_id : string)
| SqlAddHeaderContent (doc_hash header_ content_ : string).

(** The protocols of [interfaces.py].  A service is a function of its
    arguments and of the state [S] of the outside world; it returns a value
    or raises, and leaves a new state. *)
Class LLMServiceInterface (S : Type) := {
  complete_messages : list Message -> S -> result string * S
}.

Class EmbeddingServiceInterface (S Vec : Type) := {
  encode_documents : list string -> S -> result (list Vec) * S
}.

Class VectorDBServiceInterface (S Found : Type) := {
  get_possible_answers_from_question :
    string -> string -> option (list string) -> option (list string) ->
    S -> result (list Found) * S;
  get_possible_matchs_from_header :
    string -> string -> list string -> Z -> S -> result (list SectionMatch) * S
}.

Class SqlDBServiceInterface (S : Type) := {
  add_header_content_in_sdb :
    string -> string -> string -> string -> S -> result string * S;
  get_content_from_id : string -> string -> S -> result string * S
}.

(** The library functions the class calls: [str.upper]; the tokenizer
    [tiktoken.encoding_for_model(model_name).encode] (for a model name that
    tiktoken knows), pyparsing's
    [originalTextFor(lineStart + nestedExpr(opener, closer)).search_string]
    (the matched texts, in order), [json.loads] on the text of an array of
    sections and on the text of an object, [json.dumps]. *)
Class Libraries (Found : Type) := {
  str_upper : string -> string;
  tiktoken_encode : string -> list Z;
  pyparsing_search : string -> string -> string -> list string;
  json_loads_sections : string -> result (list SectionNode);
  json_loads_object : string -> result (gmap string string);
  json_dumps : list Found -> string
}.

(** The state a call runs in: the outside world, the three cache
    directories, and the trace of the calls made so far.  A cache directory
    maps a document hash to the value written in the file of that name:
    reading a file back ([json.load], [np.load]) is taken to give the value
    that was written ([json.dumps], [np.save]). *)
Record world (S Vec : Type) := mkWorld {
  svc : S;
  content_to_json_cache : gmap string (list SectionNode);
  content_to_sentence_cache : gmap string (list string);
  content_to_vector_cache : gmap string (list Vec);
  trace : list event
}.
Arguments mkWorld {S Vec}.
Arguments svc {S Vec}.
Arguments content_to_json_cache {S Vec}.
Arguments content_to_sentence_cache {S Vec}.
Arguments content_to_vector_cache {S Vec}.
Arguments trace {S Vec}.

(** State and exception monad. *)
Definition M (S Vec A : Type) : Type := world S Vec -> result A * world S Vec.

Definition ret {S Vec A} (a : A) : M S Vec A := fun w => (Ok a, w).
Definition raise {S Vec A} (e : exn) : M S Vec A := fun w => (Raise e, w).
Definition lift {S Vec A} (r : result A) : M S Vec A := fun w => (r, w).
Definition bind {S Vec A B} (m : M S Vec A) (k : A -> M S Vec B) : M S Vec B :=
  fun w =>
    match m w with
    | (Ok a, w') => k a w'
    | (Raise e, w') => (Raise e, w')
    end.

(** [try: body / except json.JSONDecodeError as e: handler(str(e))] *)
Definition try_except_JSONDecodeError {S Vec A}
    (body : M S Vec A) (handler : string -> M S Vec A) : M S Vec A :=
  fun w =>
    match body w with
    | (Raise (JSONDecodeError e), w') => handler e w'
    | other => other
    end.

Notation "x <- m ;; k" := (bind m (fun x => k))
  (at level 100, m at next level, right associativity).

(** [l[i]] for [0 <= i]. *)
Definition index {S Vec A} (l : list A) (i : nat) : M S Vec A :=
  match l !! i with
  | Some x => ret x
  | None => raise IndexError
  end.

Section Services.
Context {S Vec Found : Type}.
Context {llm_service : LLMServiceInterface S}
        {embedding_service : EmbeddingServiceInterface S Vec}
        {vector_db_service : VectorDBServiceInterface S Found}
        {sql_db_service : SqlDBServiceInterface S}.

Definition record_call (w : world S Vec) (s : S) (ev : event) : world S Vec :=
  mkWorld s (content_to_json_cache w) (content_to_sentence_cache w)
          (content_to_vector_cache w) (trace w ++ [ev]).

Definition llm_complete_messages (messages : list Message) : M S Vec string :=
  fun w =>
    let '(r, s) := complete_messages messages (svc w) in
    (r, record_call w s (LlmCall messages r)).

Definition embedding_encode_documents (documents : list string)
  : M S Vec (list Vec) :=
  fun w =>
    let '(r, s) := encode_documents documents (svc w) in
    (r, record_call w s (EncodeDocuments documents)).

Definition vdb_get_possible_answers_from_question (work_title question : string)
    (alternates hypothetical_answers : option (list string))
  : M S Vec (list Found) :=
  fun w =>
    let '(r, s) := get_possible_answers_from_question
                     work_title question alternates hypothetical_answers (svc w) in
    (r, record_call w s (GetPossibleAnswers question alternates hypothetical_answers)).

Definition vdb_get_possible_matchs_from_header (work_title header_ : string)
    (alternates : list string) (top_k : Z) : M S Vec (list SectionMatch) :=
  fun w =>
    let '(r, s) := get_possible_matchs_from_header
                     (Found := Found) work_title header_ alternates top_k (svc w) in
    (r, record_call w s (GetPossibleMatchs header_ alternates top_k)).

Definition sql_get_content_from_id (work_title doc_id : string) : M S Vec string :=
  fun w =>
    let '(r, s) := get_content_from_id work_title doc_id (svc w) in
    (r, record_call w s (SqlGetContent doc_id)).

Definition sql_add_header_content_in_sdb
    (work_title doc_hash header_ content_ : string) : M S Vec string :=
  fun w =>
    let '(r, s) := add_header_content_in_sdb work_title doc_hash header_ content_ (svc w) in
    (r, record_call w s (SqlAddHeaderContent doc_hash header_ content_)).

End Services.

(** ** The class [MJRagAlgorithm] *)

Section MJRagAlgorithm.
Context {S Vec Found : Type}.
Context {llm_service : LLMServiceInterface S}
        {embedding_service : EmbeddingServiceInterface S Vec}
        {vector_db_service : VectorDBServiceInterface S Found}
        {sql_db_service : SqlDBServiceInterface S}
        {libraries : Libraries Found}.

(** [self.work_title] *)
Variable work_title : string.

Local Abbreviation M := (M S Vec).

Definition user (content_ : string) : Message := mkMessage "user" content_.

(** *** Cache directories *)

(** [self.get_doc_hash(content) if not doc_hash else doc_hash]; [content]
    may be [None] in [get_cached_content_embeddings]. *)
Definition resolve_hash (content_ : option string) (doc_hash : option string)
  : result string :=
  match doc_hash with
  | Some h =>
      if Py.truthy_str h then Ok h
      else match content_ with
           | Some c => Ok (get_doc_hash c)
           | None => Raise TypeError
           end
  | None =>
      match content_ with
      | Some c => Ok (get_doc_hash c)
      | None => Raise TypeError
      end
  end.

Definition get_cached_content_json_tree (content_ : string)
    (doc_hash : option string) : M (string * option (list SectionNode)) :=
  hash <- lift (resolve_hash (Some content_) doc_hash) ;;
  fun w => (Ok (hash, content_to_json_cache w !! hash), w).

Definition get_cached_content_embeddings (content_ : option string)
    (doc_hash : option string) : M (string * option (list Vec)) :=
  hash <- lift (resolve_hash content_ doc_hash) ;;
  fun w => (Ok (hash, content_to_vector_cache w !! hash), w).

Definition get_cached_content_sentences (content_ : string)
    (doc_hash : option string) : M (string * option (list string)) :=
  hash <- lift (resolve_hash (Some content_) doc_hash) ;;
  fun w => (Ok (hash, content_to_sentence_cache w !! hash), w).

Definition save_in_cache_content_json_tree (hash : string)
    (json_tree : list SectionNode) : M unit :=
  fun w =>
    (Ok tt, mkWorld (svc w) (<[hash := json_tree]> (content_to_json_cache w))
                    (content_to_sentence_cache w) (content_to_vector_cache w)
                    (trace w)).

Definition save_in_cache_content_embeddings (hash : string)
    (embeddings : list Vec) : M unit :=
  fun w =>
    (Ok tt, mkWorld (svc w) (content_to_json_cache w)
                    (content_to_sentence_cache w)
                    (<[hash := embeddings]> (content_to_vector_cache w))
                    (trace w)).

Definition save_in_cache_content_sentences (hash : string)
    (sentences_set : list string) : M unit :=
  fun w =>
    (Ok tt, mkWorld (svc w) (content_to_json_cache w)
                    (<[hash := sentences_set]> (content_to_sentence_cache w))
                    (content_to_vector_cache w) (trace w)).

(** *** Hierarchical section splitter *)

Definition parse_llm_response_to_json_list (response : string)
  : result (list SectionNode) :=
  match pyparsing_search "[" "]" response with
  | res_json_str :: _ => json_loads_sections res_json_str
  | [] => Raise IndexError
  end.

Definition _extract_to_json_object (response : string)
  : result (gmap string string) :=
  match pyparsing_search "{" "}" response with
  | res_json_str :: _ => json_loads_object res_json_str
  | [] => Raise IndexError
  end.

Definition split_prompt (content_ : string) (title : option string) : string :=
  let title_line :=
    match title with
    | Some t => if Py.truthy_str t
                then "The article title is `" +:+ t +:+ "`."
                else ""
    | None => ""
    end in
  Py.nl +:+ "The following text is a markdown of a webpage which contains an article. " +:+ Py.nl
  +:+ title_line +:+ Py.nl +:+ Py.nl +:+ "Rules:" +:+ Py.nl
  +:+ "1. This markdown is mixed with many parts of the webpage which are not the actual article or the main content." +:+ Py.nl
  +:+ "2. Analyze carefully the markdown and assume there can be some errors in heading and spacing." +:+ Py.nl
  +:+ "3. You must EXTRACT the actual article or the main content, ORGANIZE it by markdown headers, " +:+ Py.nl
  +:+ "spacing and semantic." +:+ Py.nl +:+ "4. If you can't identify a header consider it is the same content." +:+ Py.nl
  +:+ "5. Recopy the content of each header AS IS. SUMMARIZATION NOT ALLOWED. Just fix punctuation and spacing issues." +:+ Py.nl
  +:+ "6. Your response will be parsed. Avoid any comment or json errors." +:+ Py.nl
  +:+ "7. If there is no header present, propose your own header based on the content" +:+ Py.nl
  +:+ "8. RETURN a response in the following format:" +:+ Py.nl
  +:+ Py.nl +:+ "[{" +:+ Py.nl +:+ "  " +:+ Py.dq +:+ "header" +:+ Py.dq +:+ ": " +:+ Py.dq +:+ "Top level header" +:+ Py.dq +:+ "," +:+ Py.nl
  +:+ "  " +:+ Py.dq +:+ "content" +:+ Py.dq +:+ ": " +:+ Py.dq +:+ "El Plan VEA es un programa de ayudas lanzado ... until the end" +:+ Py.dq +:+ "," +:+ Py.nl
  +:+ "  " +:+ Py.dq +:+ "subsections" +:+ Py.dq +:+ ": [" +:+ Py.nl
  +:+ "    {" +:+ Py.nl +:+ "      " +:+ Py.dq +:+ "header" +:+ Py.dq +:+ ": " +:+ Py.dq +:+ "Mid level header" +:+ Py.dq +:+ "," +:+ Py.nl
  +:+ "      " +:+ Py.dq +:+ "content" +:+ Py.dq +:+ ": " +:+ Py.dq +:+ "Los objetivos principales del Plan VEA son ... until the end" +:+ Py.dq +:+ "," +:+ Py.nl
  +:+ "      " +:+ Py.dq +:+ "subsections" +:+ Py.dq +:+ ": [" +:+ Py.nl
  +:+ "        {" +:+ Py.nl +:+ "          " +:+ Py.dq +:+ "header" +:+ Py.dq +:+ ": " +:+ Py.dq +:+ "Low level header" +:+ Py.dq +:+ "," +:+ Py.nl
  +:+ "          " +:+ Py.dq +:+ "content" +:+ Py.dq +:+ ": " +:+ Py.dq +:+ "Muchos usuarios temen que las ayudas del ... until the end" +:+ Py.dq +:+ Py.nl
  +:+ "        }" +:+ Py.nl +:+ "      ]" +:+ Py.nl
  +:+ "    }" +:+ Py.nl +:+ "  ]" +:+ Py.nl +:+ "}]" +:+ Py.nl
  +:+ Py.nl +:+ "Text:" +:+ Py.nl +:+ "-------" +:+ Py.nl
  +:+ content_ +:+ Py.nl +:+ "-------".

(** The corrective turn appended after a [json.JSONDecodeError] [e]. *)
Definition not_valid_json (e : string) : Message :=
  user ("Your response is not valid JSON: " +:+ e).

(** [for _ in range(tries): try: ... break / except json.JSONDecodeError
    ... / else: raise ValueError], [tries] iterations being left. *)
Fixpoint split_retry_loop (tries : nat) (prompt : string)
    (errors : list Message) : M (list SectionNode) :=
  match tries with
  | O => raise (ValueError "The LLM can't return valid JSON after 5 tries.")
  | Datatypes.S k =>
      try_except_JSONDecodeError
        (let messages := user prompt :: errors in
         response <- llm_complete_messages messages ;;
         lift (parse_llm_response_to_json_list response))
        (fun e => split_retry_loop k prompt (errors ++ [not_valid_json e]))
  end.

Definition split_content_with_llm (content_ : string) (title : option string)
    (doc_hash : option string) : M (string * list SectionNode) :=
  cached <- get_cached_content_json_tree content_ doc_hash ;;
  let '(hash, res) := cached in
  if Py.truthy_list (default [] res) then ret (hash, default [] res)
  else if negb (Py.truthy_str content_) then raise (ValueError "Empty content")
  else
    let prompt := split_prompt content_ title in
    let tokens_count := Z.of_nat (length (tiktoken_encode prompt)) in
    if (tokens_count >? 100000)%Z then
      raise (ValueError ("TOO MANY TOKENS tokens_count = " +:+ pretty tokens_count))
    else
      resp <- split_retry_loop 5 prompt [] ;;
      resp <- lift (enrich_sections resp None None) ;;
      _ <- save_in_cache_content_json_tree hash resp ;;
      ret (hash, resp).

(** *** Sentence-window chunker *)

Definition split_content_by_sentences (markdown_content : string)
    (doc_hash : option string) (count : Z) : M (string * list string) :=
  cached <- get_cached_content_sentences markdown_content doc_hash ;;
  let '(hash, res) := cached in
  if Py.truthy_list (default [] res) then ret (hash, default [] res)
  else if negb (Py.truthy_str markdown_content)
  then raise (ValueError "Empty content")
  else
    let lines := sentence_lines markdown_content in
    let sentences_set := build_sentences_set lines count in
    _ <- save_in_cache_content_sentences hash sentences_set ;;
    ret (hash, sentences_set).

(** *** Embedding batcher *)

Definition tokens_of (sentences : string) : Z :=
  Z.of_nat (length (tiktoken_encode sentences)).

(** The [for] loop of [get_embeddings_for_sentences] over the sentences
    that are left, with the three variables it updates. *)
Fixpoint embeddings_loop (sentences_set : list string) (vectors : list Vec)
    (tmp_sentences : list string) (tmp_tokens_count : Z)
  : M (list Vec * list string * Z) :=
  match sentences_set with
  | [] => ret (vectors, tmp_sentences, tmp_tokens_count)
  | sentences :: rest =>
      let tokens_count := tokens_of sentences in
      if (tmp_tokens_count + tokens_count >? 250000)%Z then
        encoded <- embedding_encode_documents tmp_sentences ;;
        embeddings_loop rest (vectors ++ encoded) [sentences] tokens_count
      else
        embeddings_loop rest vectors (tmp_sentences ++ [sentences])
                        (tmp_tokens_count + tokens_count)%Z
  end.

Definition get_embeddings_for_sentences (doc_hash : string)
    (sentences_set : list string) : M (list Vec) :=
  cached <- get_cached_content_embeddings None (Some doc_hash) ;;
  match snd cached with
  | Some res => ret res
  | None =>
      st <- embeddings_loop sentences_set [] [] 0 ;;
      let '(vectors, tmp_sentences, _) := st in
      vectors <- (if Py.truthy_list tmp_sentences then
                    encoded <- embedding_encode_documents tmp_sentences ;;
                    ret (vectors ++ encoded)
                  else ret vectors) ;;
      _ <- save_in_cache_content_embeddings doc_hash vectors ;;
      ret vectors
  end.

(** *** Persistence of the sections *)

(** The body of the loop of [_save_sections_in_sql_db] for one [section]:
    the identifier the metadata store returns is kept in the node, then the
    subsections are saved. *)
Fixpoint save_section_in_sql_db (doc_hash : string) (section : SectionNode)
  : M SectionNode :=
  match section with
  | mkSection header_ content_ subs p l _ =>
      sql_doc_id_ <- sql_add_header_content_in_sdb
                       work_title doc_hash header_ content_ ;;
      subs' <- (fix go (rest : list SectionNode) : M (list SectionNode) :=
                  match rest with
                  | [] => ret []
                  | x :: r =>
                      x' <- save_section_in_sql_db doc_hash x ;;
                      r' <- go r ;;
                      ret (x' :: r')
                  end) subs ;;
      ret (mkSection header_ content_ subs' p l (Some sql_doc_id_))
  end.

Fixpoint _save_sections_in_sql_db (doc_hash : string)
    (sections : list SectionNode) : M (list SectionNode) :=
  match sections with
  | [] => ret []
  | x :: r =>
      x' <- save_section_in_sql_db doc_hash x ;;
      r' <- _save_sections_in_sql_db doc_hash r ;;
      ret (x' :: r')
  end.

(** *** Calls of the completion service that return a list of points *)

Definition ask_points (msg_content_ : string) : M (list string) :=
  let messages := [user msg_content_] in
  to_parse <- llm_complete_messages messages ;;
  ret (_extract_points to_parse).

Definition _generate_section_alternates (section_header : string)
  : M (list string) :=
  ask_points
    ("We are working on a document which the document is turning around '" +:+ work_title +:+ "'" +:+ Py.nl
     +:+ "        " +:+ Py.nl +:+ "Inside this document there is a section which header is: " +:+ section_header +:+ Py.nl
     +:+ "Give us few alternate section headers that mean the same thing as '" +:+ section_header +:+ "'" +:+ Py.nl
     +:+ Py.nl +:+ "Answer with the following format:" +:+ Py.nl
     +:+ Py.nl +:+ "---------------------" +:+ Py.nl
     +:+ "- alternative header 1" +:+ Py.nl +:+ "- alternative header 2" +:+ Py.nl
     +:+ "---------------------").

(** The text of [s] before its first colon ([s.split(':')[0]]). *)
Fixpoint before_colon (s : string) : string :=
  match s with
  | EmptyString => ""
  | String c r => if Ascii.eqb c ":"%char then "" else String c (before_colon r)
  end.

Definition _generate_documents_for_section_alternates (section_header : string)
  : M (list string) :=
  doc_titles <- ask_points
    ("We are working on a subject wich turns around '" +:+ work_title +:+ "'" +:+ Py.nl
     +:+ Py.nl +:+ "We ask you to give us some SHORT document titles which subject turn around '" +:+ work_title +:+ "' " +:+ Py.nl
     +:+ "and which contains a section which header is " +:+ section_header +:+ "." +:+ Py.nl
     +:+ "These documents are broader and not specific to " +:+ section_header +:+ "." +:+ Py.nl
     +:+ section_header +:+ " is just a section in these documents." +:+ Py.nl
     +:+ Py.nl +:+ "Answer with the following format:" +:+ Py.nl
     +:+ Py.nl +:+ "---------------------" +:+ Py.nl
     +:+ "- alternative header 1" +:+ Py.nl +:+ "- alternative header 2" +:+ Py.nl
     +:+ "---------------------") ;;
  ret (map (fun doc_title => Py.strip (before_colon doc_title)) doc_titles).

Definition _generate_question_alternates (question : string) : M (list string) :=
  ask_points
    ("Generate few alternative questions with the same meaning " +:+ Py.nl
     +:+ "for this question: " +:+ question +:+ Py.nl
     +:+ Py.nl +:+ "Answer with the following format:" +:+ Py.nl
     +:+ Py.nl +:+ "---------------------" +:+ Py.nl
     +:+ "- alternative question 1" +:+ Py.nl +:+ "- alternative question 2" +:+ Py.nl
     +:+ "---------------------").

Definition _generate_hypothetical_answers (question : string) : M (list string) :=
  ask_points
    ("Generate few hypothetical answers with the same meaning " +:+ Py.nl
     +:+ "for this question: " +:+ question +:+ Py.nl
     +:+ Py.nl +:+ "Answer with the following format:" +:+ Py.nl
     +:+ Py.nl +:+ "---------------------" +:+ Py.nl
     +:+ "- xxx yyy zzz..." +:+ Py.nl +:+ "- mmm nnn ooo..." +:+ Py.nl
     +:+ "---------------------").

Definition _generate_possible_headers_from_question (question : string)
  : M (list string) :=
  ask_points
    (Py.dq +:+ question +:+ Py.dq +:+ " is the question of a user." +:+ Py.nl
     +:+ "The answer to this question is a section inside a document. We don't know " +:+ Py.nl
     +:+ "that section's header. Give us few section's headers which we will use to do " +:+ Py.nl
     +:+ "search in a vector database. Your generated headers must be SHORT." +:+ Py.nl
     +:+ Py.nl +:+ "Answer with the following format:" +:+ Py.nl
     +:+ Py.nl +:+ "---------------------" +:+ Py.nl
     +:+ "- alternative question 1" +:+ Py.nl +:+ "- alternative question 2" +:+ Py.nl
     +:+ "---------------------").

(** *** Answers composed from context entries *)

Definition generate_summary_from_context_entries (context_entries : list string)
  : M string :=
  let msg_content_ :=
    "Generate a summary of the following context and cite your sources" +:+ Py.nl
    +:+ Py.nl +:+ format_context_entries context_entries in
  llm_complete_messages [user msg_content_].

(** A [question] that is [None] or empty is not used. *)
Definition truthy_question (question : option string) : option string :=
  match question with
  | Some q => if Py.truthy_str q then Some q else None
  | None => None
  end.

Definition generate_retranscript_from_context_entries
    (context_entries : list string) (question : option string) : M string :=
  let msg_content_ :=
    match truthy_question question with
    | Some question =>
        "Restranscript the following context in a clear and smart way, and cite your sources to answer" +:+ Py.nl
        +:+ "this question: " +:+ question +:+ Py.nl +:+ Py.nl
        +:+ format_context_entries context_entries
    | None =>
        "Retranscript the following context in a clear and smart way, and cite your sources" +:+ Py.nl
        +:+ Py.nl +:+ format_context_entries context_entries
    end in
  llm_complete_messages [user msg_content_].

Definition combine_context_entries (context_entries : list string)
    (question : option string) : M string :=
  let msg_content_ :=
    match truthy_question question with
    | Some question =>
        "Combine the following context in a clear and smart way, and cite your sources to answer " +:+ Py.nl
        +:+ "this question: " +:+ question +:+ Py.nl +:+ Py.nl
        +:+ format_context_entries context_entries
    | None =>
        "Combine the following context in a clear and smart way, and cite your sources" +:+ Py.nl
        +:+ Py.nl +:+ format_context_entries context_entries
    end in
  llm_complete_messages [user msg_content_].

Definition _get_content_from_sql_db_from_id (doc_id : string) : M string :=
  sql_get_content_from_id work_title doc_id.

(** *** Mode dispatcher *)

Definition _process_section_matchs (matchs : list SectionMatch)
    (mode : SectionAnswerMode) (top_k : Z) (question : option string) : M string :=
  match mode with
  | FIRST_BEST_RAW =>
      m0 <- index matchs 0 ;;
      _get_content_from_sql_db_from_id (m_sql_doc_id m0)
  | FIRST_BEST_SUMMARY =>
      m0 <- index matchs 0 ;;
      generate_summary_from_context_entries [_section_match_to_context_entry m0]
  | TOP_K_RAW =>
      ret (format_context_entries
             (map _section_match_to_context_entry (Py.slice matchs None (Some top_k))))
  | TOP_K_SUMMARY =>
      generate_summary_from_context_entries
        (map _section_match_to_context_entry (Py.slice matchs None (Some top_k)))
  | TOP_K_COMBINE =>
      combine_context_entries
        (map _section_match_to_context_entry (Py.slice matchs None (Some top_k)))
        question
  | TOP_K_RESTRANSCRIPT =>
      generate_retranscript_from_context_entries
        (map _section_match_to_context_entry (Py.slice matchs None (Some top_k)))
        question
  end.

(** *** Retrieval *)

Definition get_direct_answer (question : string)
    (use_alternates use_hypothetical_answers : bool) : M string :=
  alternates <- (if use_alternates
                 then a <- _generate_question_alternates question ;; ret (Some a)
                 else ret None) ;;
  hypothetical_answers <-
    (if use_hypothetical_answers
     then a <- _generate_hypothetical_answers question ;; ret (Some a)
     else ret None) ;;
  found_texts <- vdb_get_possible_answers_from_question
                   work_title question alternates hypothetical_answers ;;
  let messages :=
    [ mkMessage "system"
        "You are an expert in RAG. You use the context to respond the user question. Mention your references.";
      user ("Context:" +:+ Py.nl +:+ Py.nl +:+ json_dumps found_texts);
      user question ] in
  llm_complete_messages messages.

(** [f"{doc_title} - {header}"] for every title and every alternate, the
    titles in the outer loop. *)
Definition titled_headers (document_titles alternates : list string) : list string :=
  concat (map (fun doc_title =>
                 map (fun header_ => doc_title +:+ " - " +:+ header_) alternates)
              document_titles).

Definition document_titles_for (known_document_titles : option (list string))
    (section_header : string) : M (list string) :=
  if Py.truthy_list (default [] known_document_titles)
  then ret (default [] known_document_titles)
  else _generate_documents_for_section_alternates section_header.

Definition get_section_as_answer_from_header (section_header : string)
    (use_alternates : bool) (mode : SectionAnswerMode)
    (known_document_titles : option (list string)) (top_k : Z) : M string :=
  header_alternates <-
    (if use_alternates then
       alternates <- _generate_section_alternates section_header ;;
       document_titles <- document_titles_for known_document_titles section_header ;;
       ret (titled_headers document_titles alternates)
     else ret []) ;;
  matchs <- vdb_get_possible_matchs_from_header
              work_title section_header header_alternates top_k ;;
  _process_section_matchs matchs mode 5 None.

Definition get_section_as_answer_from_question (question : string)
    (use_alternates : bool) (mode : SectionAnswerMode)
    (known_document_titles : option (list string)) (top_k : Z) : M string :=
  possible_headers <- _generate_possible_headers_from_question question ;;
  possible_headers <-
    (if use_alternates then
       first_header <- index possible_headers 0 ;;
       alternates <- _generate_section_alternates first_header ;;
       document_titles <- document_titles_for known_document_titles first_header ;;
       ret (possible_headers ++ titled_headers document_titles alternates)
     else ret possible_headers) ;;
  header_ <- index possible_headers 0 ;;
  let possible_headers := drop 1 possible_headers in
  matchs <- vdb_get_possible_matchs_from_header
              work_title header_ possible_headers top_k ;;
  _process_section_matchs matchs mode top_k (Some question).

(** *** Self-verification and classification *)

Definition check_if_answer_is_correct (question answer : string) : M bool :=
  let msg_content_ :=
    "We are working on a document which the document is turning around '" +:+ work_title +:+ "'" +:+ Py.nl
    +:+ Py.nl +:+ "The user asked: " +:+ question +:+ Py.nl
    +:+ Py.nl +:+ "The assistant fetched the answer in the document and replied with: " +:+ answer +:+ Py.nl
    +:+ Py.nl +:+ "Is the assitant's answer looks like a good answer? Reply by YES or NO" in
  let messages := [user msg_content_] in
  to_parse <- llm_complete_messages messages ;;
  if Py.contains "yes" (Py.lower to_parse) then ret true else ret false.

Definition _classify_answer_for_question (question : string)
  : M (gmap string string) :=
  let msg_content_ :=
    "The user is asking this question: " +:+ Py.dq +:+ question +:+ Py.dq +:+ "." +:+ Py.nl
    +:+ "The answers to this question is inside a vector database. Your goal is to help us find these informations." +:+ Py.nl
    +:+ "        " +:+ Py.nl +:+ "Based on user's question you must guess if the answer can fit in ONE sentence, FEW sentences or TOO MANY sentences." +:+ Py.nl
    +:+ "You must also guess which kind of answer will be the best for the user when the answer will be in " +:+ Py.nl
    +:+ "TOO MANY sentences: a SUMMARY of results found or a COMBINATION of these results." +:+ Py.nl
    +:+ Py.nl +:+ "---------------------------------------" +:+ Py.nl
    +:+ Py.nl +:+ "Let me show you some examples:" +:+ Py.nl
    +:+ Py.nl +:+ "^^^^^^^^^^^^^^^^^^^^^^^^^^" +:+ Py.nl
    +:+ "Question: What is the birth date of Donald Trump Junior" +:+ Py.nl
    +:+ "Your answer: {" +:+ Py.dq +:+ "reasoning" +:+ Py.dq +:+ ": " +:+ Py.dq +:+ "The user is asking for a birth date which can be replied in one sentence" +:+ Py.dq +:+ ", " +:+ Py.dq +:+ "number_of_sentences" +:+ Py.dq +:+ ": " +:+ Py.dq +:+ "ONE" +:+ Py.dq +:+ "}" +:+ Py.nl
    +:+ Py.nl +:+ "^^^^^^^^^^^^^^^^^^^^^^^^^^^" +:+ Py.nl
    +:+ "Question: When did the conflict end?" +:+ Py.nl
    +:+ "Your answer: {" +:+ Py.dq +:+ "reasoning" +:+ Py.dq +:+ ": " +:+ Py.dq +:+ "The user is asking for ..." +:+ Py.dq +:+ ", " +:+ Py.dq +:+ "number_of_sentences" +:+ Py.dq +:+ ": " +:+ Py.dq +:+ "ONE" +:+ Py.dq +:+ "}" +:+ Py.nl
    +:+ Py.nl +:+ "^^^^^^^^^^^^^^^^^^^^^^^^^^^" +:+ Py.nl
    +:+ "Question: How to cook a pizza?" +:+ Py.nl
    +:+ "Your answer: {" +:+ Py.dq +:+ "reasoning" +:+ Py.dq +:+ ": " +:+ Py.dq +:+ "The user is asking for ..." +:+ Py.dq +:+ ", " +:+ Py.dq +:+ "number_of_sentences" +:+ Py.dq +:+ ": " +:+ Py.dq +:+ "FEW" +:+ Py.dq +:+ "}" +:+ Py.nl
    +:+ Py.nl +:+ "^^^^^^^^^^^^^^^^^^^^^^^^^^^" +:+ Py.nl
    +:+ "Question: What were the causes of Matthew departure?" +:+ Py.nl
    +:+ "Your answer: {" +:+ Py.dq +:+ "reasoning" +:+ Py.dq +:+ ": " +:+ Py.dq +:+ "The user is asking for ..." +:+ Py.dq +:+ ", " +:+ Py.dq +:+ "number_of_sentences" +:+ Py.dq +:+ ": " +:+ Py.dq +:+ "FEW" +:+ Py.dq +:+ "}" +:+ Py.nl
    +:+ Py.nl +:+ "^^^^^^^^^^^^^^^^^^^^^^^^^^^" +:+ Py.nl
    +:+ "Question: Tell me everything you can find about Rust weaknesses" +:+ Py.nl
    +:+ "Your answer: {" +:+ Py.dq +:+ "reasoning" +:+ Py.dq +:+ ": " +:+ Py.dq +:+ "The user is asking for ... and we must combine all the results" +:+ Py.dq +:+ ", " +:+ Py.nl
    +:+ Py.dq +:+ "number_of_sentences" +:+ Py.dq +:+ ": " +:+ Py.dq +:+ "TOO_MANY" +:+ Py.dq +:+ ", " +:+ Py.dq +:+ "kind" +:+ Py.dq +:+ ": " +:+ Py.dq +:+ "COMBINING" +:+ Py.dq +:+ "}" +:+ Py.nl
    +:+ Py.nl +:+ "^^^^^^^^^^^^^^^^^^^^^^^^^^^" +:+ Py.nl
    +:+ "Question: What can you tell me about Rust?" +:+ Py.nl
    +:+ "Your answer: {" +:+ Py.dq +:+ "reasoning" +:+ Py.dq +:+ ": " +:+ Py.dq +:+ "The user is asking for a summary of everything we can find about Rust" +:+ Py.dq +:+ ", " +:+ Py.nl
    +:+ Py.dq +:+ "number_of_sentences" +:+ Py.dq +:+ ": " +:+ Py.dq +:+ "FEW" +:+ Py.dq +:+ ", " +:+ Py.dq +:+ "kind" +:+ Py.dq +:+ ": " +:+ Py.dq +:+ "SUMMARY" +:+ Py.dq +:+ "}" +:+ Py.nl
    +:+ Py.nl +:+ "---------------------------------------" +:+ Py.nl
    +:+ Py.nl +:+ question +:+ Py.nl +:+ Py.nl +:+ "Your answer: " in
  let messages := [user msg_content_] in
  to_parse <- llm_complete_messages messages ;;
  lift (_extract_to_json_object to_parse).

(** *** Answer strategy engine *)

Definition mode_eqb (a b : SectionAnswerMode) : bool :=
  match a, b with
  | FIRST_BEST_RAW, FIRST_BEST_RAW | FIRST_BEST_SUMMARY, FIRST_BEST_SUMMARY
  | TOP_K_RAW, TOP_K_RAW | TOP_K_COMBINE, TOP_K_COMBINE
  | TOP_K_SUMMARY, TOP_K_SUMMARY | TOP_K_RESTRANSCRIPT, TOP_K_RESTRANSCRIPT => true
  | _, _ => false
  end.

Definition mode_is (mode : option SectionAnswerMode) (m : SectionAnswerMode) : bool :=
  match mode with
  | Some m' => mode_eqb m' m
  | None => false
  end.

(** [classified_answer[key]] *)
Definition dict_get (d : gmap string string) (key : string) : M string :=
  match d !! key with
  | Some v => ret v
  | None => raise (KeyError key)
  end.

(** The first [if]/[else] of [get_answer]: the value of
    [number_of_sentences] the dispatch below compares, and [kind]. *)
Definition classify_question (question : string)
    (mode : option SectionAnswerMode) (number_of_sentences : option string)
  : M (string * option string) :=
  match number_of_sentences with
  | None =>
      classified_answer <- _classify_answer_for_question question ;;
      n <- dict_get classified_answer "number_of_sentences" ;;
      ret (str_upper n, str_upper <$> classified_answer !! "kind")
  | Some n =>
      if mode_is mode FIRST_BEST_SUMMARY || mode_is mode TOP_K_SUMMARY
      then ret (n, Some "SUMMARY")
      else if mode_is mode TOP_K_COMBINE
              && false (* the enumeration member is compared with a str *)
      then ret (n, Some "COMBINE")
      else ret (n, None)
  end.

Definition get_answer (question : string) (top_k : Z) (return_raw : bool)
    (mode : option SectionAnswerMode) (number_of_sentences : option string)
  : M string :=
  classified <- classify_question question mode number_of_sentences ;;
  let '(number_of_sentences, kind) := classified in
  if String.eqb number_of_sentences "ONE" then
    get_direct_answer question true true
  else if String.eqb number_of_sentences "FEW" then
    first_answer <- get_direct_answer question true true ;;
    is_good <- check_if_answer_is_correct question first_answer ;;
    if is_good then ret first_answer
    else
      let mode :=
        match mode with
        | Some m => m
        | None => if return_raw then TOP_K_RAW else TOP_K_COMBINE
        end in
      get_section_as_answer_from_question question true mode None top_k
  else if String.eqb number_of_sentences "TOO_MANY" then
    let mode :=
      match mode with
      | Some m => m
      | None =>
          if return_raw then TOP_K_RAW
          else if bool_decide (kind = Some "SUMMARY") then TOP_K_RESTRANSCRIPT
          else TOP_K_COMBINE
      end in
    get_section_as_answer_from_question question true mode None top_k
  else
    raise (ValueError ("Wrong value for number_of_sentences '"
                       +:+ number_of_sentences +:+ "'")).

End MJRagAlgorithm.

(** * Notions used in the statements *)

(** ** Enrichment containment *)

(** [x] occurs in [s] at offset [off]. *)
Definition occurs_at (off : nat) (x s : string) : Prop :=
  exists pre post, s = pre +:+ x +:+ post /\ String.length pre = off.

(** [x] is a substring of [s]. *)
Definition substring_of (x s : string) : Prop :=
  exists pre post, s = pre +:+ x +:+ post.

(** The strings [xs] occur in [s] in order: at strictly increasing offsets,
    the first one at [lo] or later, all of them at [hi] or before. *)
Inductive occur_between (s : string) : nat -> nat -> list string -> Prop :=
| occur_nil lo hi : occur_between s lo hi []
| occur_cons lo hi off x xs :
    lo <= off -> off <= hi -> occurs_at off x s ->
    occur_between s (Datatypes.S off) hi xs ->
    occur_between s lo hi (x :: xs).

(** The strings [xs] occur in [s] in order, the first one at offset [lo] or
    later. *)
Definition occurs_in_order (s : string) (lo : nat) (xs : list string) : Prop :=
  occur_between s lo (String.length s) xs.

(** The nodes below [s], in document order. *)
Fixpoint descendants (s : SectionNode) : list SectionNode :=
  match s with
  | mkSection _ _ subs _ _ _ =>
      concat (map (fun c => c :: descendants c) subs)
  end.

(** The text [enrich_sections] starts the content of a node with: the
    markdown heading and the node's own content. *)
Definition own_text (level_ : Z) (raw : SectionNode) : string :=
  Py.str_mul "#" (Z.to_nat level_) +:+ " " +:+ header raw +:+ Py.nl +:+ Py.nl
  +:+ content raw.

(** The text appended for the subsections. *)
Definition subsections_text (subs : list SectionNode) : string :=
  String.concat "" (map (fun c => Py.nl +:+ Py.nl +:+ content c) subs).

(** Every node of a forest, in document order. *)
Definition all_nodes (forest : list SectionNode) : list SectionNode :=
  concat (map (fun c => c :: descendants c) forest).

(** ** Linearization *)

(** A shallow copy of [node] with another header. *)
Definition with_header (node : SectionNode) (h : string) : SectionNode :=
  mkSection h (content node) (subsections node) (parents node) (level node)
            (sql_doc_id node).

(** The hierarchized title made of the last [k] ancestors and the header. *)
Definition hierarchized_title (ancestors : list string) (h : string) (k : nat)
  : string :=
  Py.join " - " (drop (length ancestors - k) ancestors ++ [h]).

(** The non-empty suffixes of a list, the longest first. *)
Fixpoint suffixes_longest_first {A} (l : list A) : list (list A) :=
  match l with
  | [] => []
  | _ :: r => l :: suffixes_longest_first r
  end.

(** The headers of the synthetic rows as the specification words them: one
    for every proper non-empty suffix of the ancestor chain, the longest
    suffix first, joined with the header. *)
Definition spec_hierarchized_headers (ancestors : list string) (h : string)
  : list string :=
  map (fun suffix => Py.join " - " (suffix ++ [h]))
      (drop 1 (suffixes_longest_first ancestors)).

(** The same with the whole chain counted among the suffixes. *)
Definition spec_hierarchized_headers_all (ancestors : list string) (h : string)
  : list string :=
  map (fun suffix => Py.join " - " (suffix ++ [h]))
      (suffixes_longest_first ancestors).

(** Every node of the forest has an identifier of the metadata store. *)
Definition persisted (forest : list SectionNode) : Prop :=
  Forall (fun node => is_Some (sql_doc_id node)) (all_nodes forest).

(** ** Document hash *)

(** [t'] is [t] with characters satisfying [ws] inserted. *)
Inductive inserted (ws : ascii -> bool) : string -> string -> Prop :=
| inserted_nil : inserted ws "" ""
| inserted_keep c t t' :
    inserted ws t t' -> inserted ws (String c t) (String c t')
| inserted_add c t t' :
    ws c = true -> inserted ws t t' -> inserted ws t (String c t').

(** Every character of [s] satisfies [p]. *)
Fixpoint all_chars (p : ascii -> bool) (s : string) : bool :=
  match s with
  | EmptyString => true
  | String c r => p c && all_chars p r
  end.

Definition is_space_char (c : ascii) : bool := Ascii.eqb c space_char.

(** The first character of a string. *)
Definition first_char (s : string) : option ascii :=
  match s with
  | EmptyString => None
  | String c _ => Some c
  end.

(** ** Traces *)

(** The calls of the completion service in a list of events: the messages
    sent and what came back. *)
Definition llm_calls (evs : list event) : list (list Message * result string) :=
  omap (fun ev => match ev with
                  | LlmCall messages response => Some (messages, response)
                  | _ => None
                  end) evs.

(** The batches passed to [encode_documents] in a list of events. *)
Definition encoded_batches (evs : list event) : list (list string) :=
  omap (fun ev => match ev with
                  | EncodeDocuments documents => Some documents
                  | _ => None
                  end) evs.

(** A query of the section-header index. *)
Definition is_header_retrieval (ev : event) : bool :=
  match ev with
  | GetPossibleMatchs _ _ _ => true
  | _ => false
  end.

(** The computation [m] only adds events that satisfy [P] to the trace. *)
Definition emits {S Vec A} (P : event -> Prop) (m : M S Vec A) : Prop :=
  forall w, exists evs, trace (snd (m w)) = trace w ++ evs /\ Forall P evs.

(** ** A scripted world

    A small instance of the services, for running the model on ASCII texts:
    the completion service reads its replies off a script (and repeats a list
    of two points when the script is over); upper-casing maps the letters
    a-z; the tokenizer gives one token per byte; the bracket search finds a
    response that is one balanced bracket expression, and nothing in a
    response without brackets; the JSON parser knows the four texts below and
    raises on an array whose first element is a bare word. *)
Module Scripted.

Definition state : Type := list string.

Definition default_reply : string :=
  "- alpha" +:+ Py.nl +:+ "- beta" +:+ Py.nl.

#[global] Instance llm : LLMServiceInterface state := {|
  complete_messages _ s :=
    match s with
    | reply :: rest => (Ok reply, rest)
    | [] => (Ok default_reply, [])
    end
|}.

#[global] Instance embedding : EmbeddingServiceInterface state nat := {|
  encode_documents documents s := (Ok (map String.length documents), s)
|}.

Definition a_match : SectionMatch :=
  mkMatch "Guide - Setup" ["Guide"] 2 "0.9" "Manual" None None None
          "Run the installer." "doc-1".

#[global] Instance vector_db : VectorDBServiceInterface state string := {|
  get_possible_answers_from_question _ _ _ _ s := (Ok ["a snippet"], s);
  get_possible_matchs_from_header _ _ _ _ s := (Ok [a_match], s)
|}.

#[global] Instance sql_db : SqlDBServiceInterface state := {|
  add_header_content_in_sdb _ _ h _ s := (Ok ("id of " +:+ h), s);
  get_content_from_id _ doc_id s := (Ok ("stored content of " +:+ doc_id), s)
|}.

Definition intro_section : SectionNode :=
  mkSection "Intro" "Some text." [] None None None.

(** The text of a JSON array of one section, and of the object of the
    classifier. *)
Definition intro_json : string :=
  "[{" +:+ Py.dq +:+ "header" +:+ Py.dq +:+ ": " +:+ Py.dq +:+ "Intro" +:+ Py.dq
  +:+ ", " +:+ Py.dq +:+ "content" +:+ Py.dq +:+ ": " +:+ Py.dq +:+ "Some text."
  +:+ Py.dq +:+ "}]".

Definition few_json : string :=
  "{" +:+ Py.dq +:+ "number_of_sentences" +:+ Py.dq +:+ ": " +:+ Py.dq +:+ "few"
  +:+ Py.dq +:+ "}".

(** A section with one subsection, as the completion service returns it,
    and after enrichment. *)
Definition guide : SectionNode :=
  mkSection "Guide" "Read this first."
            [mkSection "Setup" "Run the installer." [] None None None]
            None None None.

Definition guide_enriched : SectionNode := enrich_section [] 1 guide.

(** [s] goes on, [depth] brackets being open, to the bracket that closes
    the first one, and ends there. *)
Fixpoint balanced (opener closer : ascii) (s : string) (depth : nat) : bool :=
  match s with
  | EmptyString => false
  | String c r =>
      if Ascii.eqb c opener then balanced opener closer r (Datatypes.S depth)
      else if Ascii.eqb c closer then
        match depth with
        | O => false
        | Datatypes.S O => match r with EmptyString => true | _ => false end
        | Datatypes.S d => balanced opener closer r d
        end
      else balanced opener closer r depth
  end.

Definition search_balanced (opener closer response : string) : list string :=
  match opener, closer with
  | String o EmptyString, String c EmptyString =>
      if String.prefix opener response && balanced o c response 0
      then [response] else []
  | _, _ => []
  end.

#[global] Instance libraries : Libraries string := {|
  str_upper := Py.upper;
  tiktoken_encode s := map (fun c => Z.of_nat (nat_of_ascii c)) (list_ascii_of_string s);
  pyparsing_search := search_balanced;
  json_loads_sections s :=
    if String.eqb s "[]" then Ok []
    else if String.eqb s intro_json then Ok [intro_section]
    else Raise (JSONDecodeError "Expecting value: line 1 column 2 (char 1)");
  json_loads_object s :=
    if String.eqb s "{}" then Ok ∅
    else if String.eqb s few_json then Ok {[ "number_of_sentences" := "few" ]}
    else Raise (JSONDecodeError
                  "Expecting property name enclosed in double quotes: line 1 column 2 (char 1)");
  json_dumps found := String.concat ", " found
|}.

(** The world before any call, with a script for the completion service. *)
Definition start (script : list string) : world state nat :=
  mkWorld script ∅ ∅ ∅ [].

(** A sentence of 250001 bytes, that is of 250001 tokens here. *)
Definition big_sentence : string := Py.str_mul "a" (Z.to_nat 250001).

(** A FEW question in the scripted world: the direct answer, then the
    self-check of it. *)
Definition few_direct : result string * world state nat :=
  get_direct_answer "work" "q?" true true (start []).

Definition few_check : result bool * world state nat :=
  check_if_answer_is_correct "work" "q?" default_reply (snd few_direct).

End Scripted.

(** ** Answer strategy *)

(** The mode of the fall-back of a FEW question as the specification words it:
    [TOP_K_RAW] when [return_raw] is set, [TOP_K_COMBINE] when no mode is
    supplied and [return_raw] is not set, the caller's mode otherwise. *)
Definition spec_few_fallback_mode (mode : option SectionAnswerMode)
    (return_raw : bool) : SectionAnswerMode :=
  if return_raw then TOP_K_RAW
  else match mode with
       | None => TOP_K_COMBINE
       | Some m => m
       end.

(** The mode of the fall-back of a FEW question as [get_answer] computes
    it: the caller's mode when there is one, else [TOP_K_RAW] when
    [return_raw] is set, else [TOP_K_COMBINE]. *)
Definition few_fallback_mode (mode : option SectionAnswerMode)
    (return_raw : bool) : SectionAnswerMode :=
  match mode with
  | Some m => m
  | None => if return_raw then TOP_K_RAW else TOP_K_COMBINE
  end.

(** ** Embedding batches *)

Section BatchNotions.
Context {Found : Type} {libraries : Libraries Found}.

(** The token count of a batch. *)
Definition total_tokens (batch : list string) : Z :=
  fold_right Z.add 0%Z (map (tokens_of (Found := Found)) batch).

(** A batch within the cap, or made of one sentence that exceeds the cap by
    itself. *)
Definition batch_ok (batch : list string) : Prop :=
  (total_tokens batch <= 250000)%Z
  \/ exists s, batch = [s] /\ (250000 < tokens_of (Found := Found) s)%Z.

(** Every batch after the first starts with a sentence that did not fit in
    the batch before it. *)
Definition greedy (batches : list (list string)) : Prop :=
  forall i b b',
    batches !! i = Some b -> batches !! (Datatypes.S i) = Some b' ->
    exists s t,
      b' = s :: t /\ (250000 < total_tokens b + tokens_of (Found := Found) s)%Z.

End BatchNotions.

(** ** Retries of the splitter *)

Section SplitterNotions.
Context {Found : Type} {libraries : Libraries Found}.

(** The message of the [json.JSONDecodeError] an attempt ended with, when it
    ended so: the error is raised by the parser on the response, or by the
    call of the completion service itself. *)
Definition json_error_of (response : result string) : option string :=
  match response with
  | Ok s =>
      match parse_llm_response_to_json_list (Found := Found) s with
      | Raise (JSONDecodeError e) => Some e
      | _ => None
      end
  | Raise (JSONDecodeError e) => Some e
  | Raise _ => None
  end.

(** The corrective turns for the attempts of [calls] that ended with a
    [json.JSONDecodeError], in order. *)
Definition corrections (calls : list (list Message * result string))
  : list Message :=
  omap (fun c => not_valid_json <$> json_error_of (snd c)) calls.

(** An attempt as an event of the trace. *)
Definition attempt_event (c : list Message * result string) : event :=
  LlmCall (fst c) (snd c).

(** What a run of the retry loop, [tries] attempts being left and [errors]
    being the corrective turns so far, has done when it ends with [r] after
    the attempts [calls]: no more than [tries] attempts; attempt [i] (from 0)
    sent the prompt, [errors] and the corrective turns of the [i] attempts
    before it, one for each; if every attempt ended with a
    [json.JSONDecodeError] there were [tries] of them and the loop raised;
    a tree is the parse of the response of the last attempt. *)
Definition retry_run (tries : nat) (prompt : string) (errors : list Message)
    (r : result (list SectionNode)) (calls : list (list Message * result string))
  : Prop :=
  length calls <= tries
  /\ (0 < tries -> 1 <= length calls)
  /\ (forall i c,
         calls !! i = Some c ->
         fst c = user prompt :: errors ++ corrections (take i calls)
         /\ length (corrections (take i calls)) = i)
  /\ (Forall (fun c => is_Some (json_error_of (snd c))) calls ->
      length calls = tries /\ r = Raise (ValueError "The LLM can't return valid JSON after 5 tries."))
  /\ (forall tree,
         r = Ok tree ->
         exists messages response,
           last calls = Some (messages, Ok response) /\ parse_llm_response_to_json_list (Found := Found) response = Ok tree).

End SplitterNotions.

(** ** Section hierarchy *)

(** The nodes of a tree in document order, each with the headers of its
    ancestors, the root's first. *)
Fixpoint with_ancestors (ancestors : list string) (s : SectionNode)
  : list (list string * SectionNode) :=
  match s with
  | mkSection h _ subs _ _ _ =>
      (ancestors, s) :: concat (map (with_ancestors (ancestors ++ [h])) subs)
  end.

Definition forest_with_ancestors (forest : list SectionNode)
  : list (list string * SectionNode) :=
  concat (map (with_ancestors []) forest).

(** The sum of the levels of the nodes of a forest. *)
Definition total_levels (forest : list SectionNode) : Z :=
  fold_right Z.add 0%Z (map (fun node => default 0%Z (level node)) (all_nodes forest)).

(** ** Cache directories *)

(** The three cache directories of [w'] are those of [w]. *)
Definition same_caches {S Vec} (w w' : world S Vec) : Prop :=
  content_to_json_cache w' = content_to_json_cache w
  /\ content_to_sentence_cache w' = content_to_sentence_cache w
  /\ content_to_vector_cache w' = content_to_vector_cache w.

(** The computation [m] does not write in the cache directories. *)
Definition keeps_caches {S Vec A} (m : M S Vec A) : Prop :=
  forall w, same_caches w (snd (m w)).

(** ** Persistence *)

(** The calls of the metadata store for [nodes], in order. *)
Definition sql_add_events (doc_hash : string) (nodes : list SectionNode)
  : list event :=
  map (fun node => SqlAddHeaderContent doc_hash (header node) (content node)) nodes.

(** A tree without the identifiers of the metadata store. *)
Fixpoint forget_id (s : SectionNode) : SectionNode :=
  match s with
  | mkSection h c subs p l _ => mkSection h c (map forget_id subs) p l None
  end.

(** The world [w] once a service has left the state [s]. *)
Definition with_svc {S Vec} (w : world S Vec) (s : S) : world S Vec :=
  mkWorld s (content_to_json_cache w) (content_to_sentence_cache w)
          (content_to_vector_cache w) (trace w).

Section PersistenceNotions.
Context {S : Type} {sql_db_service : SqlDBServiceInterface S}.
Variable work_title : string.

(** The metadata store called for [nodes], one node after the other from
    the state [s], until a call raises: the identifiers it returned, the
    exception of the call that raised when there is one, and the state it is
    left in. *)
Fixpoint sql_calls (doc_hash : string) (nodes : list SectionNode) (s : S)
  : list string * option exn * S :=
  match nodes with
  | [] => ([], None, s)
  | node :: rest =>
      match add_header_content_in_sdb work_title doc_hash
              (header node) (content node) s with
      | (Ok sql_doc_id_, s1) =>
          let '(ids, err, s2) := sql_calls doc_hash rest s1 in
          (sql_doc_id_ :: ids, err, s2)
      | (Raise e, s1) => ([], Some e, s1)
      end
  end.

(** The number of calls made: one for every identifier returned, and the
    call that raised. *)
Definition calls_made (ids : list string) (err : option exn) : nat :=
  length ids + (if err is Some _ then 1 else 0).

End PersistenceNotions.

Section PersistenceRuns.
Context {S Vec : Type} {sql_db_service : SqlDBServiceInterface S}.
Variable work_title : string.

(** What a run that saves [tree], whose nodes in document order are
    [nodes], has done when it ends with [r] in the world [w']: the calls of
    [sql_calls], and no other, were made and recorded; when none raised the
    run returns the tree it was given with the identifiers the store
    returned, in document order; otherwise it raises the exception of the
    call that raised. *)
Definition saved_run {T} (forget : T -> T) (ids_of : T -> list (option string))
    (doc_hash : string) (tree : T) (nodes : list SectionNode)
    (w : world S Vec) (r : result T) (w' : world S Vec) : Prop :=
  forall ids err s',
    sql_calls work_title doc_hash nodes (svc w) = (ids, err, s') ->
    svc w' = s'
    /\ same_caches w w'
    /\ trace w'
       = trace w ++ sql_add_events doc_hash (take (calls_made ids err) nodes)
    /\ match err with
       | None =>
           length ids = length nodes
           /\ exists saved,
               r = Ok saved /\ forget saved = forget tree
               /\ ids_of saved = map Some ids
       | Some e => r = Raise e /\ length ids < length nodes
       end.

End PersistenceRuns.


(** ** Sentence fragments *)

(** No match of [rgx_sentence_limiter] starts inside [t] when [t] is
    followed by [s]. *)
Fixpoint clean_before (t s : string) : Prop :=
  match t with
  | EmptyString => True
  | String _ t' =>
      rgx_sentence_limiter_match (t +:+ s) = None /\ clean_before t' s
  end.

(** ** Points *)

Definition not_nl (c : ascii) : bool := negb (Ascii.eqb c nl_char).

(** [s] is empty or its last character is a newline. *)
Fixpoint ends_with_nl (s : string) : bool :=
  match s with
  | EmptyString => true
  | String c EmptyString => Ascii.eqb c nl_char
  | String _ r => ends_with_nl r
  end.

(** ** Answer strategy, the other branches *)

(** A query of the sentence index. *)
Definition is_sentence_retrieval (ev : event) : bool :=
  match ev with
  | GetPossibleAnswers _ _ _ => true
  | _ => false
  end.

(** The mode of section retrieval for a TOO_MANY question as [get_answer]
    computes it. *)
Definition too_many_mode (mode : option SectionAnswerMode) (return_raw : bool)
    (kind : option string) : SectionAnswerMode :=
  match mode with
  | Some m => m
  | None =>
      if return_raw then TOP_K_RAW
      else if bool_decide (kind = Some "SUMMARY") then TOP_K_RESTRANSCRIPT
      else TOP_K_COMBINE
  end.

(** A FEW question in the scripted world whose direct answer is accepted by
    the self-check. *)
Definition few_script : list string :=
  ["- a" +:+ Py.nl; "- b" +:+ Py.nl; "The answer."; "YES"].

Definition few_direct_accepted : result string * world Scripted.state nat :=
  get_direct_answer "work" "q?" true true (Scripted.start few_script).

Definition few_check_accepted : result bool * world Scripted.state nat :=
  check_if_answer_is_correct "work" "q?" "The answer." (snd few_direct_accepted).

(** ** The vector store protocol

    The methods [VectorDBServiceInterface] of [interfaces.py] implements
    itself.  Its [rgx_space] is the pattern of one or more whitespace
    characters; it is taken here on the ASCII range, as [Py.isspace]: in a
    text of ASCII characters these are the characters the pattern matches. *)
Module VectorDBService.

(** [rgx_space.sub(repl, s)]: every maximal run of whitespace is replaced by
    [repl]; [in_run] tells that the character before belongs to a run. *)
Fixpoint rgx_space_sub (repl : string) (s : string) (in_run : bool) : string :=
  match s with
  | EmptyString => ""
  | String c r =>
      if Py.isspace c then
        if in_run then rgx_space_sub repl r true
        else repl +:+ rgx_space_sub repl r true
      else String c (rgx_space_sub repl r false)
  end.

Definition get_collection_name_for_sentences_set (work_title : string) : string :=
  let canon := rgx_space_sub "_" work_title false in
  "collection_sentences_" +:+ canon.

Definition get_collection_name_for_section_headers (work_title : string) : string :=
  let canon := rgx_space_sub "_" work_title false in
  "collection_sections_" +:+ canon.

Definition get_content_hash (content_ : string) : string :=
  let content1 := rgx_space_sub "" content_ false in
  let content2 := rgx_2_lines_sub_nl content1 in
  SHA256.hexdigest content2.

End VectorDBService.

(** ** Shapes of strings *)

Definition is_hex_digit (c : ascii) : bool :=
  let n := nat_of_ascii c in
  ((48 <=? n) && (n <=? 57)) || ((97 <=? n) && (n <=? 102)).

Definition not_space (c : ascii) : bool := negb (Py.isspace c).

(** No newline of [s] is followed by a newline. *)
Fixpoint no_blank_line (s : string) : bool :=
  match s with
  | EmptyString => true
  | String c r =>
      match r with
      | String c' _ =>
          negb (Ascii.eqb c nl_char && Ascii.eqb c' nl_char) && no_blank_line r
      | EmptyString => true
      end
  end.

(** ** Ingestion *)

(** A row of the collection of section headers: a section dictionary after
    [_remove_subsections_in_sections] has popped its keys 'subsections' and
    'content'. *)
Record HeaderRow := mkRow {
  row_header : string;
  row_parents : option (list string);
  row_level : option Z;
  row_sql_doc_id : option string
}.

(** [_remove_subsections_in_sections]: the source pops the two keys in
    place; the rows that are left are returned here. *)
Definition _remove_subsections_in_sections (sections : list SectionNode)
  : list HeaderRow :=
  map (fun section => mkRow (header section) (parents section) (level section)
                            (sql_doc_id section))
      sections.

(** The methods of the vector store that write. *)
Class VectorDBIngestionInterface (S Vec : Type) := {
  create_collection_for_section_headers : string -> S -> result unit * S;
  create_collection_for_sentences_set : string -> S -> result unit * S;
  insert_sentences_set :
    string -> list string -> list Vec -> string ->
    option string -> option string -> option string -> S -> result unit * S;
  insert_section_headers :
    string -> list HeaderRow -> string ->
    option string -> option string -> option string -> S -> result unit * S
}.

(** One call of a writing method of the vector store. *)
Inductive write_event (Vec : Type) :=
| CreateCollectionForSentencesSet (work_title : string)
| CreateCollectionForSectionHeaders (work_title : string)
| InsertSentencesSet (sentences_set : list string) (sentences_vectors : list Vec)
    (source_title : string) (source_author source_url source_type : option string)
| InsertSectionHeaders (sections : list HeaderRow)
    (source_title : string) (source_author source_url source_type : option string).
Arguments CreateCollectionForSentencesSet {Vec}.
Arguments CreateCollectionForSectionHeaders {Vec}.
Arguments InsertSentencesSet {Vec}.
Arguments InsertSectionHeaders {Vec}.

(** The state an ingestion runs in: the world of the calls above and the
    log of the writes in the vector store. *)
Record ingestion (S Vec : Type) := mkIngestion {
  queries : world S Vec;
  writes : list (write_event Vec)
}.
Arguments mkIngestion {S Vec}.
Arguments queries {S Vec}.
Arguments writes {S Vec}.

Definition MI (S Vec A : Type) : Type :=
  ingestion S Vec -> result A * ingestion S Vec.

Definition retI {S Vec A} (a : A) : MI S Vec A := fun st => (Ok a, st).

Definition bindI {S Vec A B} (m : MI S Vec A) (k : A -> MI S Vec B) : MI S Vec B :=
  fun st =>
    match m st with
    | (Ok a, st') => k a st'
    | (Raise e, st') => (Raise e, st')
    end.

Notation "x <-- m ;; k" := (bindI m (fun x => k))
  (at level 100, m at next level, right associativity).

(** A computation of the class, run inside an ingestion. *)
Definition query {S Vec A} (m : M S Vec A) : MI S Vec A :=
  fun st =>
    let '(r, w) := m (queries st) in
    (r, mkIngestion w (writes st)).

(** A call of a writing method, logged. *)
Definition vdb_write {S Vec A} (call : S -> result A * S) (ev : write_event Vec)
  : MI S Vec A :=
  fun st =>
    let w := queries st in
    let '(r, s) := call (svc w) in
    (r, mkIngestion
          (mkWorld s (content_to_json_cache w) (content_to_sentence_cache w)
                   (content_to_vector_cache w) (trace w))
          (writes st ++ [ev])).

Section Ingestion.
Context {S Vec Found : Type}.
Context {llm_service : LLMServiceInterface S}
        {embedding_service : EmbeddingServiceInterface S Vec}
        {sql_db_service : SqlDBServiceInterface S}
        {vector_db_ingestion : VectorDBIngestionInterface S Vec}
        {libraries : Libraries Found}.

(** [self.work_title] and [self.add_hierarchized_titles] *)
Variable work_title : string.
Variable add_hierarchized_titles : bool.

Definition save_text_as_set_in_vdb (markdown_content source_title : string)
    (source_author source_url source_type doc_hash : option string) (count : Z)
  : MI S Vec string :=
  _ <-- vdb_write (create_collection_for_sentences_set work_title)
                  (CreateCollectionForSentencesSet work_title) ;;
  res <-- query (split_content_by_sentences markdown_content doc_hash count) ;;
  let '(doc_hash, sentences_set) := res in
  sentences_vectors <--
    query (get_embeddings_for_sentences (Found := Found) doc_hash sentences_set) ;;
  _ <-- vdb_write (insert_sentences_set work_title sentences_set sentences_vectors
                     source_title source_author source_url source_type)
                  (InsertSentencesSet sentences_set sentences_vectors
                     source_title source_author source_url source_type) ;;
  retI doc_hash.

(** The result is [None] when the source returns without a value. *)
Definition save_text_as_titles_in_vdb (markdown_content source_title : string)
    (source_author source_url source_type doc_hash : option string)
  : MI S Vec (option string) :=
  _ <-- vdb_write (create_collection_for_section_headers work_title)
                  (CreateCollectionForSectionHeaders work_title) ;;
  res <-- query (split_content_with_llm (Found := Found)
                   markdown_content None doc_hash) ;;
  let '(doc_hash, sections) := res in
  sections <-- query (_save_sections_in_sql_db work_title doc_hash sections) ;;
  let sections := _linearize_sections add_hierarchized_titles sections in
  if negb (Py.truthy_list sections) then retI None
  else
    let rows := _remove_subsections_in_sections sections in
    _ <-- vdb_write (insert_section_headers work_title rows
                       source_title source_author source_url source_type)
                    (InsertSectionHeaders rows
                       source_title source_author source_url source_type) ;;
    retI (Some doc_hash).

Definition save_text_in_databases (markdown_content source_title : string)
    (source_author source_url source_type doc_hash : option string)
  : MI S Vec (option string) :=
  _ <-- save_text_as_set_in_vdb markdown_content source_title
          source_author source_url source_type doc_hash 5 ;;
  save_text_as_titles_in_vdb markdown_content source_title
    source_author source_url source_type doc_hash.

End Ingestion.

(** The vector store of the scripted world accepts every write. *)
#[global] Instance scripted_ingestion
  : VectorDBIngestionInterface Scripted.state nat := {|
  create_collection_for_section_headers _ s := (Ok tt, s);
  create_collection_for_sentences_set _ s := (Ok tt, s);
  insert_sentences_set _ _ _ _ _ _ _ s := (Ok tt, s);
  insert_section_headers _ _ _ _ _ _ s := (Ok tt, s)
|}.

(** The state before an ingestion, with a script for the completion service. *)
Definition ingestion_start (script : list string) : ingestion Scripted.state nat :=
  mkIngestion (Scripted.start script) [].

(** ** Context entries *)

(** The match [m] with another header. *)
Definition match_with_header (m : SectionMatch) (h : string) : SectionMatch :=
  mkMatch h (m_parents m) (m_level m) (m_score m) (m_source_title m)
          (m_source_url m) (m_source_author m) (m_source_type m)
          (m_content m) (m_sql_doc_id m).

(** ** Whitespace *)

(** [s] starts with a whitespace character. *)
Definition starts_with_space (s : string) : bool :=
  match s with
  | EmptyString => false
  | String c1 r1 =>
      Py.isspace c1
      || match r1 with
         | EmptyString => false
         | String c2 r2 =>
             Py.isspace2 c1 c2
             || match r2 with
                | EmptyString => false
                | String c3 _ => Py.isspace3 c1 c2 c3
                end
         end
  end.

(** [s.isascii()] *)
Definition isascii (s : string) : bool :=
  all_chars (fun c => nat_of_ascii c <? 128) s.

(** A whitespace character, of one, two or three bytes, starts somewhere in
    [s]. *)
Fixpoint has_space (s : string) : bool :=
  match s with
  | EmptyString => false
  | String _ r => starts_with_space s || has_space r
  end.

(** * Theorems *)

(** ** The model on examples

    The values below are the ones Python gives for the same inputs. *)

Example sha256_abc :
  SHA256.hexdigest "abc"
  = "ba7816bf8f01cfea414140de5dae2223b00361a396177a9cb410ff61f20015ad".
Proof. vm_compute. reflexivity. Qed.

Example sha256_empty :
  SHA256.hexdigest ""
  = "e3b0c44298fc1c149afbf4c8996fb92427ae41e4649b934ca495991b7852b855".
Proof. vm_compute. reflexivity. Qed.

Example get_doc_hash_example :
  get_doc_hash ("a b" +:+ Py.nl +:+ Py.nl +:+ Py.nl +:+ " c")
  = SHA256.hexdigest ("ab" +:+ Py.nl +:+ "c").
Proof. vm_compute. reflexivity. Qed.

Example rgx_sentence_limiter_split_example :
  rgx_sentence_limiter_split
    ("Hello world. This is it! Really?" +:+ Py.nl +:+ "Yes" +:+ Py.nl +:+ Py.nl
     +:+ "ok.. fine. ")
  = [ "Hello world"; ". "; "This is it"; "! "; "Really"; "?" +:+ Py.nl; "Yes";
      Py.nl +:+ Py.nl; "ok."; ". "; "fine"; ". "; "" ].
Proof. vm_compute. reflexivity. Qed.

Example build_sentences_set_example :
  build_sentences_set ["a"; "b"; "c"; "d"; "e"; "f"; "g"] 1 = [" a b"; " c d"].
Proof. vm_compute. reflexivity. Qed.

Example extract_points_example :
  _extract_points ("---" +:+ Py.nl +:+ "- alpha " +:+ Py.nl +:+ "-  " +:+ Py.nl
                   +:+ "x - beta - gamma" +:+ Py.nl +:+ "- last")
  = ["alpha"; "beta - gamma"].
Proof. vm_compute. reflexivity. Qed.

Example py_slice_example :
  Py.slice [1; 2; 3; 4; 5] (Some 1%Z) (Some (-1)%Z) = [2; 3; 4]
  /\ Py.slice [1; 2; 3; 4; 5] (Some (-2)%Z) None = [4; 5]
  /\ Py.slice [1; 2; 3] None (Some 7%Z) = [1; 2; 3].
Proof. vm_compute. repeat split. Qed.

Example py_replace_example :
  Py.replace "A - B - C" "A - B" "" = " - C"
  /\ Py.replace "aaa" "aa" "b" = "ba"
  /\ Py.replace "abc" "" "-" = "-a-b-c-".
Proof. vm_compute. repeat split. Qed.


(** ** Facts about strings *)

Lemma str_app_cons (c : ascii) (a b : string) :
  String c a +:+ b = String c (a +:+ b).
Proof. reflexivity. Qed.

Lemma str_app_nil_l (s : string) : "" +:+ s = s.
Proof. reflexivity. Qed.

Lemma str_app_nil_r (s : string) : s +:+ "" = s.
Proof.
  induction s as [|c s IH]; [reflexivity |].
  now rewrite str_app_cons, IH.
Qed.

Lemma str_app_assoc (a b c : string) : (a +:+ b) +:+ c = a +:+ (b +:+ c).
Proof.
  induction a as [|x a IH]; [reflexivity |].
  now rewrite !str_app_cons, IH.
Qed.

Lemma str_length_app (a b : string) :
  String.length (a +:+ b) = String.length a + String.length b.
Proof.
  induction a as [|x a IH]; [reflexivity |].
  rewrite str_app_cons. simpl. now rewrite IH.
Qed.

(** ** Enrichment containment *)

Lemma occurs_at_substring off x s : occurs_at off x s -> substring_of x s.
Proof. intros (pre & post & -> & _). now exists pre, post. Qed.

Lemma occurs_at_le off x s : occurs_at off x s -> off <= String.length s.
Proof.
  intros (pre & post & -> & <-). rewrite str_length_app. lia.
Qed.

Lemma occurs_at_embed pre post off x s :
  occurs_at off x s ->
  occurs_at (String.length pre + off) x (pre +:+ s +:+ post).
Proof.
  intros (a & b & -> & <-). exists (pre +:+ a), (b +:+ post). split.
  - now rewrite !str_app_assoc.
  - apply str_length_app.
Qed.

Lemma occur_between_weaken s lo hi lo' hi' xs :
  lo' <= lo -> hi <= hi' ->
  occur_between s lo hi xs -> occur_between s lo' hi' xs.
Proof.
  intros Hlo Hhi H. revert lo' Hlo.
  induction H as [|lo hi off x xs Hl Hh Hocc _ IH]; intros lo' Hlo.
  - constructor.
  - apply occur_cons with (off := off); [lia | lia | exact Hocc |].
    apply IH; [exact Hhi | lia].
Qed.

Lemma occur_between_embed pre post s lo hi xs :
  occur_between s lo hi xs ->
  occur_between (pre +:+ s +:+ post)
                (String.length pre + lo) (String.length pre + hi) xs.
Proof.
  induction 1 as [|lo hi off x xs Hl Hh Hocc _ IH].
  - constructor.
  - apply occur_cons with (off := String.length pre + off); [lia | lia | |].
    + now apply occurs_at_embed.
    + now rewrite Nat.add_succ_r in IH.
Qed.

Lemma occur_between_app s lo mid hi xs ys :
  lo <= Datatypes.S mid -> mid <= hi ->
  occur_between s lo mid xs ->
  occur_between s (Datatypes.S mid) hi ys ->
  occur_between s lo hi (xs ++ ys).
Proof.
  intros Hlo Hmid Hx. revert ys.
  induction Hx as [lo mid|lo mid off x xs Hl Hh Hocc _ IH]; intros ys Hy; simpl.
  - now apply occur_between_weaken with (lo := Datatypes.S mid) (hi := hi).
  - apply occur_cons with (off := off); [lia | lia | exact Hocc |].
    apply IH; [lia | exact Hmid | exact Hy].
Qed.

Lemma concat_empty_cons (x : string) (xs : list string) :
  String.concat "" (x :: xs) = x +:+ String.concat "" xs.
Proof.
  destruct xs as [|y ys]; simpl; [now rewrite str_app_nil_r | reflexivity].
Qed.

Lemma subsections_text_cons c subs :
  subsections_text (c :: subs)
  = Py.nl +:+ Py.nl +:+ content c +:+ subsections_text subs.
Proof.
  unfold subsections_text. rewrite map_cons, concat_empty_cons.
  now rewrite !str_app_assoc.
Qed.

Lemma fold_left_subsections subs acc :
  fold_left (fun acc subsection => acc +:+ Py.nl +:+ Py.nl +:+ content subsection)
            subs acc
  = acc +:+ subsections_text subs.
Proof.
  revert acc. induction subs as [|c subs IH]; intros acc; simpl.
  - now rewrite str_app_nil_r.
  - rewrite IH, subsections_text_cons. now rewrite !str_app_assoc.
Qed.

Lemma enrich_section_content parents_ level_ raw :
  content (enrich_section parents_ level_ raw)
  = own_text level_ raw
    +:+ subsections_text (subsections (enrich_section parents_ level_ raw)).
Proof.
  destruct raw as [h c subs p l i]. unfold own_text. simpl.
  destruct subs as [|s1 rest]; simpl.
  - now rewrite !str_app_assoc, str_app_nil_r.
  - rewrite fold_left_subsections, subsections_text_cons.
    now rewrite !str_app_assoc.
Qed.

Lemma enrich_section_subsections parents_ level_ raw :
  subsections (enrich_section parents_ level_ raw)
  = map (enrich_section (parents_ ++ [header raw]) (level_ + 1)) (subsections raw).
Proof.
  destruct raw as [h c subs p l i]. simpl. now destruct subs.
Qed.

Lemma own_text_length level_ raw : 1 <= String.length (own_text level_ raw).
Proof.
  unfold own_text. rewrite !str_length_app. simpl. lia.
Qed.

Lemma descendants_eq s :
  descendants s = concat (map (fun c => c :: descendants c) (subsections s)).
Proof. now destruct s. Qed.

(** The children and their descendants occur in order in a text that ends
    with the text appended for the children. *)
Lemma children_in_order (subs : list SectionNode) :
  Forall (fun c => occur_between (content c) 1 (String.length (content c))
                                 (map content (descendants c))) subs ->
  forall pre,
    occur_between (pre +:+ subsections_text subs)
                  (Datatypes.S (String.length pre))
                  (String.length (pre +:+ subsections_text subs))
                  (map content (concat (map (fun c => c :: descendants c) subs))).
Proof.
  induction 1 as [|c subs Hc _ IH]; intros pre; simpl.
  - constructor.
  - rewrite subsections_text_cons.
    set (rest := subsections_text subs).
    set (s := pre +:+ Py.nl +:+ Py.nl +:+ content c +:+ rest).
    assert (Hs : s = (pre +:+ Py.nl +:+ Py.nl) +:+ content c +:+ rest)
      by (unfold s; now rewrite !str_app_assoc).
    assert (Hlen : String.length (pre +:+ Py.nl +:+ Py.nl) = String.length pre + 2)
      by (rewrite !str_length_app; simpl; lia).
    assert (Hslen : String.length s
                    = String.length pre + 2 + String.length (content c)
                      + String.length rest)
      by (rewrite Hs, !str_length_app; simpl; lia).
    apply occur_cons with (off := String.length pre + 2); [lia | lia | |].
    + exists (pre +:+ Py.nl +:+ Py.nl), rest. split; [exact Hs | exact Hlen].
    + rewrite map_app.
      apply occur_between_app
        with (mid := String.length pre + 2 + String.length (content c)); [lia | lia | |].
      * pose proof (occur_between_embed (pre +:+ Py.nl +:+ Py.nl) rest _ _ _ _ Hc) as E.
        rewrite <- Hs, Hlen in E.
        eapply occur_between_weaken; [| | exact E]; lia.
      * specialize (IH (pre +:+ Py.nl +:+ Py.nl +:+ content c)).
        fold rest in IH.
        assert (Hs' : (pre +:+ Py.nl +:+ Py.nl +:+ content c) +:+ rest = s)
          by (unfold s; now rewrite !str_app_assoc).
        rewrite Hs' in IH.
        eapply occur_between_weaken; [| | exact IH].
        -- rewrite !str_length_app. simpl. lia.
        -- lia.
Qed.

Lemma enrich_section_in_order raw :
  forall parents_ level_,
    let e := enrich_section parents_ level_ raw in
    occur_between (content e) (Datatypes.S (String.length (own_text level_ raw)))
                  (String.length (content e)) (map content (descendants e)).
Proof.
  induction raw as [h c subs p l i IH] using SectionNode_nested_ind.
  intros parents_ level_ e.
  rewrite (descendants_eq e). unfold e at 1 2.
  rewrite enrich_section_content. fold e.
  apply children_in_order.
  unfold e. rewrite enrich_section_subsections. simpl subsections.
  apply Forall_map. eapply Forall_impl; [exact IH |].
  intros x Hx. simpl.
  eapply occur_between_weaken; [| | apply Hx].
  - pose proof (own_text_length (level_ + 1) x). lia.
  - lia.
Qed.

Lemma occur_between_substrings s lo hi xs :
  occur_between s lo hi xs -> Forall (fun x => substring_of x s) xs.
Proof.
  induction 1 as [|lo hi off x xs _ _ Hocc _ IH]; constructor.
  - exact (occurs_at_substring _ _ _ Hocc).
  - exact IH.
Qed.

Lemma enrich_section_fields p l raw :
  header (enrich_section p l raw) = header raw
  /\ parents (enrich_section p l raw) = Some p
  /\ level (enrich_section p l raw) = Some l
  /\ sql_doc_id (enrich_section p l raw) = sql_doc_id raw.
Proof. destruct raw as [h c subs p0 l0 i]. simpl. now destruct subs. Qed.

Lemma enrich_section_headers (raw : SectionNode) :
  forall p l,
    map header (enrich_section p l raw :: descendants (enrich_section p l raw))
    = map header (raw :: descendants raw).
Proof.
  induction raw as [h c subs p0 l0 i IH] using SectionNode_nested_ind.
  intros p l. rewrite !descendants_eq, enrich_section_subsections.
  destruct (enrich_section_fields p l (mkSection h c subs p0 l0 i)) as (Hh & _).
  cbn [map]. rewrite Hh. f_equal. simpl header. simpl subsections. clear Hh.
  generalize (p ++ [h]) (l + 1)%Z. intros p' l'.
  induction subs as [|x subs IHl]; [reflexivity |].
  apply Forall_cons in IH as [Hx IH]. specialize (IHl IH).
  cbn [map concat] in *. rewrite !map_app, IHl.
  f_equal. exact (Hx p' l').
Qed.

(** The nodes of an enriched tree are, in document order, the enriched
    nodes of the tree. *)
Lemma enriched_nodes (raw : SectionNode) :
  forall p l,
    Forall2 (fun r n => exists p' l', n = enrich_section p' l' r)
            (raw :: descendants raw)
            (enrich_section p l raw :: descendants (enrich_section p l raw)).
Proof.
  induction raw as [h c subs p0 l0 i IH] using SectionNode_nested_ind.
  intros p l. constructor; [now exists p, l |].
  rewrite !descendants_eq, enrich_section_subsections. simpl subsections.
  generalize (p ++ [header (mkSection h c subs p0 l0 i)]) (l + 1)%Z.
  intros p' l'.
  induction subs as [|x subs IHl]; [constructor |].
  apply Forall_cons in IH as [Hx IH].
  cbn [map concat]. apply Forall2_app; [apply Hx | now apply IHl].
Qed.

Lemma enriched_forest_nodes (raws : list SectionNode) (p : list string) (l : Z) :
  Forall2 (fun r n => exists p' l', n = enrich_section p' l' r)
          (all_nodes raws) (all_nodes (map (enrich_section p l) raws)).
Proof.
  unfold all_nodes. induction raws as [|x raws IH]; [constructor |].
  cbn [map concat]. apply Forall2_app; [apply enriched_nodes | exact IH].
Qed.

(** C8.  Enrichment keeps every node of the tree, in document order.  The
    content of the enriched node is the node's own text (the markdown
    heading for its level and header, then the content the node came with)
    followed by the aggregated content of each of its subsections; its
    descendants are those of the node it comes from; their aggregated
    contents occur in it in document order, at strictly increasing offsets
    after the own text, so every descendant's aggregated content is a
    substring of the node's. *)
Theorem enrich_sections_containment
    (sections : list SectionNode) (parents_ : option (list string))
    (level_ : option Z) (forest : list SectionNode) :
  enrich_sections sections parents_ level_ = Ok forest ->
  Forall2 (fun raw n =>
             exists lvl,
               header n = header raw /\ level n = Some lvl
               /\ map header (descendants n) = map header (descendants raw)
               /\ content n
                  = own_text lvl raw +:+ subsections_text (subsections n)
               /\ occurs_in_order (content n) (String.length (own_text lvl raw))
                                  (map content (descendants n))
               /\ (forall d, In d (descendants n) ->
                             substring_of (content d) (content n)))
          (all_nodes sections) (all_nodes forest).
Proof.
  intros Henrich.
  assert (Hmap : exists p l, forest = map (enrich_section p l) sections).
  { unfold enrich_sections in Henrich.
    destruct parents_ as [p|], level_ as [l|]; try (injection Henrich as <-; eauto).
    destruct sections; [injection Henrich as <-; now exists p, 0%Z | discriminate]. }
  destruct Hmap as (p & l & ->).
  eapply Forall2_impl; [apply enriched_forest_nodes |].
  intros raw n (p' & l' & ->).
  destruct (enrich_section_fields p' l' raw) as (Hh & _ & Hl & _).
  pose proof (enrich_section_in_order raw p' l') as Hord. simpl in Hord.
  pose proof (enrich_section_headers raw p' l') as Hd.
  cbn [map] in Hd. injection Hd as _ Hd.
  exists l'. split; [exact Hh |]. split; [exact Hl |]. split; [exact Hd |].
  split; [apply enrich_section_content |]. split.
  - unfold occurs_in_order.
    eapply occur_between_weaken; [| | exact Hord]; lia.
  - intros d Hin.
    pose proof (occur_between_substrings _ _ _ _ Hord) as Hsub.
    rewrite List.Forall_forall in Hsub. apply Hsub. now apply in_map.
Qed.

(** C8 on an example: a section with one subsection; the content of the
    section ends with the content of the subsection. *)
Lemma enrich_sections_containment_witness :
  enrich_sections [Scripted.guide] None None = Ok [Scripted.guide_enriched]
  /\ Forall2 (fun raw n =>
                header n = header raw
                /\ exists lvl,
                    content n
                    = own_text lvl raw +:+ subsections_text (subsections n))
             (all_nodes [Scripted.guide]) (all_nodes [Scripted.guide_enriched])
  /\ content Scripted.guide_enriched
     = "# Guide" +:+ Py.nl +:+ Py.nl +:+ "Read this first."
       +:+ Py.nl +:+ Py.nl
       +:+ "## Setup" +:+ Py.nl +:+ Py.nl +:+ "Run the installer.".
Proof.
  split; [reflexivity |]. split; [| reflexivity].
  eapply Forall2_impl;
    [exact (enrich_sections_containment [Scripted.guide] None None
              [Scripted.guide_enriched] eq_refl) |].
  intros raw n (lvl & Hh & _ & _ & Hc & _). split; [exact Hh |].
  now exists lvl.
Defined.

(** ** Linearization *)

Lemma py_range_down (n : nat) :
  Py.range (Z.of_nat n - 1) (-1) (-1)
  = map (fun k => Z.of_nat (n - 1 - k)) (seq 0 n).
Proof.
  unfold Py.range. simpl.
  replace (Z.of_nat n - 1 - -1 - -1 - 1)%Z with (Z.of_nat n) by lia.
  rewrite Z.div_1_r, Nat2Z.id.
  apply map_ext_in. intros k Hk. apply in_seq in Hk. lia.
Qed.

Lemma py_slice_from {A} (l : list A) (i : nat) :
  i <= length l -> Py.slice l (Some (Z.of_nat i)) None = drop i l.
Proof.
  intros Hi. unfold Py.slice. simpl.
  destruct (Z.ltb_spec (Z.of_nat i) 0) as [Hneg | _]; [lia |].
  rewrite Z.min_l by lia. rewrite Nat2Z.id.
  apply take_ge. rewrite length_drop. lia.
Qed.

Lemma linearize_section_rows (flag : bool) (node : SectionNode) :
  linearize_section flag node
  = node
    :: (if flag then
          map (fun k => with_header node
                          (hierarchized_title (default [] (parents node))
                                              (header node) (Datatypes.S k)))
              (seq 0 (length (default [] (parents node))))
        else [])
    ++ _linearize_sections flag (subsections node).
Proof.
  destruct node as [h c subs p l i]. unfold _linearize_sections. simpl.
  f_equal. f_equal. destruct flag; [| reflexivity].
  destruct (default [] p) as [|a ps'] eqn:E; [reflexivity |].
  change (Py.truthy_list (a :: ps')) with true. cbv iota.
  set (ps := a :: ps').
  rewrite py_range_down, map_map.
  apply map_ext_in. intros k Hk. apply in_seq in Hk.
  unfold with_header, hierarchized_title. simpl.
  rewrite py_slice_from by (subst ps; simpl length in *; lia).
  do 4 f_equal. subst ps. simpl length. lia.
Qed.

(** C2 (as amended).  A row is emitted for the node itself; with hierarchized
    titles enabled it is followed by one shallow copy per ancestor, the k-th
    of them carrying the last k ancestors and the header joined by " - " (so
    the shortest suffix comes first and the whole chain last); the rows of
    the subsections follow.  The copies differ from the node in their header
    only.  For the ancestor chain [A; B] and the header C the rows are C,
    B - C and A - B - C; with hierarchized titles disabled the node gives one
    row. *)
Theorem linearize_sections_fan_out :
  (forall node,
      _linearize_sections true [node]
      = node
        :: map (fun k => with_header node
                           (hierarchized_title (default [] (parents node))
                                               (header node) (Datatypes.S k)))
               (seq 0 (length (default [] (parents node))))
        ++ _linearize_sections true (subsections node))
  /\ (forall A B C c subs l i,
         let node := mkSection C c subs (Some [A; B]) l i in
         _linearize_sections true [node]
         = [ node;
             mkSection (B +:+ " - " +:+ C) c subs (Some [A; B]) l i;
             mkSection (A +:+ " - " +:+ B +:+ " - " +:+ C) c subs (Some [A; B]) l i ]
           ++ _linearize_sections true subs)
  /\ (forall node,
         _linearize_sections false [node]
         = node :: _linearize_sections false (subsections node)).
Proof.
  assert (H1 : forall flag node,
             _linearize_sections flag [node] = linearize_section flag node).
  { intros flag node. unfold _linearize_sections. simpl. apply app_nil_r. }
  repeat split.
  - intros node. now rewrite H1, linearize_section_rows.
  - intros A B C c subs l i node. now rewrite H1, linearize_section_rows.
  - intros node. now rewrite H1, linearize_section_rows.
Qed.

(** Every row of the linearization carries the identifier of a node of the
    forest: the rows of a persisted forest all have one. *)
Lemma linearize_sections_sql_doc_id (flag : bool) (forest : list SectionNode) :
  persisted forest ->
  Forall (fun row => is_Some (sql_doc_id row)) (_linearize_sections flag forest).
Proof.
  unfold persisted, all_nodes, _linearize_sections.
  induction forest as [|node forest IH]; intros Hp; [constructor |].
  simpl in Hp. apply Forall_cons in Hp as [Hn Hp].
  apply Forall_app in Hp as [Hd Hf].
  simpl. apply Forall_app. split; [| now apply IH].
  clear IH Hf forest. revert Hn Hd.
  induction node as [h c subs p l i IHs] using SectionNode_nested_ind.
  intros Hn Hd. rewrite linearize_section_rows.
  apply Forall_cons. split; [exact Hn |]. apply Forall_app. split.
  - destruct flag; [| constructor]. apply Forall_map. simpl.
    apply Forall_forall. intros k _. exact Hn.
  - unfold _linearize_sections. simpl subsections.
    rewrite descendants_eq in Hd. simpl subsections in Hd.
    clear Hn. induction subs as [|s subs IHl]; [constructor |].
    simpl in *. apply Forall_cons in IHs as [Hs IHs].
    apply Forall_cons in Hd as [Hsn Hd]. apply Forall_app in Hd as [Hsd Hd].
    apply Forall_app. split; [now apply Hs | now apply IHl].
Qed.

(** C2, the claim as worded, fails: for the ancestor chain [A; B] and the
    header C the synthetic headers are B - C then A - B - C, which is neither
    the list of the proper suffixes (B - C alone) nor the list of all suffixes
    taken longest first (A - B - C then B - C). *)
Lemma linearize_sections_not_proper_longest_first :
  let node := mkSection "C" "text" [] (Some ["A"; "B"]) (Some 3%Z) (Some "id") in
  map header (_linearize_sections true [node]) = ["C"; "B - C"; "A - B - C"]
  /\ map header (_linearize_sections true [node])
     <> "C" :: spec_hierarchized_headers ["A"; "B"] "C"
  /\ map header (_linearize_sections true [node])
     <> "C" :: spec_hierarchized_headers_all ["A"; "B"] "C".
Proof.
  vm_compute. repeat split; discriminate.
Qed.

(** ** Document hash *)

Lemma rgx_space_sub_empty_app (a b : string) :
  rgx_space_sub_empty (a +:+ b) = rgx_space_sub_empty a +:+ rgx_space_sub_empty b.
Proof.
  induction a as [|c a IH]; [reflexivity |].
  rewrite str_app_cons. simpl. destruct (Ascii.eqb c space_char).
  - exact IH.
  - now rewrite str_app_cons, IH.
Qed.

Lemma rgx_space_sub_empty_inserted (t t' : string) :
  inserted is_space_char t t' ->
  rgx_space_sub_empty t' = rgx_space_sub_empty t.
Proof.
  induction 1 as [|c t t' _ IH|c t t' Hc _ IH]; simpl.
  - reflexivity.
  - now rewrite IH.
  - unfold is_space_char in Hc. now rewrite Hc.
Qed.

Lemma rgx_space_sub_empty_newlines (w : string) :
  all_chars is_nl_or_space w = true ->
  all_chars (Ascii.eqb nl_char) (rgx_space_sub_empty w) = true.
Proof.
  induction w as [|c w IH]; simpl; [reflexivity |].
  intros H. apply andb_true_iff in H as [Hc Hw].
  destruct (Ascii.eqb c space_char) eqn:Hs; [now apply IH |].
  unfold is_nl_or_space in Hc. rewrite Hs, orb_false_r in Hc.
  apply Ascii.eqb_eq in Hc. subst c.
  simpl. exact (IH Hw).
Qed.

Lemma rgx_2_lines_sub_nl_cons (c : ascii) (r : string) :
  rgx_2_lines_sub_nl (String c r)
  = match first_char r with
    | Some c' =>
        if Ascii.eqb c nl_char && Ascii.eqb c' nl_char
        then rgx_2_lines_sub_nl r
        else String c (rgx_2_lines_sub_nl r)
    | None => String c ""
    end.
Proof. now destruct r. Qed.

(** What is left of [a +:+ s] depends on [s] through its first character
    and through what is left of it. *)
Lemma rgx_2_lines_sub_nl_app (a s s' : string) :
  first_char s = first_char s' ->
  rgx_2_lines_sub_nl s = rgx_2_lines_sub_nl s' ->
  rgx_2_lines_sub_nl (a +:+ s) = rgx_2_lines_sub_nl (a +:+ s').
Proof.
  intros Hf Hs. induction a as [|c a IH]; [exact Hs |].
  rewrite !str_app_cons, !rgx_2_lines_sub_nl_cons, IH.
  assert (Hfa : first_char (a +:+ s) = first_char (a +:+ s'))
    by (destruct a; [exact Hf | reflexivity]).
  now rewrite Hfa.
Qed.

Lemma rgx_2_lines_sub_nl_run (n y : string) :
  all_chars (Ascii.eqb nl_char) n = true ->
  rgx_2_lines_sub_nl (n +:+ String nl_char y)
  = rgx_2_lines_sub_nl (String nl_char y).
Proof.
  induction n as [|c n IH]; [reflexivity |].
  cbn [all_chars]. intros H. apply andb_true_iff in H as [Hc Hn].
  apply Ascii.eqb_eq in Hc. subst c.
  rewrite str_app_cons, rgx_2_lines_sub_nl_cons, (IH Hn).
  destruct n as [|d n']; [reflexivity |].
  cbn [all_chars] in Hn. apply andb_true_iff in Hn as [Hd _].
  apply Ascii.eqb_eq in Hd. now subst d.
Qed.

Lemma first_char_run (n y : string) :
  all_chars (Ascii.eqb nl_char) n = true ->
  first_char (n +:+ String nl_char y) = Some nl_char.
Proof.
  destruct n as [|c n]; [reflexivity |].
  cbn [all_chars]. intros H. apply andb_true_iff in H as [Hc _].
  apply Ascii.eqb_eq in Hc. now subst c.
Qed.

Lemma get_doc_hash_before_newline (x w y : string) :
  all_chars is_nl_or_space w = true ->
  get_doc_hash (x +:+ w +:+ Py.nl +:+ y) = get_doc_hash (x +:+ Py.nl +:+ y).
Proof.
  intros Hw. unfold get_doc_hash. f_equal.
  rewrite !rgx_space_sub_empty_app.
  change (rgx_space_sub_empty Py.nl +:+ rgx_space_sub_empty y)
    with (String nl_char (rgx_space_sub_empty y)).
  pose proof (rgx_space_sub_empty_newlines w Hw) as Hn.
  apply rgx_2_lines_sub_nl_app.
  - now apply first_char_run.
  - now apply rgx_2_lines_sub_nl_run.
Qed.

Lemma get_doc_hash_after_newline (x w y : string) :
  all_chars is_nl_or_space w = true ->
  get_doc_hash (x +:+ Py.nl +:+ w +:+ y) = get_doc_hash (x +:+ Py.nl +:+ y).
Proof.
  intros Hw. unfold get_doc_hash. f_equal.
  rewrite !rgx_space_sub_empty_app.
  change (rgx_space_sub_empty Py.nl) with (String nl_char "").
  rewrite !str_app_cons, !str_app_nil_l.
  pose proof (rgx_space_sub_empty_newlines w Hw) as Hn.
  apply rgx_2_lines_sub_nl_app; [reflexivity |].
  set (ry := rgx_space_sub_empty y).
  set (n := rgx_space_sub_empty w) in *.
  clearbody n ry. clear - Hn.
  induction n as [|c n IH]; [reflexivity |].
  cbn [all_chars] in Hn. apply andb_true_iff in Hn as [Hc Hn].
  apply Ascii.eqb_eq in Hc. subst c.
  rewrite str_app_cons.
  rewrite (rgx_2_lines_sub_nl_cons nl_char (String nl_char (n +:+ ry))).
  simpl first_char. cbv iota. change (Ascii.eqb nl_char nl_char) with true.
  simpl andb. cbv iota. now apply IH.
Qed.

(** C5 (as amended).  [get_doc_hash] removes the space characters, replaces
    every run of two or more newlines by one newline and hashes what is left:
    the hash does not change when spaces are inserted anywhere, nor when
    newlines and spaces are inserted next to a newline of the text. *)
Theorem get_doc_hash_insensitive :
  (forall t t', inserted is_space_char t t' -> get_doc_hash t' = get_doc_hash t)
  /\ (forall x w y,
         all_chars is_nl_or_space w = true ->
         get_doc_hash (x +:+ w +:+ Py.nl +:+ y) = get_doc_hash (x +:+ Py.nl +:+ y)
         /\ get_doc_hash (x +:+ Py.nl +:+ w +:+ y) = get_doc_hash (x +:+ Py.nl +:+ y)).
Proof.
  split.
  - intros t t' H. unfold get_doc_hash.
    now rewrite (rgx_space_sub_empty_inserted t t' H).
  - intros x w y Hw. split.
    + now apply get_doc_hash_before_newline.
    + now apply get_doc_hash_after_newline.
Qed.

(** C5, the claim as worded, fails: a tab is a whitespace character, and a
    blank line may be put where the text has no newline; both change the
    hash. *)
Lemma get_doc_hash_whitespace_counterexample :
  (inserted Py.isspace "ab" ("a" +:+ Py.chr 9 +:+ "b")
   /\ get_doc_hash ("a" +:+ Py.chr 9 +:+ "b") <> get_doc_hash "ab")
  /\ (inserted Py.isspace "ab" (Py.nl +:+ Py.nl +:+ "ab")
      /\ get_doc_hash (Py.nl +:+ Py.nl +:+ "ab") <> get_doc_hash "ab").
Proof.
  split; split.
  - apply inserted_keep. apply inserted_add; [reflexivity |].
    apply inserted_keep. apply inserted_nil.
  - vm_compute. discriminate.
  - apply inserted_add; [reflexivity |]. apply inserted_add; [reflexivity |].
    apply inserted_keep. apply inserted_keep. apply inserted_nil.
  - vm_compute. discriminate.
Qed.

(** ** Substrings *)

Lemma prefix_app (sub s : string) :
  String.prefix sub s = true <-> exists post, s = sub +:+ post.
Proof.
  revert s. induction sub as [|a sub IH]; intros s.
  - split; [intros _; now exists s | intros _; now destruct s].
  - destruct s as [|b s]; simpl.
    + split; [discriminate | intros (post & H); discriminate].
    + destruct (ascii_dec a b) as [-> | Hne].
      * rewrite IH. split; intros (post & H); exists post.
        -- now rewrite str_app_cons, H.
        -- rewrite str_app_cons in H. now injection H.
      * split; [discriminate |].
        intros (post & H). rewrite str_app_cons in H. injection H as H _.
        now destruct Hne.
Qed.

Lemma contains_substring_of (sub s : string) :
  Py.contains sub s = true <-> substring_of sub s.
Proof.
  unfold substring_of. induction s as [|c s IH]; cbn [Py.contains].
  - rewrite orb_false_r, prefix_app. split.
    + intros (post & H). now exists "", post.
    + intros (pre & post & H). destruct pre; [now exists post |].
      rewrite str_app_cons in H. discriminate.
  - rewrite orb_true_iff, IH, prefix_app. split.
    + intros [(post & H) | (pre & post & H)].
      * now exists "", post.
      * exists (String c pre), post. now rewrite str_app_cons, H.
    + intros (pre & post & H). destruct pre as [|d pre].
      * left. now exists post.
      * right. rewrite str_app_cons in H. injection H as _ H.
        now exists pre, post.
Qed.

(** ** Traces of the monad *)

Section Emits.
Context {S Vec : Type}.
Context {llm_service : LLMServiceInterface S}.
Variable P : event -> Prop.

Lemma bind_ext_k {A B} (m : M S Vec A) (k k' : A -> M S Vec B) (w : world S Vec) :
  (forall a w0, k a w0 = k' a w0) -> bind m k w = bind m k' w.
Proof. intros H. unfold bind. destruct (m w) as [[a | e] w0]; [apply H | reflexivity]. Qed.

Lemma bind_ext_m {A B} (m m' : M S Vec A) (k : A -> M S Vec B) (w : world S Vec) :
  (forall w0, m w0 = m' w0) -> bind m k w = bind m' k w.
Proof. intros H. unfold bind. now rewrite H. Qed.

Lemma emits_ret {A} (a : A) : emits P (ret (S := S) (Vec := Vec) a).
Proof. intros w. exists []. simpl. now rewrite app_nil_r. Qed.

Lemma emits_raise {A} (e : exn) : emits P (raise (S := S) (Vec := Vec) (A := A) e).
Proof. intros w. exists []. simpl. now rewrite app_nil_r. Qed.

Lemma emits_lift {A} (r : result A) : emits P (lift (S := S) (Vec := Vec) r).
Proof. intros w. exists []. simpl. now rewrite app_nil_r. Qed.

Lemma emits_bind {A B} (m : M S Vec A) (k : A -> M S Vec B) :
  emits P m -> (forall a, emits P (k a)) -> emits P (bind m k).
Proof.
  intros Hm Hk w. unfold bind.
  destruct (Hm w) as (evs & Ht & Hall).
  destruct (m w) as [[a | e] w'] eqn:E; simpl in *.
  - destruct (Hk a w') as (evs' & Ht' & Hall').
    exists (evs ++ evs'). split.
    + now rewrite Ht', Ht, app_assoc.
    + now apply Forall_app.
  - now exists evs.
Qed.

Lemma emits_index {A} (l : list A) (i : nat) : emits P (index (S := S) (Vec := Vec) l i).
Proof. unfold index. destruct (l !! i); [apply emits_ret | apply emits_raise]. Qed.

Lemma emits_llm (messages : list Message) :
  (forall r, P (LlmCall messages r)) ->
  emits P (llm_complete_messages (Vec := Vec) messages).
Proof.
  intros HP w. unfold llm_complete_messages.
  destruct (complete_messages messages (svc w)) as [r s].
  exists [LlmCall messages r]. simpl. split; [reflexivity |].
  constructor; [apply HP | constructor].
Qed.

End Emits.

(** ** The query side *)

Section QueryFacts.
Context {S Vec Found : Type}.
Context {llm_service : LLMServiceInterface S}
        {embedding_service : EmbeddingServiceInterface S Vec}
        {vector_db_service : VectorDBServiceInterface S Found}
        {sql_db_service : SqlDBServiceInterface S}
        {libraries : Libraries Found}.
Variable work_title : string.

Local Abbreviation no_header_retrieval :=
  (fun ev : event => is_header_retrieval ev = false).

Lemma emits_vdb_answers question alternates hypothetical_answers :
  emits no_header_retrieval
        (vdb_get_possible_answers_from_question (Vec := Vec) (Found := Found)
           work_title question alternates hypothetical_answers).
Proof.
  intros w. unfold vdb_get_possible_answers_from_question.
  destruct (get_possible_answers_from_question _ _ _ _ _) as [r s].
  eexists [_]. simpl. split; [reflexivity |]. now repeat constructor.
Qed.

Lemma emits_ask_points msg :
  emits no_header_retrieval (ask_points (Vec := Vec) msg).
Proof.
  unfold ask_points. apply emits_bind; [now apply emits_llm |].
  intros a. apply emits_ret.
Qed.

Lemma emits_get_direct_answer question use_alternates use_hypothetical_answers :
  emits no_header_retrieval
        (get_direct_answer (Vec := Vec) (Found := Found) work_title question
           use_alternates use_hypothetical_answers).
Proof.
  unfold get_direct_answer, _generate_question_alternates,
    _generate_hypothetical_answers.
  repeat first
    [ apply emits_ret | apply emits_ask_points | apply emits_vdb_answers
    | now apply emits_llm
    | apply emits_bind | intro
    | match goal with |- context [if ?b then _ else _] => destruct b end ].
Qed.

Lemma emits_classify_question question mode number_of_sentences :
  emits no_header_retrieval
        (classify_question (Vec := Vec) (Found := Found)
           question mode number_of_sentences).
Proof.
  unfold classify_question, _classify_answer_for_question, dict_get.
  destruct number_of_sentences as [n |].
  - repeat first
      [ apply emits_ret
      | match goal with |- context [if ?b then _ else _] => destruct b end ].
  - repeat first
      [ apply emits_ret | apply emits_raise | apply emits_lift
      | now apply emits_llm | apply emits_bind | intro
      | match goal with |- context [match ?d !! ?k with _ => _ end] =>
          destruct (d !! k) end ].
Qed.

(** C9.  [check_if_answer_is_correct] makes one call of the completion
    service and returns [True] exactly when the reply, lowercased, has "yes"
    as a substring: a reply that says NO and has "yes" elsewhere is taken as
    a confirmation, and the empty reply as a rejection. *)
Theorem check_if_answer_is_correct_iff_yes (question answer : string)
    (w : world S Vec) :
  (exists messages response,
      trace (snd (check_if_answer_is_correct work_title question answer w))
      = trace w ++ [LlmCall messages response]
      /\ match response with
         | Ok reply =>
             exists b,
               fst (check_if_answer_is_correct work_title question answer w) = Ok b
               /\ (b = true <-> substring_of "yes" (Py.lower reply))
         | Raise e =>
             fst (check_if_answer_is_correct work_title question answer w) = Raise e
         end)
  /\ substring_of "yes" (Py.lower "NO. Saying YES would be wrong.")
  /\ ~ substring_of "yes" (Py.lower "")
  /\ ~ substring_of "yes" (Py.lower "NO").
Proof.
  split; [| repeat split].
  - unfold check_if_answer_is_correct, bind, llm_complete_messages.
    destruct (complete_messages _ (svc w)) as [[reply | e] s] eqn:E.
    + eexists _, (Ok reply). split.
      * destruct (Py.contains "yes" (Py.lower reply)); reflexivity.
      * exists (Py.contains "yes" (Py.lower reply)). split.
        -- destruct (Py.contains "yes" (Py.lower reply)); reflexivity.
        -- apply contains_substring_of.
    + eexists _, (Raise e). split; reflexivity.
  - apply contains_substring_of. reflexivity.
  - rewrite <- contains_substring_of. discriminate.
  - rewrite <- contains_substring_of. discriminate.
Qed.

Lemma py_slice_nil {A} (start stop : option Z) :
  Py.slice (@nil A) start stop = [].
Proof. unfold Py.slice. now rewrite drop_nil, take_nil. Qed.

(** C10.  On the empty list of matches the two FIRST_BEST modes raise
    IndexError before any service is called, and on a non-empty list they
    go on with the first match; the four TOP_K modes format, or send to the
    completion service, the empty list of context entries, whatever [top_k]
    is. *)
Theorem process_section_matchs_empty (top_k : Z) (question : option string)
    (w : world S Vec) :
  (_process_section_matchs work_title [] FIRST_BEST_RAW top_k question w
   = (Raise IndexError, w)
   /\ _process_section_matchs work_title [] FIRST_BEST_SUMMARY top_k question w
      = (Raise IndexError, w))
  /\ (forall m ms,
         _process_section_matchs work_title (m :: ms) FIRST_BEST_RAW top_k question w
         = _get_content_from_sql_db_from_id work_title (m_sql_doc_id m) w
         /\ _process_section_matchs work_title (m :: ms) FIRST_BEST_SUMMARY top_k question w
            = generate_summary_from_context_entries
                [_section_match_to_context_entry m] w)
  /\ (_process_section_matchs work_title [] TOP_K_RAW top_k question w
      = (Ok (format_context_entries []), w)
      /\ _process_section_matchs work_title [] TOP_K_SUMMARY top_k question w
         = generate_summary_from_context_entries [] w
      /\ _process_section_matchs work_title [] TOP_K_COMBINE top_k question w
         = combine_context_entries [] question w
      /\ _process_section_matchs work_title [] TOP_K_RESTRANSCRIPT top_k question w
         = generate_retranscript_from_context_entries [] question w).
Proof.
  repeat split; unfold _process_section_matchs;
    rewrite ?py_slice_nil; reflexivity.
Qed.

(** C4 (as amended).  Once the question is classified as [n]: for ONE the
    answer is the direct sentence-level answer and the whole call makes no
    query of the section-header index; for FEW, when the direct answer is
    rejected by the self-check, the call goes on with section retrieval in
    the caller's mode when one is supplied, else in TOP_K_RAW when
    [return_raw] is set, else in TOP_K_COMBINE; a value other than ONE, FEW
    and TOO_MANY raises ValueError. *)
Theorem get_answer_cascade (question : string) (top_k : Z) (return_raw : bool)
    (mode : option SectionAnswerMode) (number_of_sentences : option string)
    (w w1 : world S Vec) (n : string) (kind : option string) :
  classify_question question mode number_of_sentences w = (Ok (n, kind), w1) ->
  (n = "ONE" ->
   get_answer work_title question top_k return_raw mode number_of_sentences w
   = get_direct_answer work_title question true true w1
   /\ exists evs,
       trace (snd (get_answer work_title question top_k return_raw mode
                              number_of_sentences w))
       = trace w ++ evs
       /\ Forall (fun ev => is_header_retrieval ev = false) evs)
  /\ (n = "FEW" ->
      forall first_answer w2 w3,
        get_direct_answer work_title question true true w1 = (Ok first_answer, w2) ->
        check_if_answer_is_correct work_title question first_answer w2
        = (Ok false, w3) ->
        get_answer work_title question top_k return_raw mode number_of_sentences w
        = get_section_as_answer_from_question work_title question true
            (few_fallback_mode mode return_raw) None top_k w3)
  /\ (n <> "ONE" -> n <> "FEW" -> n <> "TOO_MANY" ->
      get_answer work_title question top_k return_raw mode number_of_sentences w
      = (Raise (ValueError ("Wrong value for number_of_sentences '" +:+ n +:+ "'")),
         w1)).
Proof.
  intros Hc.
  assert (Hrun : forall k : string * option string -> M S Vec string,
             bind (classify_question question mode number_of_sentences) k w
             = k (n, kind) w1)
    by (intros k; unfold bind; now rewrite Hc).
  repeat split.
  - subst n. unfold get_answer. now rewrite Hrun.
  - subst n. unfold get_answer. rewrite Hrun. simpl.
    destruct (emits_classify_question question mode number_of_sentences w)
      as (evs1 & Ht1 & Hall1).
    rewrite Hc in Ht1. simpl in Ht1.
    destruct (emits_get_direct_answer question true true w1)
      as (evs2 & Ht2 & Hall2).
    exists (evs1 ++ evs2). split.
    + now rewrite Ht2, Ht1, app_assoc.
    + now apply Forall_app.
  - intros -> first_answer w2 w3 Hd Hk.
    unfold get_answer. rewrite Hrun. simpl.
    unfold bind at 1. rewrite Hd.
    unfold bind at 1. rewrite Hk. reflexivity.
  - intros H1 H2 H3. unfold get_answer. rewrite Hrun.
    apply String.eqb_neq in H1, H2, H3.
    cbv beta iota. now rewrite H1, H2, H3.
Qed.

Lemma save_section_in_sql_db_eq (doc_hash : string) (node : SectionNode)
    (w : world S Vec) :
  save_section_in_sql_db work_title doc_hash node w
  = (sql_doc_id_ <- sql_add_header_content_in_sdb
                      work_title doc_hash (header node) (content node) ;;
     subs' <- _save_sections_in_sql_db work_title doc_hash (subsections node) ;;
     ret (mkSection (header node) (content node) subs' (parents node)
                    (level node) (Some sql_doc_id_))) w.
Proof.
  destruct node as [h c subs p l i]. simpl.
  apply bind_ext_k. intros id w1. apply bind_ext_m. clear w w1.
  induction subs as [|x r IH]; intros w0; [reflexivity |].
  cbn [_save_sections_in_sql_db].
  apply bind_ext_k. intros x' w1. apply bind_ext_m. exact IH.
Qed.

Lemma save_list_persisted (doc_hash : string) (sections : list SectionNode) :
  Forall (fun node => forall (w w' : world S Vec) saved,
              save_section_in_sql_db work_title doc_hash node w = (Ok saved, w') ->
              Forall (fun n => is_Some (sql_doc_id n)) (saved :: descendants saved)
              /\ header saved = header node)
         sections ->
  forall (w w' : world S Vec) saved,
    _save_sections_in_sql_db work_title doc_hash sections w = (Ok saved, w') ->
    persisted saved /\ map header saved = map header sections.
Proof.
  unfold persisted, all_nodes.
  induction 1 as [|node sections Hn _ IH]; intros w w' saved Hrun.
  - injection Hrun as <- <-. split; [constructor | reflexivity].
  - cbn [_save_sections_in_sql_db] in Hrun. unfold bind at 1 in Hrun.
    destruct (save_section_in_sql_db work_title doc_hash node w)
      as [[node' | e] w1] eqn:Hnode; [| discriminate].
    unfold bind at 1 in Hrun.
    destruct (_save_sections_in_sql_db work_title doc_hash sections w1)
      as [[rest' | e] w2] eqn:Hrest; [| discriminate].
    injection Hrun as <- <-.
    destruct (Hn _ _ _ Hnode) as [Hp1 Hh1].
    destruct (IH _ _ _ Hrest) as [Hp2 Hh2].
    split.
    + simpl. rewrite app_comm_cons. apply Forall_app. now split.
    + simpl. now rewrite Hh1, Hh2.
Qed.

Lemma save_section_persisted (doc_hash : string) (node : SectionNode) :
  forall (w w' : world S Vec) saved,
    save_section_in_sql_db work_title doc_hash node w = (Ok saved, w') ->
    Forall (fun n => is_Some (sql_doc_id n)) (saved :: descendants saved)
    /\ header saved = header node.
Proof.
  induction node as [h c subs p l i IH] using SectionNode_nested_ind.
  intros w w' saved Hrun.
  rewrite save_section_in_sql_db_eq in Hrun. simpl in Hrun.
  unfold bind at 1 in Hrun.
  destruct (sql_add_header_content_in_sdb work_title doc_hash h c w)
    as [[id | e] w1]; [| discriminate].
  unfold bind at 1 in Hrun.
  destruct (_save_sections_in_sql_db work_title doc_hash subs w1)
    as [[subs' | e] w2] eqn:Hsubs; [| discriminate].
  injection Hrun as <- <-.
  destruct (save_list_persisted doc_hash subs IH _ _ _ Hsubs) as [Hp _].
  split; [| reflexivity].
  apply Forall_cons. split; [now exists id | exact Hp].
Qed.

(** The forest [_save_sections_in_sql_db] returns is persisted, and it is
    the forest it was given apart from the identifiers. *)
Lemma save_sections_in_sql_db_persisted (doc_hash : string)
    (sections saved : list SectionNode) (w w' : world S Vec) :
  _save_sections_in_sql_db work_title doc_hash sections w = (Ok saved, w') ->
  persisted saved /\ map header saved = map header sections.
Proof.
  apply save_list_persisted. apply List.Forall_forall.
  intros node _. apply save_section_persisted.
Qed.

End QueryFacts.

(** C4 on an example: a FEW question in the scripted world, whose direct
    answer is rejected, asked with the mode FIRST_BEST_RAW. *)
Lemma get_answer_cascade_witness :
  classify_question "q?" (Some FIRST_BEST_RAW) (Some "FEW") (Scripted.start [])
  = (Ok ("FEW", None), Scripted.start [])
  /\ get_answer "work" "q?" 5 true (Some FIRST_BEST_RAW) (Some "FEW")
                (Scripted.start [])
     = get_section_as_answer_from_question "work" "q?" true FIRST_BEST_RAW None 5
         (snd Scripted.few_check).
Proof.
  split; [reflexivity |].
  destruct (get_answer_cascade "work" "q?" 5 true (Some FIRST_BEST_RAW)
              (Some "FEW") (Scripted.start []) (Scripted.start []) "FEW" None
              eq_refl) as (_ & HF & _).
  apply (HF eq_refl Scripted.default_reply (snd Scripted.few_direct)).
  - vm_compute. reflexivity.
  - vm_compute. reflexivity.
Defined.

(** C4, the claim as worded, fails: with [return_raw] set and the mode
    FIRST_BEST_RAW supplied, a FEW question whose direct answer is rejected
    is answered in the supplied mode (the stored content of the first
    match), not in TOP_K_RAW. *)
Lemma get_answer_return_raw_counterexample :
  let run := get_answer "work" "q?" 5 true (Some FIRST_BEST_RAW) (Some "FEW")
                        (Scripted.start []) in
  fst Scripted.few_check = Ok false
  /\ fst run = Ok "stored content of doc-1"
  /\ In (SqlGetContent "doc-1") (trace (snd run))
  /\ spec_few_fallback_mode (Some FIRST_BEST_RAW) true = TOP_K_RAW
  /\ fst run
     <> fst (get_section_as_answer_from_question "work" "q?" true
               (spec_few_fallback_mode (Some FIRST_BEST_RAW) true) None 5
               (snd Scripted.few_check)).
Proof.
  vm_compute. repeat split; try discriminate.
  repeat (first [now left | right]).
Qed.

(** ** Sentence windows *)

Lemma fold_left_snoc_map {A B} (f : A -> B) (l : list A) (init : list B) :
  fold_left (fun acc x => acc ++ [f x]) l init = init ++ map f l.
Proof.
  revert init. induction l as [|x l IH]; intros init; simpl.
  - now rewrite app_nil_r.
  - now rewrite IH, <- app_assoc.
Qed.

Lemma build_sentences_set_map (lines : list string) (count : Z) :
  build_sentences_set lines count
  = map (fun k => window_sentence
                    (Py.slice lines (Some (2 * Z.of_nat k)%Z)
                              (Some (2 * Z.of_nat k + count * 2)%Z)))
        (seq 0 (Z.to_nat ((Z.of_nat (length lines) - 2) / 2))).
Proof.
  unfold build_sentences_set, Py.range. simpl.
  rewrite (fold_left_snoc_map
             (fun i => window_sentence
                         (Py.slice lines (Some i) (Some (i + count * 2)%Z)))).
  simpl. rewrite map_map.
  replace (Z.of_nat (length lines) - 3 - 0 + 2 - 1)%Z
    with (Z.of_nat (length lines) - 2)%Z by lia.
  apply map_ext. intros k. do 3 f_equal; f_equal; lia.
Qed.

Lemma py_slice_length (lines : list string) (a b : Z) :
  (0 <= a)%Z -> (a <= b)%Z -> (b <= Z.of_nat (length lines))%Z ->
  Z.of_nat (length (Py.slice lines (Some a) (Some b))) = (b - a)%Z.
Proof.
  intros Ha Hab Hb. unfold Py.slice. simpl.
  destruct (Z.ltb_spec a 0); [lia |]. destruct (Z.ltb_spec b 0); [lia |].
  rewrite length_take, length_drop. lia.
Qed.

Section ChunkerFacts.
Context {S Vec : Type}.


End ChunkerFacts.

(** ** Embedding batches *)

Section BatcherFacts.
Context {S Vec Found : Type}.
Context {embedding_service : EmbeddingServiceInterface S Vec}
        {libraries : Libraries Found}.

Local Abbreviation tokens := (tokens_of (Found := Found)).
Local Abbreviation total := (total_tokens (Found := Found)).

Lemma total_tokens_app (a b : list string) : total (a ++ b) = (total a + total b)%Z.
Proof.
  unfold total_tokens. induction a as [|x a IH]; simpl; [reflexivity |].
  rewrite IH. lia.
Qed.

Lemma tokens_of_nonneg (s : string) : (0 <= tokens s)%Z.
Proof. unfold tokens_of. lia. Qed.

Lemma greedy_cons (b : list string) (l : list (list string)) :
  greedy (Found := Found) l ->
  (forall b', head l = Some b' ->
              exists s t, b' = s :: t /\ (250000 < total b + tokens s)%Z) ->
  greedy (Found := Found) (b :: l).
Proof.
  intros Hl Hb [|i] x y Hx Hy; simpl in *.
  - injection Hx as <-. apply Hb. now destruct l.
  - exact (Hl i x y Hx Hy).
Qed.

Lemma greedy_prefix (l l' : list (list string)) :
  greedy (Found := Found) (l ++ l') -> greedy (Found := Found) l.
Proof.
  intros H i b b' Hb Hb'. apply (H i b b').
  - now apply lookup_app_l_Some.
  - now apply lookup_app_l_Some.
Qed.

Lemma embeddings_loop_spec (sentences_set : list string) :
  forall (vectors : list Vec) (tmp : list string) (tt : Z) (w : world S Vec) r w',
    tt = total tmp -> batch_ok (Found := Found) tmp ->
    embeddings_loop (Found := Found) sentences_set vectors tmp tt w = (r, w') ->
    exists bs,
      trace w' = trace w ++ map EncodeDocuments bs
      /\ content_to_vector_cache w' = content_to_vector_cache w
      /\ Forall (batch_ok (Found := Found)) bs
      /\ match r with
         | Ok (_, tmp', tt') =>
             concat bs ++ tmp' = tmp ++ sentences_set
             /\ batch_ok (Found := Found) tmp'
             /\ greedy (Found := Found) (bs ++ [tmp'])
             /\ exists ext, head (bs ++ [tmp']) = Some (tmp ++ ext)
         | Raise _ =>
             (exists rest, concat bs ++ rest = tmp ++ sentences_set)
             /\ greedy (Found := Found) bs
             /\ exists ext, head bs = Some (tmp ++ ext)
         end.
Proof.
  induction sentences_set as [|s rest IH]; intros vectors tmp tt w r w' Htt Hok Hrun.
  - cbn [embeddings_loop] in Hrun. unfold ret in Hrun. injection Hrun as <- <-.
    exists []. simpl. rewrite !app_nil_r. repeat split; try assumption.
    + constructor.
    + intros i b b' _ Hb'. destruct i; discriminate.
    + exists []. now rewrite app_nil_r.
  - cbn [embeddings_loop] in Hrun.
    destruct (tt + tokens s >? 250000)%Z eqn:Hcap.
    + apply Z.gtb_lt in Hcap.
      unfold bind, embedding_encode_documents in Hrun.
      destruct (encode_documents tmp (svc w)) as [[encoded | e] sv] eqn:Henc.
      * assert (Hs : batch_ok (Found := Found) [s]).
        { destruct (Z.le_gt_cases (tokens s) 250000) as [Hle | Hgt].
          - left. unfold total_tokens. simpl. lia.
          - right. now exists s. }
        assert (Hts : tokens s = total [s])
          by (unfold total_tokens; simpl; lia).
        destruct (IH _ _ _ _ _ _ Hts Hs Hrun)
          as (bs & Ht & Hc & Hall & Hres).
        exists (tmp :: bs). simpl in Ht, Hc. simpl.
        split; [now rewrite Ht, <- app_assoc |].
        split; [exact Hc |]. split; [now constructor |].
        destruct r as [[[v tmp'] tt'] | e].
        -- destruct Hres as (Hcat & Hok' & Hg & ext & Hhd).
           repeat split; try assumption.
           ++ now rewrite <- app_assoc, Hcat.
           ++ apply greedy_cons; [exact Hg |].
              intros b' Hb'. rewrite Hhd in Hb'. injection Hb' as <-.
              exists s, ext. split; [reflexivity | lia].
           ++ exists []. now rewrite app_nil_r.
        -- destruct Hres as ((rest' & Hcat) & Hg & ext & Hhd).
           repeat split.
           ++ exists rest'. now rewrite <- app_assoc, Hcat.
           ++ apply greedy_cons; [exact Hg |].
              intros b' Hb'. rewrite Hhd in Hb'. injection Hb' as <-.
              exists s, ext. split; [reflexivity | lia].
           ++ exists []. now rewrite app_nil_r.
      * injection Hrun as <- <-.
        exists [tmp]. simpl.
        split; [reflexivity |]. split; [reflexivity |].
        split; [constructor; [exact Hok | constructor] |].
        split; [| split].
        -- exists (s :: rest). now rewrite app_nil_r.
        -- intros i b b' _ Hb'. destruct i; discriminate.
        -- exists []. now rewrite app_nil_r.
    + assert (Hle : (tt + tokens s <= 250000)%Z).
      { destruct (Z.gtb_spec (tt + tokens s) 250000); [discriminate | lia]. }
      assert (Htt' : (tt + tokens s)%Z = total (tmp ++ [s])).
      { rewrite total_tokens_app, Htt. unfold total_tokens. simpl. lia. }
      assert (Hok' : batch_ok (Found := Found) (tmp ++ [s])) by (left; lia).
      destruct (IH _ _ _ _ _ _ Htt' Hok' Hrun) as (bs & Ht & Hc & Hall & Hres).
      exists bs. repeat split; try assumption.
      destruct r as [[[v tmp'] tt'] | e].
      * destruct Hres as (Hcat & Hok'' & Hg & ext & Hhd).
        repeat split; try assumption.
        -- now rewrite Hcat, <- app_assoc.
        -- exists ([s] ++ ext). now rewrite Hhd, <- app_assoc.
      * destruct Hres as ((rest' & Hcat) & Hg & ext & Hhd).
        repeat split; try assumption.
        -- exists rest'. now rewrite Hcat, <- app_assoc.
        -- exists ([s] ++ ext). now rewrite Hhd, <- app_assoc.
Qed.

Lemma batches_within_cap (sentences_set : list string) (bs : list (list string)) :
  Forall (batch_ok (Found := Found)) bs ->
  (exists rest, concat bs ++ rest = sentences_set) ->
  (forall s, In s sentences_set -> (tokens s <= 250000)%Z) ->
  Forall (fun b => (total b <= 250000)%Z) bs.
Proof.
  intros Hall (rest & Hcat) Hsmall.
  rewrite List.Forall_forall in *. intros b Hb.
  destruct (Hall b Hb) as [Hle | (s & -> & Hbig)]; [exact Hle |].
  assert (Hin : In s sentences_set).
  { rewrite <- Hcat. apply in_or_app. left.
    apply in_concat. exists [s]. split; [exact Hb | now left]. }
  specialize (Hsmall s Hin). lia.
Qed.

(** C7 (as amended).  On a cache miss the batches passed to
    [encode_documents] are consecutive pieces of the sentence list, in order;
    when the call returns they are all of it, so that every sentence is
    embedded once.  Every batch is within the cap of 250000 tokens, or is one
    sentence that exceeds the cap by itself; a batch after the first starts
    with a sentence that did not fit in the batch before it. *)
Theorem get_embeddings_batches (doc_hash : string) (sentences_set : list string)
    (w w' : world S Vec) (r : result (list Vec)) :
  doc_hash <> "" ->
  content_to_vector_cache w !! doc_hash = None ->
  get_embeddings_for_sentences (Found := Found) doc_hash sentences_set w = (r, w') ->
  exists batches,
    trace w' = trace w ++ map EncodeDocuments batches
    /\ (exists rest, concat batches ++ rest = sentences_set)
    /\ ((exists vectors, r = Ok vectors) -> concat batches = sentences_set)
    /\ Forall (batch_ok (Found := Found)) batches
    /\ ((forall s, In s sentences_set -> (tokens s <= 250000)%Z) ->
        Forall (fun b => (total b <= 250000)%Z) batches)
    /\ greedy (Found := Found) batches.
Proof.
  intros Hne Hmiss Hrun.
  unfold get_embeddings_for_sentences, get_cached_content_embeddings in Hrun.
  unfold bind at 1 in Hrun. unfold bind at 1 in Hrun.
  unfold lift, resolve_hash in Hrun.
  destruct doc_hash as [|c0 h0]; [contradiction |].
  simpl Py.truthy_str in Hrun. cbv beta iota in Hrun.
  cbn [snd] in Hrun. rewrite Hmiss in Hrun.
  unfold bind at 1 in Hrun.
  destruct (embeddings_loop _ _ _ _ w) as [rl wl] eqn:Hl.
  assert (H0 : (0 = total [])%Z) by reflexivity.
  assert (Hnil : batch_ok (Found := Found) []) by (left; unfold total_tokens; simpl; lia).
  destruct (embeddings_loop_spec _ _ _ _ _ _ _ H0 Hnil Hl)
    as (bs & Ht & Hc & Hall & Hres).
  assert (Hfin : forall batches,
             (exists rest, concat batches ++ rest = sentences_set) ->
             ((exists vectors, r = Ok vectors) -> concat batches = sentences_set) ->
             Forall (batch_ok (Found := Found)) batches ->
             greedy (Found := Found) batches ->
             trace w' = trace w ++ map EncodeDocuments batches ->
             exists batches,
               trace w' = trace w ++ map EncodeDocuments batches
               /\ (exists rest, concat batches ++ rest = sentences_set)
               /\ ((exists vectors, r = Ok vectors) -> concat batches = sentences_set)
               /\ Forall (batch_ok (Found := Found)) batches
               /\ ((forall s, In s sentences_set -> (tokens s <= 250000)%Z) ->
                   Forall (fun b => (total b <= 250000)%Z) batches)
               /\ greedy (Found := Found) batches).
  { intros batches Hpre Hfull Hok Hg Htr. exists batches.
    repeat split; try assumption.
    intros Hsmall. now apply batches_within_cap with (sentences_set := sentences_set). }
  destruct rl as [[[vectors tmp'] tt'] | e].
  - destruct Hres as (Hcat & Hok' & Hg & _). simpl in Hcat.
    destruct tmp' as [|s0 tmp0].
    + simpl in Hrun. unfold bind, ret, save_in_cache_content_embeddings in Hrun.
      injection Hrun as <- <-. rewrite app_nil_r in Hcat.
      apply (Hfin bs).
      * exists []. now rewrite app_nil_r.
      * intros _. exact Hcat.
      * exact Hall.
      * exact (greedy_prefix _ _ Hg).
      * exact Ht.
    + simpl Py.truthy_list in Hrun. cbv iota in Hrun.
      unfold bind at 1 in Hrun. unfold bind at 1 in Hrun.
      unfold embedding_encode_documents in Hrun.
      destruct (encode_documents (s0 :: tmp0) (svc wl)) as [[encoded | e] sv] eqn:Henc;
        unfold ret, bind, save_in_cache_content_embeddings in Hrun;
        injection Hrun as <- <-; simpl trace;
        apply (Hfin (bs ++ [s0 :: tmp0])).
      all: try (exists []; now rewrite concat_app, app_nil_r; simpl; rewrite app_nil_r).
      all: try (intros _; now rewrite concat_app; simpl; rewrite app_nil_r).
      all: try (apply Forall_app; split; [exact Hall | constructor; [exact Hok' | constructor]]).
      all: try exact Hg.
      all: try exact Hok'.
      all: simpl; now rewrite Ht, map_app, <- app_assoc.
  - injection Hrun as <- <-.
    destruct Hres as (Hpre & Hg & _).
    apply (Hfin bs); try assumption.
    intros (v & Hv). discriminate.
Qed.

End BatcherFacts.

Lemma encoded_batches_map (batches : list (list string)) :
  encoded_batches (map EncodeDocuments batches) = batches.
Proof.
  induction batches as [|b bs IH]; [reflexivity |].
  change (b :: encoded_batches (map EncodeDocuments bs) = b :: bs).
  now rewrite IH.
Qed.

(** C7 on an example: two short sentences, sent in one batch. *)
Lemma get_embeddings_batches_witness :
  "h" <> ""
  /\ content_to_vector_cache (Scripted.start []) !! "h" = None
  /\ concat (encoded_batches
               (trace (snd (get_embeddings_for_sentences
                              "h" ["ab"; "cd"] (Scripted.start [])))))
     = ["ab"; "cd"].
Proof.
  split; [discriminate |]. split; [reflexivity |].
  destruct (get_embeddings_batches "h" ["ab"; "cd"] (Scripted.start [])
              (snd (get_embeddings_for_sentences "h" ["ab"; "cd"] (Scripted.start [])))
              (fst (get_embeddings_for_sentences "h" ["ab"; "cd"] (Scripted.start []))))
    as (batches & Ht & _ & Hfull & _).
  - discriminate.
  - reflexivity.
  - now destruct (get_embeddings_for_sentences "h" ["ab"; "cd"] (Scripted.start [])).
  - rewrite Ht. simpl. rewrite encoded_batches_map.
    apply Hfull. eexists. vm_compute. reflexivity.
Defined.

Lemma scripted_tokens_of_str_mul (n : nat) :
  tokens_of (Py.str_mul "a" n) = Z.of_nat n.
Proof.
  unfold tokens_of. simpl tiktoken_encode. rewrite length_map. f_equal.
  induction n as [|n IH]; [reflexivity |].
  cbn [Py.str_mul]. rewrite str_app_cons, str_app_nil_l. simpl. now rewrite IH.
Qed.

Lemma scripted_oversized_alone (s : string) :
  (250000 < tokens_of s)%Z ->
  encoded_batches
    (trace (snd (get_embeddings_for_sentences "h" ["x"; s] (Scripted.start []))))
  = [["x"]; [s]]
  /\ fst (get_embeddings_for_sentences "h" ["x"; s] (Scripted.start []))
     = Ok [1; String.length s].
Proof.
  intros Hbig.
  unfold get_embeddings_for_sentences, get_cached_content_embeddings, bind, lift.
  cbn [resolve_hash Py.truthy_str snd Scripted.start content_to_vector_cache].
  rewrite lookup_empty. cbn [embeddings_loop].
  change (tokens_of "x") with 1%Z.
  change (0 + 1 >? 250000)%Z with false. cbv iota. unfold bind.
  replace (0 + 1 + tokens_of s >? 250000)%Z with true
    by (symmetry; apply Z.gtb_lt; lia).
  split; reflexivity.
Qed.

(** C7, the claim as worded, fails: a sentence of more than 250000 tokens is
    sent in a batch of its own, and that batch exceeds the cap. *)
Lemma get_embeddings_oversized_counterexample :
  let run := get_embeddings_for_sentences "h" ["x"; Scripted.big_sentence]
                                          (Scripted.start []) in
  encoded_batches (trace (snd run)) = [["x"]; [Scripted.big_sentence]]
  /\ (250000 < total_tokens [Scripted.big_sentence])%Z
  /\ fst run = Ok [1; String.length Scripted.big_sentence].
Proof.
  assert (Hbig : (250000 < tokens_of Scripted.big_sentence)%Z).
  { unfold Scripted.big_sentence. rewrite scripted_tokens_of_str_mul. lia. }
  destruct (scripted_oversized_alone Scripted.big_sentence Hbig) as [Hb Hr].
  cbv zeta. split; [exact Hb |]. split; [| exact Hr].
  unfold total_tokens. cbn [map fold_right]. lia.
Qed.

(** ** Retries of the splitter *)

Section SplitterFacts.
Context {S Vec Found : Type}.
Context {llm_service : LLMServiceInterface S}
        {libraries : Libraries Found}.

Local Abbreviation parse := (parse_llm_response_to_json_list (Found := Found)).
Local Abbreviation json_error := (json_error_of (Found := Found)).
Local Abbreviation corrective := (corrections (Found := Found)).
Local Abbreviation exhausted :=
  (ValueError "The LLM can't return valid JSON after 5 tries.").

Lemma retry_run_last (prompt : string) (errors : list Message)
    (r : result (list SectionNode)) (response : result string) (k : nat) :
  json_error response = None ->
  (forall tree, r = Ok tree -> exists s, response = Ok s /\ parse s = Ok tree) ->
  retry_run (Datatypes.S k) prompt errors r [(user prompt :: errors, response)].
Proof.
  intros Hnone Hok. unfold retry_run. simpl.
  split; [lia |]. split; [lia |]. split; [| split].
  - intros i c H. destruct i; [| discriminate]. simpl in H. injection H as <-.
    simpl. now rewrite app_nil_r.
  - intros H. apply Forall_inv in H. simpl in H. rewrite Hnone in H.
    now destruct H.
  - intros tree Hr. destruct (Hok tree Hr) as (s & -> & Hs).
    now exists (user prompt :: errors), s.
Qed.

Lemma corrections_cons_error (c : list Message * result string)
    (l : list (list Message * result string)) (e : string) :
  json_error (snd c) = Some e ->
  corrective (c :: l) = not_valid_json e :: corrective l.
Proof.
  intros He. unfold corrections.
  change (omap ?f (c :: l)) with (match f c with
                                  | Some y => y :: omap f l
                                  | None => omap f l
                                  end).
  cbv beta. now rewrite He.
Qed.

Lemma retry_run_again (prompt : string) (errors : list Message)
    (r : result (list SectionNode)) (response : result string) (e : string)
    (k : nat) (calls : list (list Message * result string)) :
  json_error response = Some e ->
  retry_run k prompt (errors ++ [not_valid_json e]) r calls ->
  retry_run (Datatypes.S k) prompt errors r
            ((user prompt :: errors, response) :: calls).
Proof.
  intros He (Hlen & Hpos & Hidx & Hall & Hok). unfold retry_run.
  split; [simpl; lia |]. split; [simpl; lia |]. split; [| split].
  - intros i c H. destruct i as [|i]; simpl in H.
    + injection H as <-. simpl. now rewrite app_nil_r.
    + destruct (Hidx i c H) as [Hm Hl]. rewrite Hm.
      change (take (Datatypes.S i) ((user prompt :: errors, response) :: calls))
        with ((user prompt :: errors, response) :: take i calls).
      rewrite (corrections_cons_error (user prompt :: errors, response) _ e He).
      simpl. split; [now rewrite <- app_assoc | now rewrite Hl].
  - intros H. apply Forall_inv_tail in H. destruct (Hall H) as [Hl Hr].
    split; [simpl; lia | exact Hr].
  - intros tree Hr. destruct (Hok tree Hr) as (m & s & Hlast & Hp).
    exists m, s. split; [| exact Hp].
    destruct calls as [|c0 calls0]; [discriminate |]. exact Hlast.
Qed.

Lemma split_retry_loop_spec (tries : nat) :
  forall (prompt : string) (errors : list Message) (w w' : world S Vec) r,
    split_retry_loop (Found := Found) tries prompt errors w = (r, w') ->
    exists calls,
      trace w' = trace w ++ map attempt_event calls
      /\ content_to_json_cache w' = content_to_json_cache w
      /\ retry_run tries prompt errors r calls.
Proof.
  induction tries as [|k IH]; intros prompt errors w w' r Hrun.
  - injection Hrun as <- <-. exists []. simpl. rewrite app_nil_r.
    split; [reflexivity |]. split; [reflexivity |].
    unfold retry_run. simpl.
    split; [lia |]. split; [lia |]. split; [| split].
    + intros i c H. discriminate.
    + intros _. now split.
    + intros tree H. discriminate.
  - cbn [split_retry_loop] in Hrun.
    unfold try_except_JSONDecodeError, bind, llm_complete_messages, lift in Hrun.
    destruct (complete_messages (user prompt :: errors) (svc w))
      as [response sv] eqn:Hcall.
    set (w1 := record_call w sv (LlmCall (user prompt :: errors) response)) in *.
    assert (Hone : forall r0,
               (r0, w1) = (r, w') ->
               json_error response = None ->
               (forall tree, r0 = Ok tree ->
                             exists s, response = Ok s /\ parse s = Ok tree) ->
               exists calls,
                 trace w' = trace w ++ map attempt_event calls
                 /\ content_to_json_cache w' = content_to_json_cache w
                 /\ retry_run (Datatypes.S k) prompt errors r calls).
    { intros r0 Heq Hnone Hok. injection Heq as <- <-.
      exists [(user prompt :: errors, response)].
      split; [reflexivity |]. split; [reflexivity |].
      now apply retry_run_last. }
    assert (Hmore : forall e,
               split_retry_loop (Found := Found) k prompt
                 (errors ++ [not_valid_json e]) w1 = (r, w') ->
               json_error response = Some e ->
               exists calls,
                 trace w' = trace w ++ map attempt_event calls
                 /\ content_to_json_cache w' = content_to_json_cache w
                 /\ retry_run (Datatypes.S k) prompt errors r calls).
    { intros e Hloop He.
      destruct (IH _ _ _ _ _ Hloop) as (calls & Ht & Hc & Hr).
      exists ((user prompt :: errors, response) :: calls).
      split; [| split].
      - rewrite Ht. simpl. now rewrite <- app_assoc.
      - exact Hc.
      - now apply retry_run_again with (e := e). }
    destruct response as [s | e].
    + destruct (parse s) as [tree | e] eqn:Hp.
      * apply (Hone _ Hrun).
        -- simpl. now rewrite Hp.
        -- intros tree' Ht. injection Ht as <-. now exists s.
      * destruct e; try (apply (Hone _ Hrun);
                         [simpl; now rewrite Hp | intros tree' Ht; discriminate]).
        apply (Hmore _ Hrun). simpl. now rewrite Hp.
    + destruct e; try (apply (Hone _ Hrun);
                       [reflexivity | intros tree' Ht; discriminate]).
      now apply (Hmore _ Hrun).
Qed.

(** A response in which no bracketed array is found is not retried: the
    IndexError of the parser is not a [json.JSONDecodeError]. *)
Lemma split_retry_loop_no_array (k : nat) (prompt : string)
    (errors : list Message) (w : world S Vec) (s : string) (sv : S) :
  complete_messages (user prompt :: errors) (svc w) = (Ok s, sv) ->
  pyparsing_search (Found := Found) "[" "]" s = [] ->
  split_retry_loop (Found := Found) (Datatypes.S k) prompt errors w
  = (Raise IndexError,
     record_call w sv (LlmCall (user prompt :: errors) (Ok s))).
Proof.
  intros Hcall Hnone. cbn [split_retry_loop].
  unfold try_except_JSONDecodeError, bind, llm_complete_messages, lift.
  rewrite Hcall. unfold parse_llm_response_to_json_list. now rewrite Hnone.
Qed.

Lemma enrich_sections_top (raw : list SectionNode) :
  enrich_sections raw None None = Ok (map (enrich_section [] 1) raw).
Proof. reflexivity. Qed.


(** After a run that returned a non-empty tree, a second run on the same
    text and hash returns the same hash and tree and leaves the world, its
    trace included, as it is. *)
Lemma split_content_with_llm_cached (content_ : string)
    (title doc_hash : option string) (w w' : world S Vec)
    (h : string) (tree : list SectionNode) :
  split_content_with_llm (Found := Found) content_ title doc_hash w
  = (Ok (h, tree), w') ->
  tree <> [] ->
  split_content_with_llm (Found := Found) content_ title doc_hash w'
  = (Ok (h, tree), w').
Proof.
  intros Hrun Hne.
  assert (Hhit : forall w0 : world S Vec,
             resolve_hash (Some content_) doc_hash = Ok h ->
             content_to_json_cache w0 !! h = Some tree ->
             split_content_with_llm (Found := Found) content_ title doc_hash w0
             = (Ok (h, tree), w0)).
  { intros w0 Hh Hl.
    unfold split_content_with_llm, get_cached_content_json_tree.
    unfold bind at 1. unfold bind at 1. unfold lift. rewrite Hh.
    cbv beta iota. rewrite Hl. simpl.
    destruct tree; [contradiction | reflexivity]. }
  unfold split_content_with_llm, get_cached_content_json_tree in Hrun.
  unfold bind at 1 in Hrun. unfold bind at 1 in Hrun. unfold lift in Hrun.
  destruct (resolve_hash (Some content_) doc_hash) as [hash | e] eqn:Hh;
    [| discriminate].
  cbv beta iota in Hrun.
  destruct (Py.truthy_list (default [] (content_to_json_cache w !! hash))) eqn:Hc.
  - injection Hrun as <- <- <-.
    apply Hhit; [reflexivity |].
    destruct (content_to_json_cache w !! hash) as [l |]; [reflexivity | discriminate].
  - destruct (negb (Py.truthy_str content_)); [discriminate |].
    destruct (_ >? _)%Z; [discriminate |].
    unfold bind at 1 in Hrun.
    destruct (split_retry_loop _ _ _ w) as [[raw | e] wl]; [| discriminate].
    unfold bind, lift, save_in_cache_content_json_tree, ret in Hrun.
    rewrite enrich_sections_top in Hrun. injection Hrun as <- <- <-.
    apply Hhit; [reflexivity |]. apply lookup_insert_eq.
Qed.

End SplitterFacts.


(** The two runs of the retry bound in the scripted world: malformed JSON
    on attempts 1 to 4 and a valid array on attempt 5 gives the tree of the
    fifth response; malformed JSON every time gives ValueError after 5
    attempts. *)
Example split_content_with_llm_fifth_attempt :
  let run := split_content_with_llm "A doc." None None
               (Scripted.start ["[a]"; "[b]"; "[c]"; "[d]"; Scripted.intro_json]) in
  fst run = Ok (get_doc_hash "A doc.",
                [enrich_section [] 1 Scripted.intro_section])
  /\ map (fun c => length (fst c)) (llm_calls (trace (snd run))) = [1; 2; 3; 4; 5].
Proof. vm_compute. repeat split. Qed.

Example split_content_with_llm_always_malformed :
  let run := split_content_with_llm "A doc." None None
               (Scripted.start ["[a]"; "[b]"; "[c]"; "[d]"; "[e]"; Scripted.intro_json]) in
  fst run = Raise (ValueError "The LLM can't return valid JSON after 5 tries.")
  /\ length (llm_calls (trace (snd run))) = 5
  /\ content_to_json_cache (snd run) = ∅.
Proof. vm_compute. repeat split. Qed.


(** C3, at the failing input: the completion service answers with the empty
    array.  The first run makes one call, returns the empty tree and puts it
    in the cache under the document hash; the second run on the same text
    finds it there, takes it for a miss, and calls the completion service
    again. *)
Lemma split_content_with_llm_empty_tree_not_cached :
  let first := split_content_with_llm "A doc." None None
                 (Scripted.start ["[]"; "[]"]) in
  let second := split_content_with_llm "A doc." None None (snd first) in
  fst first = Ok (get_doc_hash "A doc.", [])
  /\ length (llm_calls (trace (snd first))) = 1
  /\ content_to_json_cache (snd first) !! get_doc_hash "A doc." = Some []
  /\ fst second = fst first
  /\ length (llm_calls (trace (snd second))) = 2.
Proof.
  vm_compute. repeat split.
Qed.

(** * Further properties of the code *)

(** ** The section hierarchy after enrichment *)

Lemma with_ancestors_eq (a : list string) (s : SectionNode) :
  with_ancestors a s
  = (a, s) :: concat (map (with_ancestors (a ++ [header s])) (subsections s)).
Proof. now destruct s. Qed.

Lemma with_ancestors_nodes (s : SectionNode) :
  forall a, map snd (with_ancestors a s) = s :: descendants s.
Proof.
  induction s as [h c subs p l i IH] using SectionNode_nested_ind.
  intros a. rewrite with_ancestors_eq, descendants_eq. simpl. f_equal.
  generalize (a ++ [h]). intros a'.
  induction subs as [|x subs IHl]; [reflexivity |].
  apply Forall_cons in IH as [Hx IH].
  simpl. rewrite map_app, Hx, IHl by exact IH. reflexivity.
Qed.

Lemma forest_with_ancestors_nodes (forest : list SectionNode) :
  map snd (forest_with_ancestors forest) = all_nodes forest.
Proof.
  unfold forest_with_ancestors, all_nodes.
  induction forest as [|x forest IH]; [reflexivity |].
  simpl. now rewrite map_app, with_ancestors_nodes, IH.
Qed.

Lemma with_ancestors_enriched (raw : SectionNode) :
  forall a p l,
    Forall (fun an => exists sfx,
                fst an = a ++ sfx
                /\ parents (snd an) = Some (p ++ sfx)
                /\ level (snd an) = Some (l + Z.of_nat (length sfx))%Z)
           (with_ancestors a (enrich_section p l raw)).
Proof.
  induction raw as [h c subs p0 l0 i IH] using SectionNode_nested_ind.
  intros a p l. rewrite with_ancestors_eq, enrich_section_subsections.
  destruct (enrich_section_fields p l (mkSection h c subs p0 l0 i))
    as (Hh & Hp & Hl & _).
  rewrite Hh. simpl header. simpl subsections.
  apply Forall_cons. split.
  - exists []. cbn [fst snd length]. rewrite !app_nil_r, Hp, Hl.
    repeat split. f_equal. lia.
  - clear Hh Hp Hl. induction subs as [|x subs IHl]; [constructor |].
    apply Forall_cons in IH as [Hx IH].
    simpl. apply Forall_app. split; [| now apply IHl].
    eapply Forall_impl; [apply Hx |].
    intros [a' n] (sfx & Ha & Hpn & Hln). simpl in *.
    exists (h :: sfx). rewrite Ha, Hpn, Hln, <- !app_assoc. simpl.
    repeat split. f_equal. lia.
Qed.

Lemma enrich_forest_headers (raws : list SectionNode) (p : list string) (l : Z) :
  map header (all_nodes (map (enrich_section p l) raws))
  = map header (all_nodes raws).
Proof.
  unfold all_nodes. induction raws as [|x raws IH]; [reflexivity |].
  cbn [map concat]. now rewrite !map_app, enrich_section_headers, IH.
Qed.

Lemma enrich_forest_ancestors (sections : list SectionNode) :
  Forall (fun an =>
            parents (snd an) = Some (fst an)
            /\ level (snd an) = Some (1 + Z.of_nat (length (fst an)))%Z)
         (forest_with_ancestors (map (enrich_section [] 1) sections)).
Proof.
  unfold forest_with_ancestors.
  induction sections as [|x sections IH]; [constructor |].
  simpl. apply Forall_app. split; [| exact IH].
  eapply Forall_impl; [apply (with_ancestors_enriched x [] [] 1%Z) |].
  intros [a n] (sfx & Ha & Hp & Hl). simpl in *. subst a. now split.
Qed.

(** X1.  [enrich_sections], called on the tree the completion service
    returned, keeps every section in its place (the headers in document
    order are unchanged) and gives every node of the forest the headers of
    its ancestors, the root's first, as [parents] and its depth (1 for a top
    section) as [level]: the level is always the number of parents plus one. *)
Theorem enrich_sections_hierarchy (sections : list SectionNode) :
  exists forest,
    enrich_sections sections None None = Ok forest
    /\ map header (all_nodes forest) = map header (all_nodes sections)
    /\ map snd (forest_with_ancestors forest) = all_nodes forest
    /\ Forall (fun an =>
                 parents (snd an) = Some (fst an)
                 /\ level (snd an) = Some (1 + Z.of_nat (length (fst an)))%Z)
              (forest_with_ancestors forest).
Proof.
  exists (map (enrich_section [] 1) sections).
  split; [reflexivity |]. split; [apply enrich_forest_headers |].
  split; [apply forest_with_ancestors_nodes |].
  apply enrich_forest_ancestors.
Qed.

(** ** The rows of the linearization *)

Lemma linearize_section_plain (node : SectionNode) :
  linearize_section false node = node :: descendants node.
Proof.
  induction node as [h c subs p l i IH] using SectionNode_nested_ind.
  rewrite linearize_section_rows, descendants_eq. simpl. f_equal.
  unfold _linearize_sections.
  induction subs as [|x subs IHl]; [reflexivity |].
  apply Forall_cons in IH as [Hx IH].
  simpl. now rewrite Hx, IHl.
Qed.

Lemma linearize_section_length (node : SectionNode) :
  Z.of_nat (length (linearize_section true node))
  = fold_right Z.add 0%Z
      (map (fun n => 1 + Z.of_nat (length (default [] (parents n))))%Z
           (node :: descendants node)).
Proof.
  induction node as [h c subs p l i IH] using SectionNode_nested_ind.
  rewrite linearize_section_rows, descendants_eq.
  cbn [length map fold_right]. rewrite length_app, length_map, length_seq.
  simpl parents. simpl subsections.
  assert (Hsubs :
    Z.of_nat (length (_linearize_sections true subs))
    = fold_right Z.add 0%Z
        (map (fun n => 1 + Z.of_nat (length (default [] (parents n))))%Z
             (concat (map (fun c0 => c0 :: descendants c0) subs)))).
  { unfold _linearize_sections.
    induction subs as [|x subs IHl]; [reflexivity |].
    apply Forall_cons in IH as [Hx IH]. specialize (IHl IH).
    cbn [map concat]. rewrite length_app, Nat2Z.inj_add, Hx, IHl.
    rewrite map_app, fold_right_app.
    generalize (fold_right Z.add 0%Z
       (map (fun n => 1 + Z.of_nat (length (default [] (parents n))))%Z
            (concat (map (fun c0 => c0 :: descendants c0) subs)))).
    intros z. clear. generalize (x :: descendants x). intros nodes.
    induction nodes as [|n nodes IHn]; simpl in *; lia. }
  lia.
Qed.

(** X2.  Without hierarchized titles [_linearize_sections] gives every node
    of the forest once, in document order.  With them, on the forest
    [enrich_sections] returns, the number of rows is the sum of the levels
    of the nodes: a section of level 3 is indexed under 3 headers. *)
Theorem linearize_sections_rows_count :
  (forall forest, _linearize_sections false forest = all_nodes forest)
  /\ (forall sections,
         exists forest,
           enrich_sections sections None None = Ok forest
           /\ Z.of_nat (length (_linearize_sections true forest))
              = total_levels forest).
Proof.
  split.
  - intros forest. unfold _linearize_sections, all_nodes.
    induction forest as [|x forest IH]; [reflexivity |].
    simpl. now rewrite linearize_section_plain, IH.
  - intros sections. exists (map (enrich_section [] 1) sections).
    split; [reflexivity |].
    pose proof (enrich_forest_ancestors sections) as Hanc.
    unfold total_levels. rewrite <- forest_with_ancestors_nodes.
    unfold _linearize_sections, forest_with_ancestors in *.
    induction (map (enrich_section [] 1) sections) as [|x forest IH];
      [reflexivity |].
    cbn [map concat] in *. apply Forall_app in Hanc as [Hx Hf].
    rewrite length_app, Nat2Z.inj_add, linearize_section_length, (IH Hf).
    rewrite !map_app, fold_right_app.
    generalize (fold_right Z.add 0%Z
       (map (fun node => default 0%Z (level node))
            (map snd (concat (map (with_ancestors []) forest))))).
    intros z. rewrite <- (with_ancestors_nodes x []).
    clear IH Hf. induction (with_ancestors [] x) as [|[a n] ans IHa];
      [reflexivity |].
    apply Forall_cons in Hx as [[Hp Hl] Hx]. simpl in Hp, Hl.
    cbn [map fold_right snd]. rewrite Hp, Hl. simpl default.
    rewrite <- (IHa Hx). lia.
Qed.

(** ** The calls of the metadata store *)

Section PersistenceFacts.
Context {S Vec Found : Type}.
Context {sql_db_service : SqlDBServiceInterface S}.
Variable work_title : string.

Lemma sql_calls_app (doc_hash : string) (a b : list SectionNode) (s : S) :
  sql_calls work_title doc_hash (a ++ b) s
  = match sql_calls work_title doc_hash a s with
    | (ids, None, s1) =>
        match sql_calls work_title doc_hash b s1 with
        | (ids', err', s2) => (ids ++ ids', err', s2)
        end
    | (ids, Some e, s1) => (ids, Some e, s1)
    end.
Proof.
  revert s. induction a as [|x a IH]; intros s.
  - simpl. now destruct (sql_calls work_title doc_hash b s) as [[ids' err'] s2].
  - cbn [app sql_calls].
    destruct (add_header_content_in_sdb work_title doc_hash (header x) (content x) s)
      as [[id | e] s1]; [| reflexivity].
    rewrite IH.
    destruct (sql_calls work_title doc_hash a s1) as [[ids [e |]] s2];
      [reflexivity |].
    now destruct (sql_calls work_title doc_hash b s2) as [[ids' err'] s3].
Qed.

Lemma save_list_calls (doc_hash : string) (sections : list SectionNode) :
  Forall (fun node => forall (w w' : world S Vec) r,
              save_section_in_sql_db (Vec := Vec) work_title doc_hash node w = (r, w') ->
              saved_run work_title forget_id
                        (fun n => map sql_doc_id (n :: descendants n))
                        doc_hash node (node :: descendants node) w r w')
         sections ->
  forall (w w' : world S Vec) r,
    _save_sections_in_sql_db work_title doc_hash sections w = (r, w') ->
    saved_run work_title (map forget_id)
              (fun forest => map sql_doc_id (all_nodes forest))
              doc_hash sections (all_nodes sections) w r w'.
Proof.
  unfold all_nodes.
  induction 1 as [|node sections Hn _ IH]; intros w w' r Hrun ids err s' Hcalls.
  - injection Hrun as <- <-. injection Hcalls as <- <- <-.
    split; [reflexivity |]. split; [now repeat split |].
    split; [simpl; now rewrite app_nil_r |].
    split; [reflexivity |]. now exists [].
  - cbn [map concat] in *. set (here := node :: descendants node) in *.
    set (rest := concat (map (fun c => c :: descendants c) sections)) in *.
    rewrite sql_calls_app in Hcalls.
    cbn [_save_sections_in_sql_db] in Hrun. unfold bind at 1 in Hrun.
    destruct (save_section_in_sql_db work_title doc_hash node w)
      as [r1 w1] eqn:Hnode.
    destruct (sql_calls work_title doc_hash here (svc w)) as [[ids1 err1] s1]
      eqn:H1.
    destruct (Hn _ _ _ Hnode _ _ _ H1) as (Hs1 & Hc1 & Ht1 & Hm1).
    destruct err1 as [e |].
    + injection Hcalls as <- <- <-. destruct Hm1 as [-> Hlt].
      injection Hrun as <- <-.
      split; [exact Hs1 |]. split; [exact Hc1 |]. split.
      * rewrite Ht1. unfold calls_made. now rewrite take_app_le by lia.
      * split; [reflexivity |]. rewrite length_app. lia.
    + destruct Hm1 as (Hl1 & x' & -> & Hf1 & Hi1).
      unfold bind at 1 in Hrun.
      destruct (_save_sections_in_sql_db work_title doc_hash sections w1)
        as [r2 w2] eqn:Hrest.
      destruct (sql_calls work_title doc_hash rest s1) as [[ids2 err2] s2]
        eqn:H2.
      injection Hcalls as <- <- <-.
      rewrite <- Hs1 in H2.
      destruct (IH _ _ _ Hrest _ _ _ H2) as (Hs2 & Hc2 & Ht2 & Hm2).
      assert (Htrace : trace w2
                       = trace w
                         ++ sql_add_events doc_hash
                              (take (calls_made (ids1 ++ ids2) err2) (here ++ rest))).
      { rewrite Ht2, Ht1. unfold calls_made in *.
        rewrite Nat.add_0_r, take_ge by lia.
        rewrite length_app, <- Nat.add_assoc, Hl1, take_app_add by reflexivity.
        unfold sql_add_events. now rewrite map_app, <- app_assoc. }
      assert (Hcaches : same_caches w w2).
      { destruct Hc1 as (A1 & A2 & A3), Hc2 as (B1 & B2 & B3).
        repeat split; congruence. }
      destruct err2 as [e |].
      * destruct Hm2 as [-> Hlt]. injection Hrun as <- <-.
        split; [exact Hs2 |]. split; [exact Hcaches |]. split; [exact Htrace |].
        split; [reflexivity |]. rewrite !length_app. lia.
      * destruct Hm2 as (Hl2 & rest' & -> & Hf2 & Hi2).
        unfold ret in Hrun. injection Hrun as <- <-.
        split; [exact Hs2 |]. split; [exact Hcaches |]. split; [exact Htrace |].
        split; [rewrite !length_app; lia |].
        exists (x' :: rest'). split; [reflexivity |]. split.
        -- cbn [map]. now rewrite Hf1, Hf2.
        -- change (concat (map (fun c => c :: descendants c) (x' :: rest')))
             with ((x' :: descendants x')
                   ++ concat (map (fun c => c :: descendants c) rest')).
           rewrite !map_app. f_equal; [exact Hi1 | exact Hi2].
Qed.

Lemma save_section_calls (doc_hash : string) (node : SectionNode) :
  forall (w w' : world S Vec) r,
    save_section_in_sql_db (Vec := Vec) work_title doc_hash node w = (r, w') ->
    saved_run work_title forget_id
              (fun n => map sql_doc_id (n :: descendants n))
              doc_hash node (node :: descendants node) w r w'.
Proof.
  induction node as [h c subs p l i IH] using SectionNode_nested_ind.
  intros w w' r Hrun ids err s' Hcalls.
  rewrite save_section_in_sql_db_eq in Hrun. simpl in Hrun.
  unfold bind at 1 in Hrun.
  unfold sql_add_header_content_in_sdb at 1 in Hrun.
  rewrite descendants_eq in *. simpl subsections in *.
  cbn [sql_calls header content] in Hcalls.
  destruct (add_header_content_in_sdb work_title doc_hash h c (svc w))
    as [r0 s0].
  set (w0 := record_call w s0 (SqlAddHeaderContent doc_hash h c)) in *.
  destruct r0 as [id | e].
  - unfold bind at 1 in Hrun.
    destruct (_save_sections_in_sql_db work_title doc_hash subs w0)
      as [r2 w2] eqn:Hsubs.
    set (below := concat (map (fun c0 => c0 :: descendants c0) subs)) in *.
    destruct (sql_calls work_title doc_hash below s0) as [[ids2 err2] s2] eqn:H2.
    injection Hcalls as <- <- <-.
    destruct (save_list_calls doc_hash subs IH _ _ _ Hsubs _ _ _ H2)
      as (Hs2 & Hc2 & Ht2 & Hm2).
    change (all_nodes subs) with below in *.
    assert (Htrace : trace w2
                     = trace w
                       ++ sql_add_events doc_hash
                            (take (calls_made (id :: ids2) err2)
                                  (mkSection h c subs p l i :: below))).
    { rewrite Ht2. subst w0. simpl. now rewrite <- app_assoc. }
    assert (Hcaches : same_caches w w2).
    { destruct Hc2 as (B1 & B2 & B3). now repeat split. }
    destruct err2 as [e |].
    + destruct Hm2 as [-> Hlt]. injection Hrun as <- <-.
      split; [exact Hs2 |]. split; [exact Hcaches |]. split; [exact Htrace |].
      split; [reflexivity |]. cbn [length]. lia.
    + destruct Hm2 as (Hl2 & subs' & -> & Hf2 & Hi2).
      unfold ret in Hrun. injection Hrun as <- <-.
      split; [exact Hs2 |]. split; [exact Hcaches |]. split; [exact Htrace |].
      split; [cbn [length]; lia |].
      eexists. split; [reflexivity |]. split.
      * simpl. now rewrite Hf2.
      * rewrite descendants_eq. simpl. f_equal. exact Hi2.
  - injection Hcalls as <- <- <-. injection Hrun as <- <-.
    split; [reflexivity |]. split; [now repeat split |].
    split; [reflexivity |]. split; [reflexivity |]. simpl. lia.
Qed.

(** X3.  [_save_sections_in_sql_db] calls the metadata store for the nodes
    of the forest in document order, every call in the state the call
    before left, with the document hash, the header and the content of the
    node, and makes no call after one that raised: it raises the exception
    of that call.  When no call raises, every node has been sent, and the
    forest returned is the one given with, on every node, the identifier
    the store returned for it. *)
Theorem save_sections_in_sql_db_calls (doc_hash : string)
    (sections : list SectionNode) (w w' : world S Vec)
    (r : result (list SectionNode))
    (ids : list string) (err : option exn) (s' : S) :
  _save_sections_in_sql_db work_title doc_hash sections w = (r, w') ->
  sql_calls work_title doc_hash (all_nodes sections) (svc w) = (ids, err, s') ->
  svc w' = s'
  /\ same_caches w w'
  /\ trace w'
     = trace w
       ++ sql_add_events doc_hash (take (calls_made ids err) (all_nodes sections))
  /\ match err with
     | None =>
         length ids = length (all_nodes sections)
         /\ exists saved,
             r = Ok saved
             /\ map forget_id saved = map forget_id sections
             /\ map sql_doc_id (all_nodes saved) = map Some ids
     | Some e => r = Raise e /\ length ids < length (all_nodes sections)
     end.
Proof.
  intros Hrun. revert ids err s'.
  apply (save_list_calls doc_hash sections); [| exact Hrun].
  apply List.Forall_forall. intros node _. apply save_section_calls.
Qed.

End PersistenceFacts.

(** X3 on an example: a section with one subsection, two calls, two
    identifiers. *)
Lemma save_sections_in_sql_db_calls_witness :
  let run := _save_sections_in_sql_db "work" "h" [Scripted.guide_enriched]
               (Scripted.start []) in
  trace (snd run) = sql_add_events "h" (all_nodes [Scripted.guide_enriched])
  /\ exists saved,
      fst run = Ok saved
      /\ map sql_doc_id (all_nodes saved)
         = [Some "id of Guide"; Some "id of Setup"].
Proof.
  cbv zeta.
  set (run := _save_sections_in_sql_db "work" "h" [Scripted.guide_enriched]
                (Scripted.start [])).
  destruct (save_sections_in_sql_db_calls "work" "h" [Scripted.guide_enriched]
              (Scripted.start []) (snd run) (fst run)
              ["id of Guide"; "id of Setup"] None []
              (surjective_pairing run) eq_refl)
    as (_ & _ & Ht & _ & saved & Hr & _ & Hi).
  split; [exact Ht |]. now exists saved.
Defined.

(** ** The cache directories *)

Section SentenceCacheFacts.
Context {S Vec : Type}.

Lemma build_sentences_set_length (lines : list string) (count : Z) :
  length (build_sentences_set lines count)
  = Z.to_nat ((Z.of_nat (length lines) - 2) / 2).
Proof. now rewrite build_sentences_set_map, length_map, length_seq. Qed.

(** X4.  [split_content_by_sentences] never calls a service.  Once a call
    has returned for a text and a hash, every later call for them returns
    the windows of that first call, whatever the [count] it is given: the
    windows in the cache were cut for the first [count] and are not cut
    again. *)
Theorem split_content_by_sentences_cached (markdown_content : string)
    (doc_hash : option string) (count count' : Z) (w w1 : world S Vec)
    (h : string) (sentences_set : list string) :
  split_content_by_sentences markdown_content doc_hash count w
  = (Ok (h, sentences_set), w1) ->
  trace w1 = trace w
  /\ svc w1 = svc w
  /\ split_content_by_sentences markdown_content doc_hash count' w1
     = (Ok (h, sentences_set), w1).
Proof.
  intros Hrun.
  unfold split_content_by_sentences, get_cached_content_sentences in *.
  unfold bind at 1 in Hrun. unfold bind at 1 in Hrun. unfold lift in Hrun.
  unfold bind at 1. unfold bind at 1. unfold lift.
  destruct (resolve_hash (Some markdown_content) doc_hash) as [hash | e];
    [| discriminate].
  cbv beta iota in *.
  destruct (Py.truthy_list (default [] (content_to_sentence_cache w !! hash)))
    eqn:Hc.
  - injection Hrun as <- <- <-. rewrite Hc. now repeat split.
  - destruct (negb (Py.truthy_str markdown_content)) eqn:Hne; [discriminate |].
    unfold bind, save_in_cache_content_sentences, ret in Hrun.
    injection Hrun as <- <- <-. cbn [trace svc content_to_sentence_cache].
    split; [reflexivity |]. split; [reflexivity |].
    rewrite lookup_insert_eq. cbn [default].
    set (lines := sentence_lines markdown_content).
    destruct (build_sentences_set lines count) as [|s0 rest] eqn:Hset.
    + cbn [Py.truthy_list]. unfold bind, save_in_cache_content_sentences, ret.
      cbn [trace svc content_to_sentence_cache content_to_json_cache
           content_to_vector_cache].
      assert (Hset' : build_sentences_set lines count' = []).
      { apply length_zero_iff_nil. rewrite build_sentences_set_length.
        rewrite <- (build_sentences_set_length lines count), Hset. reflexivity. }
      rewrite Hset'. cbv [id]. cbn [Py.truthy_list].
      cbn [trace svc content_to_sentence_cache content_to_json_cache
           content_to_vector_cache].
      rewrite insert_insert_eq. reflexivity.
    + reflexivity.
Qed.

End SentenceCacheFacts.

(** X4 on an example: seven fragments cut with [count] 1, then asked again
    with [count] 5. *)
Lemma split_content_by_sentences_cached_witness :
  let first := split_content_by_sentences "A. B. C. D." None 1 (Scripted.start []) in
  fst first = Ok (get_doc_hash "A. B. C. D.", [" A ."; " B ."])
  /\ split_content_by_sentences "A. B. C. D." None 5 (snd first) = first.
Proof.
  cbv zeta.
  set (first := split_content_by_sentences "A. B. C. D." None 1 (Scripted.start [])).
  assert (Hfirst : first
                   = (Ok (get_doc_hash "A. B. C. D.", [" A ."; " B ."]), snd first))
    by (rewrite (surjective_pairing first) at 1; f_equal; vm_compute; reflexivity).
  split; [now rewrite Hfirst |].
  destruct (split_content_by_sentences_cached "A. B. C. D." None 1 5
              (Scripted.start []) (snd first) _ _ Hfirst) as (_ & _ & Hsecond).
  rewrite Hsecond. now symmetry.
Defined.

Section VectorCacheFacts.
Context {S Vec Found : Type}.
Context {embedding_service : EmbeddingServiceInterface S Vec}
        {libraries : Libraries Found}.

(** X5.  A call of [get_embeddings_for_sentences] that returns was given a
    non-empty document hash and leaves the vectors it returns in the cache
    under that hash; every later call with that hash returns them without a
    call of the embedding service, whatever the sentences it is given, also
    when the list of vectors is empty. *)
Theorem get_embeddings_for_sentences_cached (doc_hash : string)
    (sentences_set sentences_set' : list string) (w w1 : world S Vec)
    (vectors : list Vec) :
  get_embeddings_for_sentences (Found := Found) doc_hash sentences_set w
  = (Ok vectors, w1) ->
  doc_hash <> ""
  /\ content_to_vector_cache w1 !! doc_hash = Some vectors
  /\ get_embeddings_for_sentences (Found := Found) doc_hash sentences_set' w1
     = (Ok vectors, w1).
Proof.
  intros Hrun.
  unfold get_embeddings_for_sentences, get_cached_content_embeddings in *.
  unfold bind at 1 in Hrun. unfold bind at 1 in Hrun. unfold lift in Hrun.
  unfold bind at 1. unfold bind at 1. unfold lift.
  destruct doc_hash as [|c0 rest0]; [discriminate |].
  cbn [resolve_hash Py.truthy_str] in *. cbv beta iota in *. cbn [snd] in *.
  set (doc_hash := String c0 rest0) in *.
  split; [discriminate |].
  destruct (content_to_vector_cache w !! doc_hash) as [res |] eqn:Hc.
  - unfold ret in Hrun. injection Hrun as <- <-. rewrite Hc. now split.
  - unfold bind at 1 in Hrun.
    destruct (embeddings_loop sentences_set [] [] 0 w)
      as [[[[vs tmp] n] | e] wl]; [| discriminate].
    unfold bind at 1 in Hrun.
    destruct (Py.truthy_list tmp).
    + unfold bind at 1 in Hrun.
      destruct (embedding_encode_documents tmp wl) as [[encoded | e] we];
        [| discriminate].
      unfold bind, save_in_cache_content_embeddings, ret in Hrun.
      injection Hrun as <- <-. cbn [content_to_vector_cache].
      rewrite lookup_insert_eq. now split.
    + unfold bind, save_in_cache_content_embeddings, ret in Hrun.
      injection Hrun as <- <-. cbn [content_to_vector_cache].
      rewrite lookup_insert_eq. now split.
Qed.

End VectorCacheFacts.

(** X5 on an example: no sentence, no vector, and the empty list of vectors
    is found again. *)
Lemma get_embeddings_for_sentences_cached_witness :
  let first := get_embeddings_for_sentences "h" [] (Scripted.start []) in
  fst first = Ok []
  /\ get_embeddings_for_sentences "h" ["ab"; "cd"] (snd first) = first.
Proof.
  cbv zeta.
  set (first := get_embeddings_for_sentences "h" [] (Scripted.start [])).
  assert (Hfirst : first = (Ok [], snd first))
    by (rewrite (surjective_pairing first) at 1; f_equal).
  split; [now rewrite Hfirst |].
  destruct (get_embeddings_for_sentences_cached "h" [] ["ab"; "cd"]
              (Scripted.start []) (snd first) [] Hfirst) as (_ & _ & Hsecond).
  rewrite Hsecond. now symmetry.
Defined.

Section TreeCacheFacts.
Context {S Vec Found : Type}.
Context {llm_service : LLMServiceInterface S}
        {libraries : Libraries Found}.

(** X6.  When the cache has no tree for the document (or an empty one),
    [split_content_with_llm] refuses an empty text, and a text whose prompt
    has more than 100000 tokens, with ValueError, before any call of the
    completion service and without writing in the cache. *)
Theorem split_content_with_llm_refuses (content_ : string)
    (title doc_hash : option string) (hash : string) (w : world S Vec) :
  resolve_hash (Some content_) doc_hash = Ok hash ->
  Py.truthy_list (default [] (content_to_json_cache w !! hash)) = false ->
  let tokens_count :=
    Z.of_nat (length (tiktoken_encode (Found := Found)
                        (split_prompt content_ title))) in
  (content_ = "" ->
   split_content_with_llm (Found := Found) content_ title doc_hash w
   = (Raise (ValueError "Empty content"), w))
  /\ (content_ <> "" -> (100000 < tokens_count)%Z ->
      split_content_with_llm (Found := Found) content_ title doc_hash w
      = (Raise (ValueError ("TOO MANY TOKENS tokens_count = "
                            +:+ pretty tokens_count)), w)).
Proof.
  intros Hh Hmiss tokens_count.
  assert (Hrun : forall k : string * option (list SectionNode)
                            -> M S Vec (string * list SectionNode),
             bind (get_cached_content_json_tree content_ doc_hash) k w
             = k (hash, content_to_json_cache w !! hash) w).
  { intros k. unfold get_cached_content_json_tree.
    unfold bind at 1. unfold bind at 1. unfold lift. now rewrite Hh. }
  unfold split_content_with_llm. rewrite Hrun. cbv beta iota. rewrite Hmiss.
  split.
  - intros ->. reflexivity.
  - intros Hne Htok. destruct content_ as [|c0 rest0]; [contradiction |].
    cbn [negb Py.truthy_str]. fold tokens_count.
    destruct (Z.gtb_spec tokens_count 100000) as [_ | Hle]; [reflexivity | lia].
Qed.

(** X7.  The cache of trees is keyed by the hash alone: once a call given
    the document hash [h] has returned a non-empty tree, every later call
    given [h] returns that tree without a call of the completion service,
    whatever the text and the title it is given. *)
Theorem split_content_with_llm_keyed_by_hash (content_ content' : string)
    (title title' : option string) (h h' : string) (w w1 : world S Vec)
    (tree : list SectionNode) :
  h <> "" ->
  split_content_with_llm (Found := Found) content_ title (Some h) w
  = (Ok (h', tree), w1) ->
  tree <> [] ->
  h' = h
  /\ split_content_with_llm (Found := Found) content' title' (Some h) w1
     = (Ok (h, tree), w1).
Proof.
  intros Hh Hrun Hne.
  assert (Hres : forall c, resolve_hash (Some c) (Some h) = Ok h)
    by (intros c; destruct h; [contradiction | reflexivity]).
  assert (Hhit : forall w0 : world S Vec,
             content_to_json_cache w0 !! h = Some tree ->
             split_content_with_llm (Found := Found) content' title' (Some h) w0
             = (Ok (h, tree), w0)).
  { intros w0 Hl.
    unfold split_content_with_llm, get_cached_content_json_tree.
    unfold bind at 1. unfold bind at 1. unfold lift. rewrite Hres.
    cbv beta iota. rewrite Hl. simpl.
    destruct tree; [contradiction | reflexivity]. }
  unfold split_content_with_llm, get_cached_content_json_tree in Hrun.
  unfold bind at 1 in Hrun. unfold bind at 1 in Hrun. unfold lift in Hrun.
  rewrite Hres in Hrun. cbv beta iota in Hrun.
  destruct (Py.truthy_list (default [] (content_to_json_cache w !! h))) eqn:Hc.
  - injection Hrun as <- <- <-. split; [reflexivity |].
    apply Hhit.
    destruct (content_to_json_cache w !! h) as [l |]; [reflexivity | discriminate].
  - destruct (negb (Py.truthy_str content_)); [discriminate |].
    destruct (_ >? _)%Z; [discriminate |].
    unfold bind at 1 in Hrun.
    destruct (split_retry_loop _ _ _ w) as [[raw | e] wl]; [| discriminate].
    unfold bind, lift, save_in_cache_content_json_tree, ret in Hrun.
    rewrite enrich_sections_top in Hrun. injection Hrun as <- <- <-.
    split; [reflexivity |]. apply Hhit. apply lookup_insert_eq.
Qed.

End TreeCacheFacts.

(** X6 on an example: the empty text in the scripted world. *)
Lemma split_content_with_llm_refuses_witness :
  split_content_with_llm "" None None (Scripted.start [Scripted.intro_json])
  = (Raise (ValueError "Empty content"), Scripted.start [Scripted.intro_json]).
Proof.
  destruct (split_content_with_llm_refuses "" None None (get_doc_hash "")
              (Scripted.start [Scripted.intro_json]) eq_refl eq_refl) as [Hempty _].
  exact (Hempty eq_refl).
Defined.

(** X7 on an example: a second document given the hash of the first one
    gets the tree of the first one. *)
Lemma split_content_with_llm_keyed_by_hash_witness :
  let first := split_content_with_llm "A doc." None (Some "h")
                 (Scripted.start [Scripted.intro_json]) in
  fst first = Ok ("h", [enrich_section [] 1 Scripted.intro_section])
  /\ split_content_with_llm "Another doc." (Some "T") (Some "h") (snd first)
     = first.
Proof.
  cbv zeta.
  set (first := split_content_with_llm "A doc." None (Some "h")
                  (Scripted.start [Scripted.intro_json])).
  assert (Hfirst : first
                   = (Ok ("h", [enrich_section [] 1 Scripted.intro_section]),
                      snd first))
    by (rewrite (surjective_pairing first) at 1; f_equal).
  split; [now rewrite Hfirst |].
  destruct (split_content_with_llm_keyed_by_hash "A doc." "Another doc."
              None (Some "T") "h" "h" (Scripted.start [Scripted.intro_json]) (snd first)
              [enrich_section [] 1 Scripted.intro_section])
    as [_ Hsecond]; [discriminate | exact Hfirst | discriminate |].
  rewrite Hsecond. now symmetry.
Defined.

(** ** The fragments of the sentence splitter *)

Lemma span_nl_space_app (b r : string) :
  Py.truthy_str (span_nl_space b) = true ->
  Py.truthy_str (span_nl_space (b +:+ r)) = true.
Proof.
  destruct b as [|d b']; [discriminate |].
  rewrite str_app_cons. cbn [span_nl_space].
  now destruct (is_nl_or_space d).
Qed.

Lemma rgx_sentence_limiter_match_prefix (b r : string) :
  rgx_sentence_limiter_match (b +:+ r) = None ->
  rgx_sentence_limiter_match b = None.
Proof.
  destruct b as [|c b']; [reflexivity |].
  rewrite str_app_cons. unfold rgx_sentence_limiter_match.
  destruct (is_terminator c); cbn [andb].
  - destruct (Py.truthy_str (span_nl_space b')) eqn:Hrun.
    + now rewrite (span_nl_space_app b' r Hrun).
    + destruct (Py.truthy_str (span_nl_space (b' +:+ r))); [discriminate |].
      now destruct (Ascii.eqb c nl_char).
  - now destruct (Ascii.eqb c nl_char).
Qed.

Lemma clean_before_snoc (t : string) (c : ascii) (r : string) :
  clean_before t (String c r) ->
  rgx_sentence_limiter_match (String c r) = None ->
  clean_before (t +:+ String c "") r.
Proof.
  intros Ht Hc. induction t as [|d t IH].
  - rewrite str_app_nil_l. cbn [clean_before].
    rewrite str_app_cons, str_app_nil_l. now split.
  - destruct Ht as [Hd Ht]. rewrite str_app_cons. cbn [clean_before].
    split; [| now apply IH].
    replace (String d (t +:+ String c "") +:+ r) with (String d t +:+ String c r);
      [exact Hd |].
    rewrite !str_app_cons, str_app_assoc, str_app_cons, str_app_nil_l.
    reflexivity.
Qed.

Lemma clean_before_weaken (t s : string) :
  clean_before t s -> clean_before t "".
Proof.
  induction t as [|d t IH]; [trivial |].
  intros [Hd Ht]. split; [| now apply IH].
  rewrite str_app_nil_r. exact (rgx_sentence_limiter_match_prefix _ _ Hd).
Qed.

(** *** Whitespace at the ends of a text *)

(** A byte below 194 starts no whitespace character of two or three bytes. *)
Lemma isspace2_low (c c2 : ascii) :
  nat_of_ascii c < 194 -> Py.isspace2 c c2 = false.
Proof.
  intros H. unfold Py.isspace2.
  destruct (Nat.eqb_spec (nat_of_ascii c) 194); [lia | reflexivity].
Qed.

Lemma isspace3_low (c c2 c3 : ascii) :
  nat_of_ascii c < 194 -> Py.isspace3 c c2 c3 = false.
Proof.
  intros H. unfold Py.isspace3.
  destruct (Nat.eqb_spec (nat_of_ascii c) 225); [lia |].
  destruct (Nat.eqb_spec (nat_of_ascii c) 226); [lia |].
  destruct (Nat.eqb_spec (nat_of_ascii c) 227); [lia | reflexivity].
Qed.

Lemma lstrip_suffix (s : string) : exists a, s = a +:+ Py.lstrip s.
Proof.
  assert (H : forall n s, String.length s <= n -> exists a, s = a +:+ Py.lstrip s).
  { clear s. induction n as [|n IH]; intros s Hn.
    - destruct s; [now exists "" | simpl in Hn; lia].
    - destruct s as [|c1 r1]; [now exists "" |].
      cbn [Py.lstrip]. destruct (Py.isspace c1).
      { destruct (IH r1 ltac:(simpl in Hn; lia)) as [a Ha].
        exists (String c1 a). now rewrite str_app_cons, <- Ha. }
      destruct r1 as [|c2 r2]; [now exists "" |].
      destruct (Py.isspace2 c1 c2).
      { destruct (IH r2 ltac:(simpl in Hn; lia)) as [a Ha].
        exists (String c1 (String c2 a)). now rewrite !str_app_cons, <- Ha. }
      destruct r2 as [|c3 r3]; [now exists "" |].
      destruct (Py.isspace3 c1 c2 c3); [| now exists ""].
      destruct (IH r3 ltac:(simpl in Hn; lia)) as [a Ha].
      exists (String c1 (String c2 (String c3 a))).
      now rewrite !str_app_cons, <- Ha. }
  exact (H (String.length s) s (le_n _)).
Qed.

Lemma lstrip_starts (s : string) : starts_with_space (Py.lstrip s) = false.
Proof.
  assert (H : forall n s, String.length s <= n ->
                          starts_with_space (Py.lstrip s) = false).
  { clear s. induction n as [|n IH]; intros s Hn.
    - destruct s; [reflexivity | simpl in Hn; lia].
    - destruct s as [|c1 r1]; [reflexivity |].
      cbn [Py.lstrip]. destruct (Py.isspace c1) eqn:H1.
      { apply IH. simpl in Hn. lia. }
      destruct r1 as [|c2 r2]; [cbn [starts_with_space]; now rewrite H1 |].
      destruct (Py.isspace2 c1 c2) eqn:H2.
      { apply IH. simpl in Hn. lia. }
      destruct r2 as [|c3 r3]; [cbn [starts_with_space]; now rewrite H1, H2 |].
      destruct (Py.isspace3 c1 c2 c3) eqn:H3.
      { apply IH. simpl in Hn. lia. }
      cbn [starts_with_space]. now rewrite H1, H2, H3. }
  exact (H (String.length s) s (le_n _)).
Qed.

Lemma lstrip_no_space (s : string) :
  starts_with_space s = false -> Py.lstrip s = s.
Proof.
  destruct s as [|c1 r1]; [reflexivity |].
  cbn [starts_with_space Py.lstrip]. intros H.
  apply orb_false_iff in H as [H1 H]. rewrite H1.
  destruct r1 as [|c2 r2]; [reflexivity |].
  apply orb_false_iff in H as [H2 H]. rewrite H2.
  destruct r2 as [|c3 r3]; [reflexivity |]. now rewrite H.
Qed.

Lemma starts_with_space_app (p v : string) :
  starts_with_space p = true -> starts_with_space (p +:+ v) = true.
Proof.
  destruct p as [|c1 r1]; [discriminate |].
  rewrite str_app_cons. cbn [starts_with_space].
  destruct (Py.isspace c1); [reflexivity |]. cbn [orb].
  destruct r1 as [|c2 r2]; [discriminate |].
  rewrite str_app_cons. destruct (Py.isspace2 c1 c2); [reflexivity |]. cbn [orb].
  destruct r2 as [|c3 r3]; [discriminate |].
  now rewrite str_app_cons.
Qed.

Lemma rstrip_prefix (u : string) : exists v, u = Py.rstrip u +:+ v.
Proof.
  induction u as [|c r [v IH]]; [now exists "" |].
  cbn [Py.rstrip]. destruct (Py.is_space_str (String c (Py.rstrip r))).
  - exists (String c r). now rewrite str_app_nil_l.
  - exists v. now rewrite str_app_cons, <- IH.
Qed.

Lemma rstrip_idempotent (s : string) : Py.rstrip (Py.rstrip s) = Py.rstrip s.
Proof.
  induction s as [|c r IH]; [reflexivity |].
  cbn [Py.rstrip].
  destruct (Py.is_space_str (String c (Py.rstrip r))) eqn:Hc; [reflexivity |].
  cbn [Py.rstrip]. now rewrite IH, Hc.
Qed.

Lemma strip_idempotent (s : string) : Py.strip (Py.strip s) = Py.strip s.
Proof.
  unfold Py.strip.
  destruct (rstrip_prefix (Py.lstrip s)) as [v Hv].
  assert (Hl : Py.lstrip (Py.rstrip (Py.lstrip s)) = Py.rstrip (Py.lstrip s)).
  { apply lstrip_no_space.
    destruct (starts_with_space (Py.rstrip (Py.lstrip s))) eqn:E; [| reflexivity].
    apply (starts_with_space_app _ v) in E.
    rewrite <- Hv, lstrip_starts in E. discriminate. }
  rewrite Hl. apply rstrip_idempotent.
Qed.

Lemma clean_before_suffix (a b s : string) :
  clean_before (a +:+ b) s -> clean_before b s.
Proof.
  induction a as [|c a IH]; [now rewrite str_app_nil_l |].
  rewrite str_app_cons. intros [_ H]. now apply IH.
Qed.

Lemma clean_before_lstrip (t : string) :
  clean_before t "" -> clean_before (Py.lstrip t) "".
Proof.
  destruct (lstrip_suffix t) as [a Ha]. intros Ht. rewrite Ha in Ht.
  exact (clean_before_suffix _ _ _ Ht).
Qed.

Lemma clean_strip (t : string) :
  clean_before t "" -> rgx_sentence_limiter_match (Py.strip t) = None.
Proof.
  intros Ht. apply clean_before_lstrip in Ht. unfold Py.strip.
  destruct (rstrip_prefix (Py.lstrip t)) as [v Hv].
  destruct (Py.lstrip t) as [|d u] eqn:Hl; [reflexivity |].
  destruct Ht as [Hd _]. rewrite str_app_nil_r, Hv in Hd.
  exact (rgx_sentence_limiter_match_prefix _ _ Hd).
Qed.

Lemma is_nl_or_space_isspace (d : ascii) :
  is_nl_or_space d = true -> Py.isspace d = true.
Proof.
  unfold is_nl_or_space. intros H. apply orb_true_iff in H.
  destruct H as [H | H]; apply Ascii.eqb_eq in H; now subst d.
Qed.

Lemma strip_span_nl_space (r : string) :
  Py.lstrip (span_nl_space r) = "" /\ Py.rstrip (span_nl_space r) = "".
Proof.
  induction r as [|d r [IHl IHr]]; [now split |].
  cbn [span_nl_space]. destruct (is_nl_or_space d) eqn:Hd; [| now split].
  apply is_nl_or_space_isspace in Hd.
  cbn [Py.lstrip Py.rstrip]. rewrite Hd, IHl, IHr.
  cbn [Py.is_space_str]. now rewrite Hd.
Qed.

(** A punctuation mark followed by whitespace is stripped to the mark. *)
Lemma strip_mark (c : ascii) (run : string) :
  c = "."%char \/ c = "?"%char \/ c = "!"%char ->
  Py.lstrip run = "" -> Py.rstrip run = "" ->
  Py.strip (String c run) = String c "".
Proof.
  intros Hc Hl Hr. unfold Py.strip.
  assert (Hkeep : Py.lstrip (String c run) = String c run).
  { apply lstrip_no_space.
    destruct Hc as [-> | [-> | ->]]; destruct run as [|c2 [|c3 r3]]; reflexivity. }
  rewrite Hkeep. cbn [Py.rstrip]. rewrite Hr. cbn [Py.is_space_str].
  now destruct Hc as [-> | [-> | ->]].
Qed.

Lemma separator_strip (s sep : string) :
  rgx_sentence_limiter_match s = Some sep ->
  rgx_sentence_limiter_match (Py.strip sep) = None.
Proof.
  destruct s as [|c r]; [discriminate |].
  unfold rgx_sentence_limiter_match.
  destruct (strip_span_nl_space r) as [Hl Hr].
  destruct (Ascii.eqb_spec c nl_char) as [-> | Hnl].
  - assert (Hstrip : forall run, Py.lstrip run = "" ->
                                 Py.strip (String nl_char run) = "").
    { intros run H. unfold Py.strip.
      change (Py.lstrip (String nl_char run)) with (Py.lstrip run).
      now rewrite H. }
    destruct (is_terminator nl_char && Py.truthy_str (span_nl_space r));
      intros [= <-]; now rewrite Hstrip.
  - destruct (is_terminator c && Py.truthy_str (span_nl_space r)) eqn:Hm;
      [| discriminate].
    intros [= <-]. apply andb_true_iff in Hm as [Hc _].
    assert (Hmark : c = "."%char \/ c = "?"%char \/ c = "!"%char).
    { unfold is_terminator in Hc.
      apply orb_true_iff in Hc as [Hc | Hc];
        [| apply Ascii.eqb_eq in Hc; contradiction].
      apply orb_true_iff in Hc as [Hc | Hc];
        [| apply Ascii.eqb_eq in Hc; auto].
      apply orb_true_iff in Hc as [Hc | Hc]; apply Ascii.eqb_eq in Hc; auto. }
    rewrite (strip_mark c _ Hmark Hl Hr).
    cbn [span_nl_space Py.truthy_str]. rewrite andb_false_r.
    now destruct (Ascii.eqb_spec c nl_char).
Qed.

Lemma split_go_fragments (s : string) :
  forall skip cur,
    (skip = 0 -> clean_before cur s) -> (0 < skip -> cur = "") ->
    Forall (fun piece => rgx_sentence_limiter_match (Py.strip piece) = None)
           (rgx_sentence_limiter_split_go s skip cur).
Proof.
  induction s as [|c r IH]; intros skip cur Hclean Hskip.
  - cbn [rgx_sentence_limiter_split_go]. constructor; [| constructor].
    destruct skip as [|k].
    + apply clean_strip. exact (Hclean eq_refl).
    + now rewrite Hskip by lia.
  - cbn [rgx_sentence_limiter_split_go]. destruct skip as [|k].
    + specialize (Hclean eq_refl).
      destruct (rgx_sentence_limiter_match (String c r)) as [sep |] eqn:Hm.
      * constructor; [| constructor].
        -- apply clean_strip. exact (clean_before_weaken _ _ Hclean).
        -- exact (separator_strip _ _ Hm).
        -- apply IH; [intros _; exact I | reflexivity].
      * apply IH; [intros _ | lia]. now apply clean_before_snoc.
    + rewrite Hskip by lia. apply IH; [intros _; exact I | reflexivity].
Qed.

Lemma sentence_lines_fragments (markdown_content : string) :
  Forall (fun line => line <> "" /\ rgx_sentence_limiter_match line = None)
         (sentence_lines markdown_content).
Proof.
  unfold sentence_lines, rgx_sentence_limiter_split.
  pose proof (split_go_fragments markdown_content 0 ""
                (fun _ => I) (fun H => ltac:(lia))) as Hall.
  induction Hall as [|piece pieces Hp _ IH]; [constructor |].
  rewrite filter_cons.
  destruct (decide (Py.truthy_str (Py.strip piece) = true)) as [Ht | _];
    [| exact IH].
  cbn [map]. constructor; [| exact IH].
  split; [| exact Hp]. intros E. now rewrite E in Ht.
Qed.

Lemma window_sentence_spaced (parts : list string) :
  Forall (fun part => rgx_sentence_limiter_match part = None) parts ->
  window_sentence parts = String.concat "" (map (fun part => " " +:+ part) parts).
Proof.
  intros Hall. unfold window_sentence.
  assert (Hacc : forall acc,
             fold_left (fun sentence part =>
                          if rgx_sentence_limiter_match part is Some _
                          then sentence +:+ part
                          else sentence +:+ " " +:+ part) parts acc
             = acc +:+ String.concat "" (map (fun part => " " +:+ part) parts)).
  { induction Hall as [|part parts Hp _ IH]; intros acc.
    - simpl. now rewrite str_app_nil_r.
    - cbn [fold_left map]. rewrite Hp, IH, concat_empty_cons.
      now rewrite !str_app_assoc. }
  now rewrite Hacc, str_app_nil_l.
Qed.

(** X8.  No fragment [split_content_by_sentences] keeps of a text is empty,
    and none starts with a match of [rgx_sentence_limiter]: the separators
    it keeps are stripped to their punctuation mark.  So the window builder
    never takes the branch that appends a fragment without a space: every
    window is its fragments, each preceded by one space. *)
Theorem sentence_windows_spaced (markdown_content : string) (count : Z) :
  let lines := sentence_lines markdown_content in
  Forall (fun line => line <> "" /\ rgx_sentence_limiter_match line = None) lines
  /\ build_sentences_set lines count
     = map (fun k =>
              String.concat ""
                (map (fun part => " " +:+ part)
                     (Py.slice lines (Some (2 * Z.of_nat k)%Z)
                               (Some (2 * Z.of_nat k + count * 2)%Z))))
           (seq 0 (Z.to_nat ((Z.of_nat (length lines) - 2) / 2))).
Proof.
  intros lines. pose proof (sentence_lines_fragments markdown_content) as Hall.
  fold lines in Hall. split; [exact Hall |].
  rewrite build_sentences_set_map. apply map_ext. intros k.
  apply window_sentence_spaced. unfold Py.slice.
  apply Forall_take, Forall_drop.
  eapply Forall_impl; [exact Hall |]. now intros line [_ H].
Qed.

(** ** The points read in a reply of the completion service *)

Lemma all_chars_app (p : ascii -> bool) (a b : string) :
  all_chars p (a +:+ b) = all_chars p a && all_chars p b.
Proof.
  induction a as [|c a IH]; [now rewrite str_app_nil_l |].
  rewrite str_app_cons. cbn [all_chars]. now rewrite IH, andb_assoc.
Qed.

Lemma all_chars_lstrip (p : ascii -> bool) (s : string) :
  all_chars p s = true -> all_chars p (Py.lstrip s) = true.
Proof.
  destruct (lstrip_suffix s) as [a Ha]. intros H.
  rewrite Ha, all_chars_app in H. now apply andb_true_iff in H.
Qed.

Lemma all_chars_rstrip (p : ascii -> bool) (s : string) :
  all_chars p s = true -> all_chars p (Py.rstrip s) = true.
Proof.
  destruct (rstrip_prefix s) as [v Hv]. intros H.
  rewrite Hv, all_chars_app in H. now apply andb_true_iff in H.
Qed.

Lemma until_nl_not_nl (s point : string) :
  until_nl s = Some point -> all_chars not_nl point = true.
Proof.
  revert point. induction s as [|c r IH]; [discriminate |].
  intros point. cbn [until_nl].
  destruct (Ascii.eqb c nl_char) eqn:Hc; [now intros [= <-] |].
  destruct (until_nl r) as [p |]; [| discriminate].
  intros [= <-]. cbn [all_chars]. unfold not_nl at 1. rewrite Hc.
  now apply IH.
Qed.

Lemma until_nl_none (s : string) :
  all_chars not_nl s = true -> until_nl s = None.
Proof.
  induction s as [|c r IH]; [reflexivity |].
  cbn [all_chars until_nl]. unfold not_nl at 1. intros H.
  apply andb_true_iff in H as [Hc Hr]. apply negb_true_iff in Hc.
  now rewrite Hc, IH.
Qed.

Lemma until_nl_app (s t point : string) :
  until_nl s = Some point -> until_nl (s +:+ t) = Some point.
Proof.
  revert point. induction s as [|c r IH]; [discriminate |].
  intros point. rewrite str_app_cons. cbn [until_nl].
  destruct (Ascii.eqb c nl_char); [trivial |].
  destruct (until_nl r) as [p |]; [| discriminate].
  intros [= <-]. now rewrite (IH p eq_refl).
Qed.

Lemma ends_with_nl_tail (c : ascii) (r : string) :
  ends_with_nl (String c r) = true -> ends_with_nl r = true.
Proof. now destruct r. Qed.

Lemma ends_with_nl_until (s : string) :
  s <> "" -> ends_with_nl s = true -> exists point, until_nl s = Some point.
Proof.
  induction s as [|c r IH]; [contradiction |].
  intros _ He. cbn [until_nl].
  destruct (Ascii.eqb c nl_char) eqn:Hc; [now exists "" |].
  destruct r as [|d r'].
  - cbn [ends_with_nl] in He. congruence.
  - destruct (IH ltac:(discriminate) (ends_with_nl_tail _ _ He)) as [p Hp].
    rewrite Hp. now eexists.
Qed.

Lemma substring_all (s : string) : String.substring 0 (String.length s) s = s.
Proof. induction s as [|c r IH]; [reflexivity |]. simpl. now rewrite IH. Qed.

Lemma all_chars_substring (p : ascii -> bool) (s : string) :
  all_chars p s = true ->
  forall n m, all_chars p (String.substring n m s) = true.
Proof.
  induction s as [|c r IH]; intros H n m.
  - now destruct n, m.
  - cbn [all_chars] in H. apply andb_true_iff in H as [Hc Hr].
    destruct n as [|n]; destruct m as [|m]; simpl; try reflexivity.
    + now rewrite Hc, IH.
    + now apply IH.
    + now apply IH.
Qed.

Lemma findall_no_newline (t : string) :
  all_chars not_nl t = true ->
  forall skip, rgx_md_point_findall_go t skip = [].
Proof.
  induction t as [|c r IH]; intros H skip; [reflexivity |].
  pose proof H as Hr. cbn [all_chars] in Hr. apply andb_true_iff in Hr as [_ Hr].
  cbn [rgx_md_point_findall_go]. destruct skip as [|k]; [| now apply IH].
  destruct (String.prefix "- " (String c r)); [| now apply IH].
  rewrite until_nl_none by now apply all_chars_substring.
  now apply IH.
Qed.

Lemma findall_groups (s : string) :
  forall skip, Forall (fun point => all_chars not_nl point = true)
                      (rgx_md_point_findall_go s skip).
Proof.
  induction s as [|c r IH]; intros skip; [constructor |].
  cbn [rgx_md_point_findall_go]. destruct skip as [|k]; [| apply IH].
  destruct (String.prefix "- " (String c r)); [| apply IH].
  destruct (until_nl _) as [point |] eqn:Hp; [| apply IH].
  constructor; [exact (until_nl_not_nl _ _ Hp) | apply IH].
Qed.

Lemma prefix_dash_space_cons (c : ascii) (r : string) :
  String.prefix "- " (String c r)
  = Ascii.eqb c "-"%char
    && match r with String d _ => Ascii.eqb d " "%char | EmptyString => false end.
Proof.
  cbn [String.prefix].
  destruct (ascii_dec "-" c) as [<- | Hc].
  - rewrite Ascii.eqb_refl. destruct r as [|d r']; [reflexivity |].
    cbn [String.prefix andb].
    destruct (ascii_dec " " d) as [<- | Hd].
    + rewrite Ascii.eqb_refl. now destruct r'.
    + symmetry. apply Ascii.eqb_neq. congruence.
  - symmetry. apply andb_false_iff. left. apply Ascii.eqb_neq. congruence.
Qed.

Lemma findall_last_line (s t : string) :
  ends_with_nl s = true -> all_chars not_nl t = true ->
  forall skip,
    rgx_md_point_findall_go (s +:+ t) skip = rgx_md_point_findall_go s skip.
Proof.
  intros Hs Ht. induction s as [|c r IH]; intros skip.
  - rewrite str_app_nil_l. now rewrite findall_no_newline.
  - specialize (IH (ends_with_nl_tail _ _ Hs)).
    rewrite str_app_cons. cbn [rgx_md_point_findall_go].
    destruct skip as [|k]; [| apply IH].
    rewrite !prefix_dash_space_cons.
    destruct (Ascii.eqb_spec c "-"%char) as [-> | Hc]; [| apply IH].
    cbn [andb]. destruct r as [|d r'].
    { cbn [ends_with_nl] in Hs. discriminate. }
    rewrite str_app_cons.
    destruct (Ascii.eqb_spec d " "%char) as [-> | Hd]; [| apply IH].
    assert (Hr' : r' <> "") by (intros ->; discriminate).
    destruct (ends_with_nl_until r' Hr'
                (ends_with_nl_tail _ _ (ends_with_nl_tail _ _ Hs))) as [point Hp].
    assert (E1 : String.substring 2
                   (String.length (String "-" (String " " (r' +:+ t))) - 2)
                   (String "-" (String " " (r' +:+ t))) = r' +:+ t).
    { simpl. rewrite Nat.sub_0_r. apply substring_all. }
    assert (E2 : String.substring 2 (String.length (String "-" (String " " r')) - 2)
                   (String "-" (String " " r')) = r').
    { simpl. rewrite Nat.sub_0_r. apply substring_all. }
    rewrite E1, E2, (until_nl_app _ t _ Hp), Hp.
    f_equal. rewrite <- str_app_cons. apply IH.
Qed.

(** X9.  Every point [_extract_points] returns is non-empty, has no
    whitespace at either end and no newline.  A point is read only from a
    line that ends with a newline: the text after the last newline of the
    reply gives no point, so a reply without any newline gives none. *)
Theorem extract_points_lines :
  (forall content_,
      Forall (fun point => point <> "" /\ Py.strip point = point
                           /\ all_chars not_nl point = true)
             (_extract_points content_))
  /\ (forall s t,
         ends_with_nl s = true -> all_chars not_nl t = true ->
         _extract_points (s +:+ t) = _extract_points s).
Proof.
  split.
  - intros content_. unfold _extract_points, rgx_md_point_findall.
    pose proof (findall_groups content_ 0) as Hall.
    induction Hall as [|g gs Hg _ IH]; [constructor |].
    cbn [map]. rewrite filter_cons.
    destruct (decide (Py.truthy_str (Py.strip g) = true)) as [Ht | _];
      [| exact IH].
    constructor; [| exact IH].
    split; [intros E; now rewrite E in Ht |].
    split; [apply strip_idempotent |].
    unfold Py.strip. now apply all_chars_rstrip, all_chars_lstrip.
  - intros s t Hs Ht. unfold _extract_points, rgx_md_point_findall.
    now rewrite findall_last_line.
Qed.

(** ** The other branches of the answer strategy *)

Section StrategyFacts.
Context {S Vec Found : Type}.
Context {llm_service : LLMServiceInterface S}
        {embedding_service : EmbeddingServiceInterface S Vec}
        {vector_db_service : VectorDBServiceInterface S Found}
        {sql_db_service : SqlDBServiceInterface S}
        {libraries : Libraries Found}.
Variable work_title : string.

Local Abbreviation no_sentence_retrieval :=
  (fun ev : event => is_sentence_retrieval ev = false).

Lemma emits_vdb_matchs (P : event -> Prop) header_ alternates top_k :
  (P (GetPossibleMatchs header_ alternates top_k)) ->
  emits P (vdb_get_possible_matchs_from_header (Vec := Vec) (Found := Found)
             work_title header_ alternates top_k).
Proof.
  intros HP w. unfold vdb_get_possible_matchs_from_header.
  destruct (get_possible_matchs_from_header _ _ _ _ _) as [r s].
  eexists [_]. simpl. split; [reflexivity |]. now repeat constructor.
Qed.

Lemma emits_sql_get_content (P : event -> Prop) doc_id :
  (P (SqlGetContent doc_id)) ->
  emits P (sql_get_content_from_id (Vec := Vec) work_title doc_id).
Proof.
  intros HP w. unfold sql_get_content_from_id.
  destruct (get_content_from_id _ _ _) as [r s].
  eexists [_]. simpl. split; [reflexivity |]. now repeat constructor.
Qed.

Local Ltac emits_step :=
  first
    [ apply emits_ret | apply emits_raise | apply emits_lift | apply emits_index
    | now apply emits_llm | now apply emits_vdb_matchs
    | now apply emits_sql_get_content
    | apply emits_bind | intro
    | match goal with |- context [if ?b then _ else _] => destruct b end ].

Lemma emits_process_section_matchs matchs mode top_k question :
  emits no_sentence_retrieval
        (_process_section_matchs (Vec := Vec) work_title matchs mode top_k question).
Proof.
  unfold _process_section_matchs, generate_summary_from_context_entries,
    combine_context_entries, generate_retranscript_from_context_entries,
    _get_content_from_sql_db_from_id.
  destruct mode; try destruct (truthy_question question); repeat emits_step.
Qed.

Lemma emits_section_answer_from_question question use_alternates mode known top_k :
  emits no_sentence_retrieval
        (get_section_as_answer_from_question (Vec := Vec) (Found := Found)
           work_title question use_alternates mode known top_k).
Proof.
  unfold get_section_as_answer_from_question,
    _generate_possible_headers_from_question, _generate_section_alternates,
    document_titles_for, _generate_documents_for_section_alternates, ask_points.
  repeat first [ apply emits_process_section_matchs | emits_step ].
Qed.

Lemma emits_classify_no_sentence question mode number_of_sentences :
  emits no_sentence_retrieval
        (classify_question (Vec := Vec) (Found := Found)
           question mode number_of_sentences).
Proof.
  unfold classify_question, _classify_answer_for_question, dict_get.
  destruct number_of_sentences as [n |]; repeat emits_step.
  match goal with |- context [match ?d !! ?k with _ => _ end] =>
    destruct (d !! k) end; repeat emits_step.
Qed.

(** X10.  When the completion service proposes no header for the question
    (no point is read in its reply), [get_section_as_answer_from_question]
    raises IndexError right after that call: it asks for no alternates and
    does not query the vector store. *)
Theorem section_answer_from_question_no_header (question : string)
    (use_alternates : bool) (mode : SectionAnswerMode)
    (known_document_titles : option (list string)) (top_k : Z)
    (w w1 : world S Vec) :
  _generate_possible_headers_from_question question w = (Ok [], w1) ->
  get_section_as_answer_from_question (Found := Found) work_title question
    use_alternates mode known_document_titles top_k w
  = (Raise IndexError, w1).
Proof.
  intros Hgen. unfold get_section_as_answer_from_question.
  unfold bind at 1. rewrite Hgen. now destruct use_alternates.
Qed.

(** X11.  A question classified TOO_MANY goes straight to section retrieval
    with alternates: the sentence index is never queried.  The mode is the
    caller's when there is one, else TOP_K_RAW when [return_raw] is set, else
    TOP_K_RESTRANSCRIPT when the classifier's kind is SUMMARY, else
    TOP_K_COMBINE; when the caller gives [number_of_sentences] and no mode,
    no kind is computed and TOP_K_RESTRANSCRIPT is never chosen. *)
Theorem get_answer_too_many (question : string) (top_k : Z) (return_raw : bool)
    (mode : option SectionAnswerMode) (number_of_sentences : option string)
    (w w1 : world S Vec) (kind : option string) :
  classify_question (Found := Found) question mode number_of_sentences w
  = (Ok ("TOO_MANY", kind), w1) ->
  get_answer work_title question top_k return_raw mode number_of_sentences w
  = get_section_as_answer_from_question (Found := Found) work_title question true
      (too_many_mode mode return_raw kind) None top_k w1
  /\ (is_Some number_of_sentences -> mode = None ->
      too_many_mode mode return_raw kind
      = if return_raw then TOP_K_RAW else TOP_K_COMBINE)
  /\ exists evs,
      trace (snd (get_answer work_title question top_k return_raw mode
                             number_of_sentences w))
      = trace w ++ evs
      /\ Forall (fun ev => is_sentence_retrieval ev = false) evs.
Proof.
  intros Hc.
  assert (Hrun : get_answer work_title question top_k return_raw mode
                            number_of_sentences w
                 = get_section_as_answer_from_question (Found := Found)
                     work_title question true
                     (too_many_mode mode return_raw kind) None top_k w1).
  { unfold get_answer. unfold bind at 1. rewrite Hc. reflexivity. }
  split; [exact Hrun |]. split.
  - intros [n Hn] ->. subst number_of_sentences.
    cbn in Hc. injection Hc as _ <- _. reflexivity.
  - rewrite Hrun.
    destruct (emits_classify_no_sentence question mode number_of_sentences w)
      as (evs1 & Ht1 & Hall1).
    rewrite Hc in Ht1. simpl in Ht1.
    destruct (emits_section_answer_from_question question true
                (too_many_mode mode return_raw kind) None top_k w1)
      as (evs2 & Ht2 & Hall2).
    exists (evs1 ++ evs2). split.
    + now rewrite Ht2, Ht1, app_assoc.
    + now apply Forall_app.
Qed.

Lemma emits_check_if_answer_is_correct question answer :
  emits (fun ev => is_header_retrieval ev = false)
        (check_if_answer_is_correct (Vec := Vec) work_title question answer).
Proof.
  unfold check_if_answer_is_correct. repeat emits_step.
Qed.

(** X12.  A question classified FEW whose direct answer passes the
    self-check is answered with that direct answer, and the whole call makes
    no query of the section-header index. *)
Theorem get_answer_few_verified (question : string) (top_k : Z)
    (return_raw : bool) (mode : option SectionAnswerMode)
    (number_of_sentences : option string) (w w1 w2 w3 : world S Vec)
    (kind : option string) (first_answer : string) :
  classify_question (Found := Found) question mode number_of_sentences w
  = (Ok ("FEW", kind), w1) ->
  get_direct_answer (Found := Found) work_title question true true w1
  = (Ok first_answer, w2) ->
  check_if_answer_is_correct work_title question first_answer w2 = (Ok true, w3) ->
  get_answer work_title question top_k return_raw mode number_of_sentences w
  = (Ok first_answer, w3)
  /\ exists evs,
      trace w3 = trace w ++ evs
      /\ Forall (fun ev => is_header_retrieval ev = false) evs.
Proof.
  intros Hc Hd Hk. split.
  - unfold get_answer. unfold bind at 1. rewrite Hc. simpl.
    unfold bind at 1. rewrite Hd. unfold bind at 1. now rewrite Hk.
  - destruct (emits_classify_question question mode number_of_sentences w)
      as (evs1 & Ht1 & Hall1).
    rewrite Hc in Ht1. simpl in Ht1.
    destruct (emits_get_direct_answer work_title question true true w1)
      as (evs2 & Ht2 & Hall2).
    rewrite Hd in Ht2. simpl in Ht2.
    destruct (emits_check_if_answer_is_correct question first_answer w2)
      as (evs3 & Ht3 & Hall3).
    rewrite Hk in Ht3. simpl in Ht3.
    exists (evs1 ++ evs2 ++ evs3). split.
    + now rewrite Ht3, Ht2, Ht1, <- !app_assoc.
    + apply Forall_app. split; [exact Hall1 |].
      apply Forall_app. now split.
Qed.

End StrategyFacts.

(** X10 on an example: the reply is one point without a newline. *)
Lemma section_answer_from_question_no_header_witness :
  fst (get_section_as_answer_from_question "work" "q?" true TOP_K_RAW None 5
         (Scripted.start ["- Header"]))
  = Raise IndexError.
Proof.
  set (gen := _generate_possible_headers_from_question (Vec := nat) "q?"
                (Scripted.start ["- Header"])).
  rewrite (section_answer_from_question_no_header (Found := string)
             "work" "q?" true TOP_K_RAW None 5
             (Scripted.start ["- Header"]) (snd gen)); [reflexivity |].
  rewrite (surjective_pairing gen) at 1. f_equal.
Defined.

(** X11 on an example: the caller says TOO_MANY and gives no mode. *)
Lemma get_answer_too_many_witness :
  get_answer "work" "q?" 5 false None (Some "TOO_MANY") (Scripted.start [])
  = get_section_as_answer_from_question "work" "q?" true TOP_K_COMBINE None 5
      (Scripted.start []).
Proof.
  destruct (get_answer_too_many "work" "q?" 5 false None (Some "TOO_MANY")
              (Scripted.start []) (Scripted.start []) None eq_refl)
    as (Hrun & _ & _).
  exact Hrun.
Defined.

(** X12 on an example: the self-check answers YES. *)
Lemma get_answer_few_verified_witness :
  get_answer "work" "q?" 5 false None (Some "FEW") (Scripted.start few_script)
  = (Ok "The answer.", snd few_check_accepted).
Proof.
  destruct (get_answer_few_verified "work" "q?" 5 false None (Some "FEW")
              (Scripted.start few_script) (Scripted.start few_script)
              (snd few_direct_accepted) (snd few_check_accepted)
              None "The answer." eq_refl) as [Hrun _].
  - rewrite (surjective_pairing (get_direct_answer _ _ _ _ _)). f_equal.
  - rewrite (surjective_pairing (check_if_answer_is_correct _ _ _ _)). f_equal.
  - exact Hrun.
Defined.

(** ** The document hash *)

Lemma hex_digit_shape (x : Z) :
  String.length (SHA256.hex_digit (x mod 16)) = 1
  /\ all_chars is_hex_digit (SHA256.hex_digit (x mod 16)) = true.
Proof.
  pose proof (Z.mod_pos_bound x 16 ltac:(lia)) as Hb.
  assert (H : In (x mod 16)%Z [0; 1; 2; 3; 4; 5; 6; 7; 8; 9; 10; 11; 12; 13; 14; 15]%Z).
  { set (d := (x mod 16)%Z) in *. clearbody d. simpl.
    assert (Hd : d = Z.of_nat (Z.to_nat d)) by lia.
    destruct (Z.to_nat d) as [|[|[|[|[|[|[|[|[|[|[|[|[|[|[|[|n]]]]]]]]]]]]]]]];
      simpl in Hd; lia. }
  set (d := (x mod 16)%Z) in *. clearbody d.
  repeat (destruct H as [<- | H]; [now split |]). destruct H.
Qed.

Lemma hex_word_shape (n : nat) (x : Z) :
  String.length (SHA256.hex_word n x) = n
  /\ all_chars is_hex_digit (SHA256.hex_word n x) = true.
Proof.
  revert x. induction n as [|n IH]; intros x; [now split |].
  cbn [SHA256.hex_word]. destruct (IH (Z.shiftr x 4)) as [Hl Ha].
  destruct (hex_digit_shape x) as [Hl1 Ha1].
  rewrite str_length_app, all_chars_app, Hl, Hl1, Ha, Ha1. split; [lia | reflexivity].
Qed.

Lemma round_length (st : list Z) (kw : Z * Z) :
  length (SHA256.round st kw) = length st.
Proof.
  unfold SHA256.round.
  destruct st as [|a [|b [|c [|d [|e [|f [|g [|h [|i st]]]]]]]]]; reflexivity.
Qed.

Lemma compress_length (hs block : list Z) :
  length (SHA256.compress hs block) = length hs.
Proof.
  unfold SHA256.compress. rewrite length_map, length_combine.
  assert (H : forall kws st, length (fold_left SHA256.round kws st) = length st).
  { induction kws as [|kw kws IH]; intros st; [reflexivity |].
    simpl. now rewrite IH, round_length. }
  rewrite H. lia.
Qed.

Lemma digest_length (msg : list Z) : length (SHA256.digest msg) = 8.
Proof.
  unfold SHA256.digest. generalize (SHA256.pad msg). intros p.
  generalize (length p / 64). intros n.
  assert (H : forall k hs bs, length (SHA256.blocks k hs bs) = length hs).
  { induction k as [|k IH]; intros hs bs; [reflexivity |].
    simpl. now rewrite IH, compress_length. }
  now rewrite H.
Qed.

Lemma hexdigest_shape (s : string) :
  String.length (SHA256.hexdigest s) = 64
  /\ all_chars is_hex_digit (SHA256.hexdigest s) = true.
Proof.
  unfold SHA256.hexdigest.
  pose proof (digest_length (SHA256.bytes_of_string s)) as Hl.
  destruct (SHA256.digest _) as [|a [|b [|c [|d [|e [|f [|g [|h [|i l]]]]]]]]];
    try discriminate.
  cbn [map]. rewrite !concat_empty_cons.
  rewrite !str_length_app, !all_chars_app.
  repeat match goal with
         | |- context [SHA256.hex_word 8 ?x] =>
             let Hl := fresh "Hl" in
             let Ha := fresh "Ha" in
             destruct (hex_word_shape 8 x) as [Hl Ha];
             rewrite ?Hl, ?Ha; clear Hl Ha;
             generalize (SHA256.hex_word 8 x); intro
         end.
  split; reflexivity.
Qed.

Lemma rgx_space_sub_empty_fixed (s : string) :
  all_chars (fun c => negb (is_space_char c)) s = true ->
  rgx_space_sub_empty s = s.
Proof.
  induction s as [|c r IH]; [reflexivity |].
  cbn [all_chars rgx_space_sub_empty]. unfold is_space_char at 1. intros H.
  apply andb_true_iff in H as [Hc Hr]. apply negb_true_iff in Hc.
  now rewrite Hc, IH.
Qed.

Lemma rgx_space_sub_empty_no_space (s : string) :
  all_chars (fun c => negb (is_space_char c)) (rgx_space_sub_empty s) = true.
Proof.
  induction s as [|c r IH]; [reflexivity |].
  cbn [rgx_space_sub_empty]. destruct (Ascii.eqb c space_char) eqn:Hc; [exact IH |].
  cbn [all_chars]. unfold is_space_char at 1. now rewrite Hc, IH.
Qed.

Lemma rgx_2_lines_sub_nl_chars (p : ascii -> bool) (s : string) :
  all_chars p s = true -> all_chars p (rgx_2_lines_sub_nl s) = true.
Proof.
  induction s as [|c r IH]; [trivial |].
  intros H. pose proof H as Hr. cbn [all_chars] in Hr.
  apply andb_true_iff in Hr as [Hc Hr]. specialize (IH Hr).
  rewrite rgx_2_lines_sub_nl_cons. destruct (first_char r); [| now simpl; rewrite Hc].
  destruct (_ && _); [exact IH |]. cbn [all_chars]. now rewrite Hc, IH.
Qed.

Lemma rgx_2_lines_sub_nl_first (s : string) :
  first_char (rgx_2_lines_sub_nl s) = first_char s.
Proof.
  induction s as [|c r IH]; [reflexivity |].
  rewrite rgx_2_lines_sub_nl_cons. destruct (first_char r) as [c' |] eqn:Hf;
    [| reflexivity].
  destruct (Ascii.eqb c nl_char && Ascii.eqb c' nl_char) eqn:Hcc; [| reflexivity].
  apply andb_true_iff in Hcc as [Hc Hc'].
  apply Ascii.eqb_eq in Hc, Hc'. subst c c'. now rewrite IH.
Qed.

Lemma no_blank_line_cons (c : ascii) (r : string) :
  no_blank_line (String c r)
  = match first_char r with
    | Some c' =>
        negb (Ascii.eqb c nl_char && Ascii.eqb c' nl_char) && no_blank_line r
    | None => true
    end.
Proof. now destruct r. Qed.

Lemma rgx_2_lines_sub_nl_no_blank_line (s : string) :
  no_blank_line (rgx_2_lines_sub_nl s) = true.
Proof.
  induction s as [|c r IH]; [reflexivity |].
  rewrite rgx_2_lines_sub_nl_cons. destruct (first_char r) as [c' |] eqn:Hf;
    [| reflexivity].
  destruct (Ascii.eqb c nl_char && Ascii.eqb c' nl_char) eqn:Hcc; [exact IH |].
  now rewrite no_blank_line_cons, rgx_2_lines_sub_nl_first, Hf, Hcc, IH.
Qed.

Lemma rgx_2_lines_sub_nl_fixed (s : string) :
  no_blank_line s = true -> rgx_2_lines_sub_nl s = s.
Proof.
  induction s as [|c r IH]; [reflexivity |].
  rewrite no_blank_line_cons, rgx_2_lines_sub_nl_cons.
  destruct (first_char r) as [c' |] eqn:Hf; [| destruct r; [reflexivity | discriminate]].
  intros H. apply andb_true_iff in H as [Hcc Hr]. apply negb_true_iff in Hcc.
  now rewrite Hcc, IH.
Qed.

(** X13.  The hash [get_doc_hash] computes is 64 characters long and made of
    the digits 0-9 and the letters a-f only.  The text it hashes has no
    space and no blank line, and is its own normal form: the hash of the
    normalized text is the hash of the text. *)
Theorem get_doc_hash_shape (content_ : string) :
  let normal := rgx_2_lines_sub_nl (rgx_space_sub_empty content_) in
  String.length (get_doc_hash content_) = 64
  /\ all_chars is_hex_digit (get_doc_hash content_) = true
  /\ all_chars (fun c => negb (is_space_char c)) normal = true
  /\ no_blank_line normal = true
  /\ get_doc_hash normal = get_doc_hash content_.
Proof.
  intros normal. unfold get_doc_hash.
  destruct (hexdigest_shape normal) as [Hl Ha].
  assert (Hs : all_chars (fun c => negb (is_space_char c)) normal = true)
    by apply rgx_2_lines_sub_nl_chars, rgx_space_sub_empty_no_space.
  assert (Hb : no_blank_line normal = true)
    by apply rgx_2_lines_sub_nl_no_blank_line.
  repeat split; try assumption.
  fold normal. now rewrite (rgx_space_sub_empty_fixed normal Hs),
                 (rgx_2_lines_sub_nl_fixed normal Hb).
Qed.

(** ** The vector store protocol *)

Lemma vdb_rgx_space_sub_empty_run (s : string) (in_run : bool) :
  VectorDBService.rgx_space_sub "" s in_run
  = VectorDBService.rgx_space_sub "" s false.
Proof.
  destruct s as [|c r]; [reflexivity |].
  cbn [VectorDBService.rgx_space_sub].
  destruct (Py.isspace c); [| reflexivity].
  destruct in_run; [| reflexivity]. now rewrite str_app_nil_l.
Qed.

Lemma vdb_rgx_space_sub_inserted (t t' : string) :
  inserted Py.isspace t t' ->
  VectorDBService.rgx_space_sub "" t' false
  = VectorDBService.rgx_space_sub "" t false.
Proof.
  induction 1 as [|c t t' _ IH|c t t' Hc _ IH].
  - reflexivity.
  - cbn [VectorDBService.rgx_space_sub]. destruct (Py.isspace c).
    + now rewrite !str_app_nil_l, !(vdb_rgx_space_sub_empty_run _ true), IH.
    + now rewrite IH.
  - cbn [VectorDBService.rgx_space_sub]. rewrite Hc, str_app_nil_l.
    now rewrite vdb_rgx_space_sub_empty_run.
Qed.

Lemma vdb_rgx_space_sub_no_space (repl s : string) (in_run : bool) :
  all_chars not_space repl = true ->
  all_chars not_space (VectorDBService.rgx_space_sub repl s in_run) = true.
Proof.
  intros Hrepl. revert in_run. induction s as [|c r IH]; intros in_run;
    [reflexivity |].
  cbn [VectorDBService.rgx_space_sub]. destruct (Py.isspace c) eqn:Hc.
  - destruct in_run; [apply IH |]. now rewrite all_chars_app, Hrepl, IH.
  - cbn [all_chars]. unfold not_space at 1. now rewrite Hc, IH.
Qed.

Lemma not_space_no_blank_line (s : string) :
  all_chars not_space s = true -> no_blank_line s = true.
Proof.
  induction s as [|c r IH]; [reflexivity |].
  cbn [all_chars]. intros H. apply andb_true_iff in H as [Hc Hr].
  rewrite no_blank_line_cons. destruct (first_char r); [| reflexivity].
  rewrite (IH Hr), andb_true_r. apply negb_true_iff, andb_false_iff. left.
  apply Ascii.eqb_neq. intros ->. discriminate.
Qed.



Lemma ascii_no_space (s : string) :
  all_chars (fun c => not_space c && (nat_of_ascii c <? 128)) s = true ->
  has_space s = false.
Proof.
  induction s as [|c r IH]; [reflexivity |].
  cbn [all_chars]. intros H.
  apply andb_prop in H as [Hc Hr]. apply andb_prop in Hc as [Hs Hlow].
  apply negb_true_iff in Hs. apply Nat.ltb_lt in Hlow.
  cbn [has_space starts_with_space]. rewrite Hs, (IH Hr).
  destruct r as [|c2 [|c3 r]]; [reflexivity | |];
    now rewrite ?isspace2_low, ?isspace3_low by lia.
Qed.

Lemma vdb_rgx_space_sub_ascii (s : string) (in_run : bool) :
  isascii s = true ->
  all_chars (fun c => not_space c && (nat_of_ascii c <? 128))
            (VectorDBService.rgx_space_sub "_" s in_run) = true.
Proof.
  unfold isascii. revert in_run.
  induction s as [|c r IH]; intros in_run H; [reflexivity |].
  cbn [all_chars] in H. apply andb_prop in H as [Hc Hr].
  cbn [VectorDBService.rgx_space_sub]. destruct (Py.isspace c) eqn:Hs.
  - destruct in_run; [now apply IH |].
    rewrite all_chars_app, (IH true Hr). reflexivity.
  - cbn [all_chars]. unfold not_space at 1. now rewrite Hs, Hc, (IH false Hr).
Qed.



(** ** Ingestion *)

Section IngestionFacts.
Context {S Vec Found : Type}.
Context {llm_service : LLMServiceInterface S}
        {embedding_service : EmbeddingServiceInterface S Vec}
        {sql_db_service : SqlDBServiceInterface S}
        {vector_db_ingestion : VectorDBIngestionInterface S Vec}
        {libraries : Libraries Found}.
Variable work_title : string.
Variable add_hierarchized_titles : bool.

Lemma split_content_with_llm_hash (content_ : string)
    (title doc_hash : option string) (w w1 : world S Vec)
    (h : string) (tree : list SectionNode) :
  split_content_with_llm (Found := Found) content_ title doc_hash w
  = (Ok (h, tree), w1) ->
  resolve_hash (Some content_) doc_hash = Ok h.
Proof.
  intros Hrun.
  unfold split_content_with_llm, get_cached_content_json_tree in Hrun.
  unfold bind at 1 in Hrun. unfold bind at 1 in Hrun. unfold lift in Hrun.
  destruct (resolve_hash (Some content_) doc_hash) as [hash | e];
    [| discriminate].
  cbv beta iota in Hrun.
  destruct (Py.truthy_list (default [] (content_to_json_cache w !! hash))).
  - now injection Hrun as <- _ _.
  - destruct (negb (Py.truthy_str content_)); [discriminate |].
    destruct (_ >? _)%Z; [discriminate |].
    unfold bind at 1 in Hrun.
    destruct (split_retry_loop _ _ _ w) as [[raw | e] wl]; [| discriminate].
    unfold bind, lift, save_in_cache_content_json_tree, ret in Hrun.
    rewrite enrich_sections_top in Hrun. now injection Hrun as <- _ _.
Qed.

Lemma emits_try_except {A} (P : event -> Prop) (body : M S Vec A)
    (handler : string -> M S Vec A) :
  emits P body -> (forall e, emits P (handler e)) ->
  emits P (try_except_JSONDecodeError body handler).
Proof.
  intros Hb Hh w. unfold try_except_JSONDecodeError.
  destruct (Hb w) as (evs & Ht & Hall).
  destruct (body w) as [[a | e] w'] eqn:E; simpl in *; [now exists evs |].
  destruct e; try (now exists evs).
  destruct (Hh msg w') as (evs' & Ht' & Hall').
  exists (evs ++ evs'). split.
  - now rewrite Ht', Ht, app_assoc.
  - now apply Forall_app.
Qed.

Lemma emits_split_content_with_llm (content_ : string)
    (title doc_hash : option string) :
  emits (fun _ => True)
        (split_content_with_llm (Vec := Vec) (Found := Found)
           content_ title doc_hash).
Proof.
  assert (Hloop : forall tries prompt errors,
             emits (fun _ => True)
                   (split_retry_loop (Vec := Vec) (Found := Found)
                      tries prompt errors)).
  { induction tries as [|k IH]; intros prompt errors; [apply emits_raise |].
    cbn [split_retry_loop]. apply emits_try_except; [| intros e; apply IH].
    apply emits_bind; [now apply emits_llm | intros r; apply emits_lift]. }
  unfold split_content_with_llm, get_cached_content_json_tree.
  apply emits_bind.
  - apply emits_bind; [apply emits_lift |].
    intros hash w. exists []. simpl. now rewrite app_nil_r.
  - intros [hash res].
    destruct (Py.truthy_list (default [] res)); [apply emits_ret |].
    destruct (negb (Py.truthy_str content_)); [apply emits_raise |].
    destruct (_ >? _)%Z; [apply emits_raise |].
    apply emits_bind; [apply Hloop |]. intros resp.
    apply emits_bind; [apply emits_lift |]. intros resp'.
    apply emits_bind; [| intros; apply emits_ret].
    intros w. exists []. simpl. now rewrite app_nil_r.
Qed.

Lemma linearize_sections_nil (flag : bool) (forest : list SectionNode) :
  _linearize_sections flag forest = [] <-> forest = [].
Proof.
  split; [| now intros ->].
  destruct forest as [|x r]; [reflexivity |].
  unfold _linearize_sections. cbn [map concat].
  rewrite linearize_section_rows. discriminate.
Qed.

Lemma linearize_rows_nodes (flag : bool) (forest : list SectionNode) :
  Forall (fun row =>
            exists node,
              In node (all_nodes forest)
              /\ sql_doc_id row = sql_doc_id node
              /\ parents row = parents node /\ level row = level node
              /\ (header row = header node
                  \/ exists k,
                      header row
                      = hierarchized_title (default [] (parents node))
                                           (header node) (Datatypes.S k)))
         (_linearize_sections flag forest).
Proof.
  assert (Hnode : forall node,
             Forall (fun row =>
                       exists n,
                         In n (node :: descendants node)
                         /\ sql_doc_id row = sql_doc_id n
                         /\ parents row = parents n /\ level row = level n
                         /\ (header row = header n
                             \/ exists k,
                                 header row
                                 = hierarchized_title (default [] (parents n))
                                                      (header n) (Datatypes.S k)))
                    (linearize_section flag node)).
  { induction node as [h c subs p l i IHs] using SectionNode_nested_ind.
    rewrite linearize_section_rows. set (node := mkSection h c subs p l i).
    apply Forall_cons. split.
    { exists node. split; [now left |]. repeat split. now left. }
    apply Forall_app. split.
    - destruct flag; [| constructor]. apply Forall_map, Forall_forall.
      intros k _. exists node. split; [now left |]. repeat split.
      right. now exists k.
    - assert (Hsubs : Forall (fun row =>
                         exists n,
                           In n (all_nodes subs)
                           /\ sql_doc_id row = sql_doc_id n
                           /\ parents row = parents n /\ level row = level n
                           /\ (header row = header n
                               \/ exists k,
                                   header row
                                   = hierarchized_title (default [] (parents n))
                                                        (header n) (Datatypes.S k)))
                        (_linearize_sections flag subs)).
      { unfold _linearize_sections, all_nodes. clear node.
        induction subs as [|x subs IHl]; [constructor |].
        apply Forall_cons in IHs as [Hx IHs]. cbn [map concat].
        apply Forall_app. split.
        - eapply Forall_impl; [exact Hx |].
          intros row (n & Hin & Hrest). exists n. split; [| exact Hrest].
          apply in_or_app. now left.
        - eapply Forall_impl; [exact (IHl IHs) |].
          intros row (n & Hin & Hrest). exists n. split; [| exact Hrest].
          apply in_or_app. now right. }
      eapply Forall_impl; [exact Hsubs |].
      intros row (n & Hin & Hrest). exists n. split; [| exact Hrest].
      right. rewrite (descendants_eq node). exact Hin. }
  unfold _linearize_sections, all_nodes.
  induction forest as [|x forest IH]; [constructor |].
  cbn [map concat]. apply Forall_app. split.
  - eapply Forall_impl; [apply Hnode |].
    intros row (n & Hin & Hrest). exists n. split; [| exact Hrest].
    apply in_or_app. now left.
  - eapply Forall_impl; [exact IH |].
    intros row (n & Hin & Hrest). exists n. split; [| exact Hrest].
    apply in_or_app. now right.
Qed.

(** X16.  Once the collection exists and the splitter has returned the
    hash [h] and the tree [tree], a call of [save_text_as_titles_in_vdb] that
    returns has stored the tree in the metadata store, node after node in
    document order, under [h], before anything is written in the collection
    of headers.  For an empty tree nothing is inserted and the result is
    None.  Otherwise the result is [h] and one insertion is made: its rows
    are the linearization, without contents and subsections, of the tree
    with the identifiers the metadata store returned, so every row has the
    identifier, the parents and the level of a section of the tree, and its
    header or a hierarchized title of it. *)
Theorem save_text_as_titles_in_vdb_rows (markdown_content source_title : string)
    (source_author source_url source_type doc_hash : option string)
    (st st' : ingestion S Vec) (v : option string)
    (s0 : S) (h : string) (tree : list SectionNode) (w1 : world S Vec) :
  create_collection_for_section_headers work_title (svc (queries st))
  = (Ok tt, s0) ->
  split_content_with_llm (Found := Found) markdown_content None doc_hash
    (with_svc (queries st) s0)
  = (Ok (h, tree), w1) ->
  save_text_as_titles_in_vdb (Found := Found) work_title add_hierarchized_titles
    markdown_content source_title source_author source_url source_type doc_hash st
  = (Ok v, st') ->
  exists ids s2 saved,
    sql_calls work_title h (all_nodes tree) (svc w1) = (ids, None, s2)
    /\ map forget_id saved = map forget_id tree
    /\ map sql_doc_id (all_nodes saved) = map Some ids
    /\ trace (queries st') = trace w1 ++ sql_add_events h (all_nodes tree)
    /\ let rows := _remove_subsections_in_sections
                     (_linearize_sections add_hierarchized_titles saved) in
       Forall (fun row =>
                 exists node,
                   In node (all_nodes saved)
                   /\ row_sql_doc_id row = sql_doc_id node
                   /\ row_parents row = parents node
                   /\ row_level row = level node
                   /\ (row_header row = header node
                       \/ exists k,
                           row_header row
                           = hierarchized_title (default [] (parents node))
                                                (header node) (Datatypes.S k)))
              rows
       /\ (tree = [] ->
           v = None
           /\ writes st' = writes st ++ [CreateCollectionForSectionHeaders work_title])
       /\ (tree <> [] ->
           v = Some h
           /\ writes st'
              = writes st
                ++ [CreateCollectionForSectionHeaders work_title;
                    InsertSectionHeaders rows source_title
                      source_author source_url source_type]).
Proof.
  intros Hcreate Hsplit Hrun. unfold save_text_as_titles_in_vdb in Hrun.
  unfold bindI at 1 in Hrun. unfold vdb_write at 1 in Hrun.
  rewrite Hcreate in Hrun.
  unfold bindI at 1 in Hrun. unfold query at 1 in Hrun.
  cbn [queries writes] in Hrun.
  change (mkWorld s0 _ _ _ _) with (with_svc (queries st) s0) in Hrun.
  rewrite Hsplit in Hrun.
  unfold bindI at 1 in Hrun. unfold query at 1 in Hrun.
  cbn [queries writes] in Hrun.
  destruct (_save_sections_in_sql_db work_title h tree w1)
    as [[saved | e] w2] eqn:Hsave; [| discriminate].
  destruct (sql_calls work_title h (all_nodes tree) (svc w1)) as [[ids err] s2]
    eqn:Hcalls.
  destruct (save_list_calls work_title h tree
              ltac:(apply List.Forall_forall; intros node _;
                    apply save_section_calls) _ _ _ Hsave _ _ _ Hcalls)
    as (_ & _ & Ht2 & Hm).
  destruct err as [e |]; [now destruct Hm |].
  destruct Hm as (Hl & saved' & [= <-] & Hf & Hi).
  unfold calls_made in Ht2. rewrite Nat.add_0_r, take_ge in Ht2 by lia.
  exists ids, s2, saved.
  split; [reflexivity |]. split; [exact Hf |]. split; [exact Hi |].
  assert (Hrows : Forall (fun row =>
                 exists node,
                   In node (all_nodes saved)
                   /\ row_sql_doc_id row = sql_doc_id node
                   /\ row_parents row = parents node
                   /\ row_level row = level node
                   /\ (row_header row = header node
                       \/ exists k,
                           row_header row
                           = hierarchized_title (default [] (parents node))
                                                (header node) (Datatypes.S k)))
                    (_remove_subsections_in_sections
                       (_linearize_sections add_hierarchized_titles saved))).
  { unfold _remove_subsections_in_sections. apply Forall_map.
    exact (linearize_rows_nodes _ _). }
  assert (Hnil : saved = [] <-> tree = []).
  { apply (f_equal length) in Hf. rewrite !length_map in Hf.
    split; intros ->; [destruct tree | destruct saved]; now try discriminate. }
  destruct (_linearize_sections add_hierarchized_titles saved) as [|row rows]
    eqn:Hlin.
  - apply linearize_sections_nil in Hlin. cbn [Py.truthy_list negb] in Hrun.
    unfold retI in Hrun. injection Hrun as <- <-. cbn [queries writes].
    split; [exact Ht2 |].
    split; [exact Hrows |]. split; [now split |].
    intros Hne. exfalso. apply Hne. now apply Hnil.
  - assert (Hne : tree <> []).
    { intros E. apply Hnil in E. subst saved. discriminate. }
    cbn [Py.truthy_list negb] in Hrun.
    unfold bindI at 1 in Hrun. unfold vdb_write at 1 in Hrun.
    cbn [queries writes] in Hrun.
    destruct (insert_section_headers _ _ _ _ _ _ _) as [[[] | e] s3];
      [| discriminate].
    unfold retI in Hrun. injection Hrun as <- <-. cbn [queries writes trace].
    split; [exact Ht2 |].
    split; [exact Hrows |]. split; [intros E; contradiction |].
    intros _. split; [reflexivity |]. now rewrite <- app_assoc.
Qed.

(** The embedding service gives one vector for every document. *)
Hypothesis encode_documents_length :
  forall (documents : list string) (s s' : S) (vectors : list Vec),
    encode_documents documents s = (Ok vectors, s') ->
    length vectors = length documents.

Lemma embeddings_loop_lengths (sentences_set : list string) :
  forall (vectors : list Vec) (tmp_sentences : list string) (n : Z)
         (w w' : world S Vec) vectors' tmp' n',
    embeddings_loop (Found := Found) sentences_set vectors tmp_sentences n w
    = (Ok (vectors', tmp', n'), w') ->
    content_to_vector_cache w' = content_to_vector_cache w
    /\ length vectors' + length tmp'
       = length vectors + length tmp_sentences + length sentences_set.
Proof.
  induction sentences_set as [|x rest IH];
    intros vectors tmp_sentences n w w' vectors' tmp' n' Hrun.
  - injection Hrun as <- <- <- <-. split; [reflexivity | simpl; lia].
  - cbn [embeddings_loop] in Hrun.
    destruct (n + tokens_of x >? 250000)%Z.
    + unfold bind at 1 in Hrun. unfold embedding_encode_documents at 1 in Hrun.
      destruct (encode_documents tmp_sentences (svc w)) as [[encoded | e] s1]
        eqn:Henc; [| discriminate].
      apply encode_documents_length in Henc.
      apply IH in Hrun as [Hc Hl]. split; [exact Hc |].
      rewrite Hl, length_app, Henc. simpl. lia.
    + apply IH in Hrun as [Hc Hl]. split; [exact Hc |].
      rewrite Hl, length_app. simpl. lia.
Qed.

Lemma get_embeddings_for_sentences_aligned (doc_hash : string)
    (sentences_set : list string) (w w' : world S Vec) (vectors : list Vec) :
  content_to_vector_cache w !! doc_hash = None ->
  get_embeddings_for_sentences (Found := Found) doc_hash sentences_set w
  = (Ok vectors, w') ->
  length vectors = length sentences_set
  /\ content_to_vector_cache w' !! doc_hash = Some vectors.
Proof.
  intros Hmiss Hrun.
  unfold get_embeddings_for_sentences, get_cached_content_embeddings in Hrun.
  unfold bind at 1 in Hrun. unfold bind at 1 in Hrun. unfold lift in Hrun.
  destruct doc_hash as [|c0 rest0]; [discriminate |].
  cbn [resolve_hash Py.truthy_str] in Hrun. cbv beta iota in Hrun.
  cbn [snd] in Hrun. rewrite Hmiss in Hrun.
  unfold bind at 1 in Hrun.
  destruct (embeddings_loop sentences_set [] [] 0 w)
    as [[[[vs tmp] n] | e] wl] eqn:Hloop; [| discriminate].
  apply embeddings_loop_lengths in Hloop as [_ Hl]. simpl in Hl.
  unfold bind at 1 in Hrun.
  destruct tmp as [|t0 tmp].
  - cbn [Py.truthy_list] in Hrun.
    unfold bind, save_in_cache_content_embeddings, ret in Hrun.
    injection Hrun as <- <-. cbn [content_to_vector_cache].
    rewrite lookup_insert_eq. split; [simpl in Hl; lia | reflexivity].
  - cbn [Py.truthy_list] in Hrun. unfold bind at 1 in Hrun.
    unfold embedding_encode_documents at 1 in Hrun.
    destruct (encode_documents (t0 :: tmp) (svc wl)) as [[encoded | e] s1]
      eqn:Henc; [| discriminate].
    apply encode_documents_length in Henc.
    unfold bind, save_in_cache_content_embeddings, ret in Hrun.
    injection Hrun as <- <-. cbn [content_to_vector_cache].
    rewrite lookup_insert_eq, length_app, Henc. split; [lia | reflexivity].
Qed.

Lemma split_content_by_sentences_frame (markdown_content : string)
    (doc_hash : option string) (count : Z) (w w1 : world S Vec)
    (h : string) (sentences_set : list string) :
  split_content_by_sentences markdown_content doc_hash count w
  = (Ok (h, sentences_set), w1) ->
  resolve_hash (Some markdown_content) doc_hash = Ok h
  /\ content_to_vector_cache w1 = content_to_vector_cache w.
Proof.
  intros Hrun.
  unfold split_content_by_sentences, get_cached_content_sentences in Hrun.
  unfold bind at 1 in Hrun. unfold bind at 1 in Hrun. unfold lift in Hrun.
  destruct (resolve_hash (Some markdown_content) doc_hash) as [hash | e];
    [| discriminate].
  cbv beta iota in Hrun.
  destruct (Py.truthy_list (default [] (content_to_sentence_cache w !! hash))).
  - injection Hrun as <- _ <-. now split.
  - destruct (negb (Py.truthy_str markdown_content)); [discriminate |].
    unfold bind, save_in_cache_content_sentences, ret in Hrun.
    injection Hrun as <- _ <-. now split.
Qed.

(** X17.  With an embedding service that gives one vector for every
    document, and no vectors in the cache for the document,
    [save_text_as_set_in_vdb] returns the document hash after one insertion
    in which every sentence window has its vector: the two lists have the
    same length.  The vectors are left in the cache under the hash. *)
Theorem save_text_as_set_in_vdb_aligned (markdown_content source_title : string)
    (source_author source_url source_type doc_hash : option string) (count : Z)
    (st st' : ingestion S Vec) (v h : string) :
  resolve_hash (Some markdown_content) doc_hash = Ok h ->
  content_to_vector_cache (queries st) !! h = None ->
  save_text_as_set_in_vdb (Found := Found) work_title
    markdown_content source_title source_author source_url source_type
    doc_hash count st
  = (Ok v, st') ->
  v = h
  /\ exists sentences_set sentences_vectors,
      writes st'
      = writes st
        ++ [CreateCollectionForSentencesSet work_title;
            InsertSentencesSet sentences_set sentences_vectors source_title
              source_author source_url source_type]
      /\ length sentences_vectors = length sentences_set
      /\ content_to_vector_cache (queries st') !! h = Some sentences_vectors.
Proof.
  intros Hh Hmiss Hrun. unfold save_text_as_set_in_vdb in Hrun.
  unfold bindI at 1 in Hrun. unfold vdb_write at 1 in Hrun.
  destruct (create_collection_for_sentences_set work_title (svc (queries st)))
    as [[[] | e] s0]; [| discriminate].
  set (w0 := mkWorld s0 _ _ _ _) in Hrun.
  unfold bindI at 1 in Hrun. unfold query at 1 in Hrun.
  cbn [queries writes] in Hrun.
  destruct (split_content_by_sentences markdown_content doc_hash count w0)
    as [[[h' sentences_set] | e] w1] eqn:Hsplit; [| discriminate].
  destruct (split_content_by_sentences_frame _ _ _ _ _ _ _ Hsplit) as [Hh' Hc1].
  rewrite Hh in Hh'. injection Hh' as <-.
  unfold bindI at 1 in Hrun. unfold query at 1 in Hrun.
  cbn [queries writes] in Hrun.
  destruct (get_embeddings_for_sentences h sentences_set w1)
    as [[vectors | e] w2] eqn:Hemb; [| discriminate].
  destruct (get_embeddings_for_sentences_aligned _ _ _ _ _
              ltac:(rewrite Hc1; exact Hmiss) Hemb) as [Hl Hc2].
  unfold bindI at 1 in Hrun. unfold vdb_write at 1 in Hrun.
  cbn [queries writes] in Hrun.
  destruct (insert_sentences_set _ _ _ _ _ _ _ _) as [[[] | e] s3];
    [| discriminate].
  unfold retI in Hrun. injection Hrun as <- <-.
  split; [reflexivity |]. exists sentences_set, vectors.
  cbn [queries writes content_to_vector_cache].
  split; [now rewrite <- app_assoc |]. now split.
Qed.

(** X18.  [save_text_in_databases] ingests the sentence windows first and
    the headers next: once the first step has returned, the call ends as
    the header ingestion ends, with its result or its exception, and the
    writes of the first step stay in the vector store whatever the second
    step does. *)
Theorem save_text_in_databases_order (markdown_content source_title : string)
    (source_author source_url source_type doc_hash : option string)
    (st st1 : ingestion S Vec) (h : string) :
  save_text_as_set_in_vdb (Found := Found) work_title
    markdown_content source_title source_author source_url source_type
    doc_hash 5 st
  = (Ok h, st1) ->
  let second :=
    save_text_as_titles_in_vdb (Found := Found) work_title
      add_hierarchized_titles markdown_content source_title
      source_author source_url source_type doc_hash st1 in
  save_text_in_databases (Found := Found) work_title add_hierarchized_titles
    markdown_content source_title source_author source_url source_type
    doc_hash st
  = second
  /\ exists ws, writes (snd second) = writes st1 ++ ws.
Proof.
  intros Hset second. split.
  - unfold save_text_in_databases. unfold bindI at 1. now rewrite Hset.
  - subst second. unfold save_text_as_titles_in_vdb.
    unfold bindI at 1. unfold vdb_write at 1.
    destruct (create_collection_for_section_headers work_title (svc (queries st1)))
      as [[[] | e] s0]; [| now eexists].
    set (w0 := mkWorld s0 _ _ _ _).
    unfold bindI at 1. unfold query at 1. cbn [queries writes].
    destruct (split_content_with_llm markdown_content None doc_hash w0)
      as [[[h' tree] | e] w1]; [| now eexists].
    unfold bindI at 1. unfold query at 1. cbn [queries writes].
    destruct (_save_sections_in_sql_db work_title h' tree w1)
      as [[saved | e] w2]; [| now eexists].
    destruct (negb (Py.truthy_list _)); [now eexists |].
    unfold bindI at 1. unfold vdb_write at 1. cbn [queries writes].
    destruct (insert_section_headers _ _ _ _ _ _ _) as [[[] | e] s3];
      cbn [snd writes retI]; rewrite <- app_assoc; now eexists.
Qed.

End IngestionFacts.

(** X16 on an example: a document of one section in the scripted world;
    the row inserted has the identifier the store returned for the section. *)
Lemma save_text_as_titles_in_vdb_rows_witness :
  let run := save_text_as_titles_in_vdb "work" true "A doc." "Manual"
               None None None None (ingestion_start [Scripted.intro_json]) in
  fst run = Ok (Some (get_doc_hash "A doc."))
  /\ writes (snd run)
     = [CreateCollectionForSectionHeaders "work";
        InsertSectionHeaders [mkRow "Intro" (Some []) (Some 1%Z) (Some "id of Intro")]
          "Manual" None None None].
Proof.
  cbv zeta.
  set (st := ingestion_start [Scripted.intro_json]).
  set (run := save_text_as_titles_in_vdb "work" true "A doc." "Manual"
                None None None None st).
  set (tree := [enrich_section [] 1 Scripted.intro_section]).
  set (split := split_content_with_llm "A doc." None None
                  (with_svc (queries st) [Scripted.intro_json])).
  assert (Hfst : fst run = Ok (Some (get_doc_hash "A doc.")))
    by (vm_compute; reflexivity).
  assert (Hsplit : split = (Ok (get_doc_hash "A doc.", tree), snd split))
    by (rewrite (surjective_pairing split) at 1; f_equal; vm_compute; reflexivity).
  assert (Hcreate : create_collection_for_section_headers "work" (svc (queries st))
                    = (Ok tt, [Scripted.intro_json]))
    by (vm_compute; reflexivity).
  split; [exact Hfst |].
  destruct (save_text_as_titles_in_vdb_rows "work" true "A doc." "Manual"
              None None None None st (snd run)
              (Some (get_doc_hash "A doc.")) [Scripted.intro_json]
              (get_doc_hash "A doc.") tree (snd split) Hcreate Hsplit)
    as (ids & s2 & saved & Hcalls & Hf & Hi & _ & _ & _ & Hcons).
  - rewrite <- Hfst. apply surjective_pairing.
  - destruct (Hcons ltac:(discriminate)) as [_ Hw]. rewrite Hw.
    vm_compute in Hcalls. injection Hcalls as <- _.
    destruct saved as [|[h c subs p l i] [|y saved]];
      [vm_compute in Hf; discriminate | | vm_compute in Hf; discriminate].
    destruct subs; [| vm_compute in Hf; discriminate].
    vm_compute in Hf. vm_compute in Hi.
    injection Hf as -> -> -> ->. injection Hi as ->.
    reflexivity.
Defined.

(** X17 on an example: seven fragments, two windows, two vectors. *)
Lemma save_text_as_set_in_vdb_aligned_witness :
  exists sentences_set sentences_vectors,
    writes (snd (save_text_as_set_in_vdb "work" "A. B. C. D." "Manual"
                   None None None None 1 (ingestion_start [])))
    = [CreateCollectionForSentencesSet "work";
       InsertSentencesSet sentences_set sentences_vectors "Manual" None None None]
    /\ length sentences_vectors = length sentences_set.
Proof.
  set (run := save_text_as_set_in_vdb "work" "A. B. C. D." "Manual"
                None None None None 1 (ingestion_start [])).
  assert (Hfst : fst run = Ok (get_doc_hash "A. B. C. D."))
    by (vm_compute; reflexivity).
  assert (Hlen : forall (documents : list string) (s s' : Scripted.state)
                         (vectors : list nat),
             encode_documents documents s = (Ok vectors, s') ->
             length vectors = length documents).
  { intros documents s s' vectors H. cbn in H. injection H as <- _.
    apply length_map. }
  destruct (save_text_as_set_in_vdb_aligned (Found := string) "work" Hlen
              "A. B. C. D." "Manual" None None None None 1
              (ingestion_start []) (snd run)
              (get_doc_hash "A. B. C. D.") (get_doc_hash "A. B. C. D."))
    as (_ & sentences_set & vectors & Hw & Hl & _).
  - reflexivity.
  - vm_compute. reflexivity.
  - rewrite <- Hfst. apply surjective_pairing.
  - exists sentences_set, vectors. now split.
Defined.

(** X18 on an example: the completion service never gives valid JSON, the
    header ingestion raises, the sentence windows stay inserted. *)
Lemma save_text_in_databases_order_witness :
  let script := ["[a]"; "[b]"; "[c]"; "[d]"; "[e]"] in
  let run := save_text_in_databases "work" true "A. B. C. D." "Manual"
               None None None None (ingestion_start script) in
  fst run = Raise (ValueError "The LLM can't return valid JSON after 5 tries.")
  /\ exists sentences_set sentences_vectors ws,
      writes (snd run)
      = [CreateCollectionForSentencesSet "work";
         InsertSentencesSet sentences_set sentences_vectors "Manual" None None None]
        ++ ws.
Proof.
  cbv zeta.
  set (script := ["[a]"; "[b]"; "[c]"; "[d]"; "[e]"]).
  set (first := save_text_as_set_in_vdb (Found := string) "work" "A. B. C. D."
                  "Manual" None None None None 5 (ingestion_start script)).
  assert (Hfirst : first = (Ok (get_doc_hash "A. B. C. D."), snd first))
    by (rewrite (surjective_pairing first) at 1; f_equal; vm_compute; reflexivity).
  destruct (save_text_in_databases_order "work" true "A. B. C. D." "Manual"
              None None None None (ingestion_start script) (snd first) _ Hfirst)
    as [Hrun [ws Hws]].
  assert (Hw1 : exists sentences_set sentences_vectors,
             writes (snd first)
             = [CreateCollectionForSentencesSet "work";
                InsertSentencesSet sentences_set sentences_vectors
                  "Manual" None None None])
    by (vm_compute; eexists _, _; reflexivity).
  destruct Hw1 as (sentences_set & sentences_vectors & Hw1).
  rewrite Hrun. split; [vm_compute; reflexivity |].
  exists sentences_set, sentences_vectors, ws. now rewrite Hws, Hw1.
Defined.

(** ** Failures *)

Section FailureFacts.
Context {S Vec Found : Type}.
Context {llm_service : LLMServiceInterface S}
        {embedding_service : EmbeddingServiceInterface S Vec}
        {vector_db_service : VectorDBServiceInterface S Found}
        {sql_db_service : SqlDBServiceInterface S}
        {libraries : Libraries Found}.
Variable work_title : string.

Lemma same_caches_refl (w : world S Vec) : same_caches w w.
Proof. now repeat split. Qed.

Lemma same_caches_trans (w w1 w2 : world S Vec) :
  same_caches w w1 -> same_caches w1 w2 -> same_caches w w2.
Proof.
  intros (H1 & H2 & H3) (H4 & H5 & H6). repeat split; congruence.
Qed.

Lemma keeps_caches_ret {A} (a : A) : keeps_caches (ret (S := S) (Vec := Vec) a).
Proof. intros w. apply same_caches_refl. Qed.

Lemma keeps_caches_raise {A} (e : exn) :
  keeps_caches (raise (S := S) (Vec := Vec) (A := A) e).
Proof. intros w. apply same_caches_refl. Qed.

Lemma keeps_caches_lift {A} (r : result A) :
  keeps_caches (lift (S := S) (Vec := Vec) r).
Proof. intros w. apply same_caches_refl. Qed.

Lemma keeps_caches_bind {A B} (m : M S Vec A) (k : A -> M S Vec B) :
  keeps_caches m -> (forall a, keeps_caches (k a)) -> keeps_caches (bind m k).
Proof.
  intros Hm Hk w. unfold bind. specialize (Hm w).
  destruct (m w) as [[a | e] w1]; [| exact Hm].
  exact (same_caches_trans _ _ _ Hm (Hk a w1)).
Qed.

Lemma keeps_caches_try_except {A} (body : M S Vec A)
    (handler : string -> M S Vec A) :
  keeps_caches body -> (forall e, keeps_caches (handler e)) ->
  keeps_caches (try_except_JSONDecodeError body handler).
Proof.
  intros Hb Hh w. unfold try_except_JSONDecodeError. specialize (Hb w).
  destruct (body w) as [[a | e] w1]; [exact Hb |].
  destruct e; try exact Hb.
  exact (same_caches_trans _ _ _ Hb (Hh msg w1)).
Qed.

Lemma keeps_caches_llm (messages : list Message) :
  keeps_caches (llm_complete_messages (Vec := Vec) messages).
Proof.
  intros w. unfold llm_complete_messages.
  destruct (complete_messages messages (svc w)). now repeat split.
Qed.

Lemma keeps_caches_encode (documents : list string) :
  keeps_caches (embedding_encode_documents (Vec := Vec) documents).
Proof.
  intros w. unfold embedding_encode_documents.
  destruct (encode_documents documents (svc w)). now repeat split.
Qed.

Lemma keeps_caches_split_retry_loop (tries : nat) :
  forall prompt errors,
    keeps_caches (split_retry_loop (Vec := Vec) (Found := Found)
                    tries prompt errors).
Proof.
  induction tries as [|k IH]; intros prompt errors; [apply keeps_caches_raise |].
  cbn [split_retry_loop]. apply keeps_caches_try_except; [| intros e; apply IH].
  apply keeps_caches_bind; [apply keeps_caches_llm |].
  intros r. apply keeps_caches_lift.
Qed.

Lemma keeps_caches_embeddings_loop (sentences_set : list string) :
  forall vectors tmp_sentences n,
    keeps_caches (embeddings_loop (Vec := Vec) (Found := Found)
                    sentences_set vectors tmp_sentences n).
Proof.
  induction sentences_set as [|x rest IH]; intros vectors tmp_sentences n;
    [apply keeps_caches_ret |].
  cbn [embeddings_loop]. destruct (_ >? _)%Z; [| apply IH].
  apply keeps_caches_bind; [apply keeps_caches_encode |].
  intros encoded. apply IH.
Qed.

(** X19.  A call that raises writes nothing in the cache directories: when
    [split_content_with_llm], [split_content_by_sentences] or
    [get_embeddings_for_sentences] ends with an exception, the three caches
    are as they were before the call; no partial result is kept. *)
Theorem failed_runs_keep_caches (e : exn) (w w' : world S Vec) :
  (forall content_ title doc_hash,
      split_content_with_llm (Found := Found) content_ title doc_hash w
      = (Raise e, w') ->
      same_caches w w')
  /\ (forall markdown_content doc_hash count,
         split_content_by_sentences markdown_content doc_hash count w
         = (Raise e, w') ->
         w' = w)
  /\ (forall doc_hash sentences_set,
         get_embeddings_for_sentences (Found := Found) doc_hash sentences_set w
         = (Raise e, w') ->
         same_caches w w').
Proof.
  split; [| split].
  - intros content_ title doc_hash Hrun.
    unfold split_content_with_llm, get_cached_content_json_tree in Hrun.
    unfold bind at 1 in Hrun. unfold bind at 1 in Hrun. unfold lift in Hrun.
    destruct (resolve_hash (Some content_) doc_hash) as [hash | e0];
      [| injection Hrun as _ <-; apply same_caches_refl].
    cbv beta iota in Hrun.
    destruct (Py.truthy_list (default [] (content_to_json_cache w !! hash)));
      [discriminate |].
    destruct (negb (Py.truthy_str content_));
      [injection Hrun as _ <-; apply same_caches_refl |].
    destruct (_ >? _)%Z; [injection Hrun as _ <-; apply same_caches_refl |].
    unfold bind at 1 in Hrun.
    pose proof (keeps_caches_split_retry_loop 5
                  (split_prompt content_ title) [] w) as Hloop.
    destruct (split_retry_loop _ _ _ w) as [[raw | e0] wl].
    + unfold bind, lift, save_in_cache_content_json_tree, ret in Hrun.
      rewrite enrich_sections_top in Hrun. discriminate.
    + injection Hrun as _ <-. exact Hloop.
  - intros markdown_content doc_hash count Hrun.
    unfold split_content_by_sentences, get_cached_content_sentences in Hrun.
    unfold bind at 1 in Hrun. unfold bind at 1 in Hrun. unfold lift in Hrun.
    destruct (resolve_hash (Some markdown_content) doc_hash) as [hash | e0];
      [| now injection Hrun as _ <-].
    cbv beta iota in Hrun.
    destruct (Py.truthy_list _); [discriminate |].
    destruct (negb (Py.truthy_str markdown_content));
      [now injection Hrun as _ <- | discriminate].
  - intros doc_hash sentences_set Hrun.
    unfold get_embeddings_for_sentences, get_cached_content_embeddings in Hrun.
    unfold bind at 1 in Hrun. unfold bind at 1 in Hrun. unfold lift in Hrun.
    destruct (resolve_hash None (Some doc_hash)) as [hash | e0];
      [| injection Hrun as _ <-; apply same_caches_refl].
    cbv beta iota in Hrun. cbn [snd] in Hrun.
    destruct (content_to_vector_cache w !! hash); [discriminate |].
    unfold bind at 1 in Hrun.
    pose proof (keeps_caches_embeddings_loop sentences_set [] [] 0 w) as Hloop.
    destruct (embeddings_loop sentences_set [] [] 0 w)
      as [[[[vs tmp] n] | e0] wl]; [| injection Hrun as _ <-; exact Hloop].
    unfold bind at 1 in Hrun. simpl snd in Hloop.
    destruct (Py.truthy_list tmp).
    + unfold bind at 1 in Hrun.
      pose proof (keeps_caches_encode tmp wl) as Henc.
      destruct (embedding_encode_documents tmp wl) as [[encoded | e0] we].
      * unfold bind, save_in_cache_content_embeddings, ret in Hrun. discriminate.
      * injection Hrun as _ <-. exact (same_caches_trans _ _ _ Hloop Henc).
    + unfold bind, save_in_cache_content_embeddings, ret in Hrun. discriminate.
Qed.

(** X20.  On a cache miss, for a non-empty text whose prompt is within the
    token limit, only a [json.JSONDecodeError] is answered by a retry.  A
    reply of the completion service in which no bracketed array is found
    raises IndexError after that single call, and an exception of the
    completion service that is not a [json.JSONDecodeError] goes to the
    caller after that single call. *)
Theorem split_content_with_llm_not_retried (content_ : string)
    (title doc_hash : option string) (hash : string) (w : world S Vec)
    (r : result string) (sv : S) :
  resolve_hash (Some content_) doc_hash = Ok hash ->
  Py.truthy_list (default [] (content_to_json_cache w !! hash)) = false ->
  content_ <> "" ->
  (Z.of_nat (length (tiktoken_encode (Found := Found) (split_prompt content_ title)))
   <= 100000)%Z ->
  complete_messages [user (split_prompt content_ title)] (svc w) = (r, sv) ->
  let w1 := record_call w sv (LlmCall [user (split_prompt content_ title)] r) in
  (forall s,
      r = Ok s -> pyparsing_search (Found := Found) "[" "]" s = [] ->
      split_content_with_llm (Found := Found) content_ title doc_hash w
      = (Raise IndexError, w1))
  /\ (forall e,
         r = Raise e -> (forall msg, e <> JSONDecodeError msg) ->
         split_content_with_llm (Found := Found) content_ title doc_hash w
         = (Raise e, w1)).
Proof.
  intros Hh Hmiss Hne Htok Hcall w1.
  assert (Hrun : forall (k : _ -> M S Vec (string * list SectionNode)),
             bind (get_cached_content_json_tree content_ doc_hash) k w
             = k (hash, content_to_json_cache w !! hash) w).
  { intros k. unfold get_cached_content_json_tree.
    unfold bind at 1. unfold bind at 1. unfold lift. now rewrite Hh. }
  assert (Hstart : forall e,
             split_retry_loop (Found := Found) 5 (split_prompt content_ title) [] w
             = (Raise e, w1) ->
             split_content_with_llm (Found := Found) content_ title doc_hash w
             = (Raise e, w1)).
  { intros e Hloop. unfold split_content_with_llm. rewrite Hrun.
    cbv beta iota. rewrite Hmiss.
    destruct content_ as [|c0 rest0]; [contradiction |].
    cbn [negb Py.truthy_str].
    destruct (Z.gtb_spec (Z.of_nat (length (tiktoken_encode (Found := Found)
                                              (split_prompt (String c0 rest0) title))))
                         100000) as [Hgt | _]; [lia |].
    unfold bind at 1. now rewrite Hloop. }
  split.
  - intros s -> Hnone. apply Hstart.
    exact (split_retry_loop_no_array 4 _ [] w s sv Hcall Hnone).
  - intros e -> Hnot. apply Hstart. cbn [split_retry_loop].
    unfold try_except_JSONDecodeError, bind, llm_complete_messages.
    rewrite Hcall. destruct e; try reflexivity. now destruct (Hnot msg).
Qed.

(** X21.  With [number_of_sentences] left out, [get_answer] asks the
    classifier once and does not retry: an exception of the classifier goes
    to the caller, an object without the key [number_of_sentences] raises
    KeyError, and a value of the key whose upper-cased form is none of ONE,
    FEW and TOO_MANY raises ValueError, all in the world the classifier
    left.  A value given by the caller is compared as it is: when it is none
    of the three (in lower case too) ValueError is raised before any call. *)
Theorem get_answer_classification (question : string) (top_k : Z)
    (return_raw : bool) (mode : option SectionAnswerMode) (w w1 : world S Vec)
    (r : result (gmap string string)) :
  _classify_answer_for_question (Found := Found) question w = (r, w1) ->
  (forall e,
      r = Raise e ->
      get_answer work_title question top_k return_raw mode None w
      = (Raise e, w1))
  /\ (forall d,
         r = Ok d -> d !! "number_of_sentences" = None ->
         get_answer work_title question top_k return_raw mode None w
         = (Raise (KeyError "number_of_sentences"), w1))
  /\ (forall d n,
         r = Ok d -> d !! "number_of_sentences" = Some n ->
         str_upper (Found := Found) n <> "ONE" ->
         str_upper (Found := Found) n <> "FEW" ->
         str_upper (Found := Found) n <> "TOO_MANY" ->
         get_answer work_title question top_k return_raw mode None w
         = (Raise (ValueError ("Wrong value for number_of_sentences '"
                               +:+ str_upper (Found := Found) n +:+ "'")), w1))
  /\ (forall n (w0 : world S Vec),
         n <> "ONE" -> n <> "FEW" -> n <> "TOO_MANY" ->
         get_answer work_title question top_k return_raw mode (Some n) w0
         = (Raise (ValueError ("Wrong value for number_of_sentences '"
                               +:+ n +:+ "'")), w0)).
Proof.
  intros Hc. repeat split.
  - intros e ->. unfold get_answer, classify_question.
    unfold bind at 1. unfold bind at 1. now rewrite Hc.
  - intros d -> Hd. unfold get_answer, classify_question.
    unfold bind at 1. unfold bind at 1. rewrite Hc.
    unfold bind at 1. unfold dict_get. now rewrite Hd.
  - intros d n -> Hd H1 H2 H3. unfold get_answer, classify_question.
    apply String.eqb_neq in H1, H2, H3.
    unfold bind at 1. unfold bind at 1. rewrite Hc.
    unfold bind at 1. unfold dict_get. rewrite Hd.
    unfold ret. cbv beta iota. now rewrite H1, H2, H3.
  - intros n w0 H1 H2 H3. unfold get_answer, classify_question.
    apply String.eqb_neq in H1, H2, H3.
    destruct (mode_is mode FIRST_BEST_SUMMARY || mode_is mode TOP_K_SUMMARY);
      [| destruct (mode_is mode TOP_K_COMBINE && false)];
      unfold bind, ret; cbv beta iota; now rewrite H1, H2, H3.
Qed.

Lemma py_slice_to {A} (l : list A) (k : Z) :
  (0 <= k)%Z -> Py.slice l None (Some k) = take (Z.to_nat k) l.
Proof.
  intros Hk. unfold Py.slice. cbn [fmap option_fmap option_map default from_option id].
  destruct (Z.ltb_spec k 0) as [Hneg | _]; [lia |].
  rewrite Z.sub_0_r. change (Z.to_nat 0) with 0. rewrite drop_0.
  destruct (Z.min_spec k (Z.of_nat (length l))) as [[Hlt ->] | [Hge ->]];
    [reflexivity |].
  rewrite Nat2Z.id, !take_ge; [reflexivity | lia | lia].
Qed.

(** X22.  [get_section_as_answer_from_header] passes [top_k] to the vector
    store only: the matches are processed with the default [top_k] of
    [_process_section_matchs], so in the mode TOP_K_RAW the answer is made of
    the first 5 matches whatever [top_k] is, without any other call. *)
Theorem section_answer_from_header_top_k (section_header : string)
    (known_document_titles : option (list string)) (top_k : Z)
    (matchs : list SectionMatch) (w w1 : world S Vec) :
  vdb_get_possible_matchs_from_header (Found := Found)
    work_title section_header [] top_k w
  = (Ok matchs, w1) ->
  get_section_as_answer_from_header (Found := Found) work_title section_header
    false TOP_K_RAW known_document_titles top_k w
  = (Ok (format_context_entries
           (map _section_match_to_context_entry (take 5 matchs))), w1).
Proof.
  intros Hq. unfold get_section_as_answer_from_header.
  unfold bind at 1. unfold ret at 1. unfold bind at 1. rewrite Hq.
  cbn [_process_section_matchs]. unfold ret.
  now rewrite (py_slice_to matchs 5) by lia.
Qed.

End FailureFacts.

(** X19 on an example: five replies that are not valid JSON. *)
Lemma failed_runs_keep_caches_witness :
  let script := ["[a]"; "[b]"; "[c]"; "[d]"; "[e]"] in
  same_caches (Scripted.start script)
              (snd (split_content_with_llm "A doc." None None
                      (Scripted.start script))).
Proof.
  cbv zeta.
  set (run := split_content_with_llm "A doc." None None
                (Scripted.start ["[a]"; "[b]"; "[c]"; "[d]"; "[e]"])).
  destruct (failed_runs_keep_caches (Found := string)
              (ValueError "The LLM can't return valid JSON after 5 tries.")
              (Scripted.start ["[a]"; "[b]"; "[c]"; "[d]"; "[e]"]) (snd run))
    as [Hsplit _].
  apply (Hsplit "A doc." None None).
  rewrite (surjective_pairing (split_content_with_llm _ _ _ _)). f_equal.
Defined.

(** X20 on an example: a reply without an array, although the next reply
    would have been a valid one. *)
Lemma split_content_with_llm_not_retried_witness :
  let run := split_content_with_llm "A doc." None None
               (Scripted.start ["no array here"; Scripted.intro_json]) in
  fst run = Raise IndexError /\ length (trace (snd run)) = 1.
Proof.
  cbv zeta.
  destruct (split_content_with_llm_not_retried "A doc." None None
              (get_doc_hash "A doc.")
              (Scripted.start ["no array here"; Scripted.intro_json])
              (Ok "no array here") [Scripted.intro_json])
    as [Hnone _].
  - reflexivity.
  - reflexivity.
  - discriminate.
  - vm_compute. discriminate.
  - reflexivity.
  - rewrite (Hnone "no array here" eq_refl eq_refl). now split.
Defined.

(** X21 on an example: the classifier answers with an empty object. *)
Lemma get_answer_classification_witness :
  let run := get_answer (Found := string) "work" "q?" 5 false None None
               (Scripted.start ["{}"]) in
  fst run = Raise (KeyError "number_of_sentences")
  /\ length (llm_calls (trace (snd run))) = 1.
Proof.
  cbv zeta.
  set (c := _classify_answer_for_question (Found := string) "q?"
              (Scripted.start ["{}"])).
  destruct (get_answer_classification "work" "q?" 5 false None
              (Scripted.start ["{}"]) (snd c) (fst c)
              (surjective_pairing c))
    as (_ & Hkey & _).
  rewrite (Hkey ∅); [| reflexivity | reflexivity].
  split; [reflexivity |]. vm_compute. reflexivity.
Defined.

(** X22 on an example: one match is found, [top_k] is 1. *)
Lemma section_answer_from_header_top_k_witness :
  fst (get_section_as_answer_from_header "work" "Setup" false TOP_K_RAW None 1
         (Scripted.start []))
  = Ok (format_context_entries
          [_section_match_to_context_entry Scripted.a_match]).
Proof.
  set (q := vdb_get_possible_matchs_from_header (Vec := nat) (Found := string)
              "work" "Setup" [] 1 (Scripted.start [])).
  rewrite (section_answer_from_header_top_k (Found := string) "work" "Setup"
             None 1 [Scripted.a_match] (Scripted.start []) (snd q));
    [reflexivity |].
  rewrite (surjective_pairing q) at 1. f_equal.
Defined.

(** ** Hierarchized titles in the context entries *)

Lemma py_join_cons (sep p : string) (ps : list string) :
  ps <> [] -> Py.join sep (p :: ps) = p +:+ sep +:+ Py.join sep ps.
Proof. now destruct ps. Qed.

Lemma py_join_snoc (sep h : string) (ps : list string) :
  ps <> [] -> Py.join sep (ps ++ [h]) = Py.join sep ps +:+ sep +:+ h.
Proof.
  induction ps as [|p ps IH]; [contradiction |]. intros _.
  destruct ps as [|q ps]; [reflexivity |].
  change ((p :: q :: ps) ++ [h]) with (p :: ((q :: ps) ++ [h])).
  rewrite py_join_cons by (simpl; discriminate).
  rewrite IH by discriminate.
  rewrite (py_join_cons sep p (q :: ps)) by discriminate.
  now rewrite !str_app_assoc.
Qed.

Lemma replace_go_skip (old new a rest : string) :
  Py.replace_go old new (a +:+ rest) (String.length a)
  = Py.replace_go old new rest 0.
Proof.
  induction a as [|c a IH]; [now rewrite str_app_nil_l |].
  rewrite str_app_cons. exact IH.
Qed.

Lemma replace_go_prefix (old new rest : string) :
  old <> "" ->
  Py.replace_go old new (old +:+ rest) 0 = new +:+ Py.replace_go old new rest 0.
Proof.
  intros Hne. destruct old as [|c old']; [contradiction |].
  assert (Hp : String.prefix (String c old') (String c old' +:+ rest) = true)
    by (apply prefix_app; now exists rest).
  rewrite str_app_cons in *. cbn [Py.replace_go]. rewrite Hp.
  cbn [String.length]. rewrite Nat.sub_1_r. cbn [Nat.pred].
  now rewrite replace_go_skip.
Qed.

Lemma replace_go_absent (old new s : string) :
  Py.contains old s = false -> Py.replace_go old new s 0 = s.
Proof.
  induction s as [|c r IH]; [reflexivity |].
  cbn [Py.contains]. intros H. apply orb_false_iff in H as [Hp Hr].
  cbn [Py.replace_go]. now rewrite Hp, IH.
Qed.

Lemma contains_tail (old : string) (c : ascii) (r : string) :
  Py.contains old (String c r) = false -> Py.contains old r = false.
Proof. cbn [Py.contains]. intros H. now apply orb_false_iff in H. Qed.

Lemma lstrip_length (s : string) :
  String.length (Py.lstrip s) <= String.length s.
Proof.
  destruct (lstrip_suffix s) as [a Ha].
  rewrite Ha at 2. rewrite str_length_app. lia.
Qed.

Lemma strip_fixed (h : string) :
  Py.strip h = h -> Py.lstrip h = h /\ Py.rstrip h = h.
Proof.
  unfold Py.strip. intros H.
  destruct (rstrip_prefix (Py.lstrip h)) as [v Hv].
  pose proof (lstrip_length h) as Hl.
  rewrite Hv, H, str_length_app in Hl.
  destruct v as [|d v]; [| simpl in Hl; lia].
  rewrite H, str_app_nil_r in Hv. split; [exact Hv |]. now rewrite <- Hv at 1.
Qed.

Lemma rstrip_cons_fixed (c : ascii) (t : string) :
  t <> "" -> Py.rstrip t = t -> nat_of_ascii c < 194 ->
  Py.rstrip (String c t) = String c t.
Proof.
  intros Hne Ht Hc. cbn [Py.rstrip]. rewrite Ht.
  destruct t as [|c2 [|c3 [|c4 t]]]; [contradiction | | |];
    cbn [Py.is_space_str];
    now rewrite ?isspace2_low, ?isspace3_low by exact Hc.
Qed.

Lemma lstrip_cons_fixed (c : ascii) (r : string) :
  Py.isspace c = false -> nat_of_ascii c < 194 ->
  Py.lstrip (String c r) = String c r.
Proof.
  intros Hs Hc. cbn [Py.lstrip]. rewrite Hs.
  destruct r as [|c2 [|c3 r]]; [reflexivity | |];
    now rewrite ?isspace2_low, ?isspace3_low by exact Hc.
Qed.

Lemma lstrip_char_fixed (c : ascii) (h : string) :
  first_char h <> Some c -> Py.lstrip_char c h = h.
Proof.
  destruct h as [|d r]; [reflexivity |].
  cbn [first_char Py.lstrip_char]. intros H.
  destruct (Ascii.eqb_spec c d) as [-> | _]; [now destruct H | reflexivity].
Qed.

(** X23.  [_section_match_to_context_entry] undoes the hierarchized title
    [_linearize_sections] makes of the whole ancestor chain.  Take a header
    that is not empty, has no whitespace at either end and does not start
    with a dash, and an ancestor chain whose text joined with " - " is not
    empty and does not occur in the text made of " - " and the header (so
    neither in the header nor across the separator put before it).  Then the
    match found under the title of the whole chain and the match found under
    the header itself give the same context entry, and it shows the header
    alone. *)
Theorem context_entry_of_hierarchized_title (m : SectionMatch) (h : string) :
  m_parents m <> [] ->
  Py.join " - " (m_parents m) <> "" ->
  h <> "" -> Py.strip h = h -> first_char h <> Some "-"%char ->
  Py.contains (Py.join " - " (m_parents m)) (" - " +:+ h) = false ->
  _section_match_to_context_entry
    (match_with_header m
       (hierarchized_title (m_parents m) h (length (m_parents m))))
  = _section_match_to_context_entry (match_with_header m h)
  /\ exists rest,
      _section_match_to_context_entry (match_with_header m h)
      = "Header: " +:+ h +:+ Py.nl +:+ "Parents Hierarchy: "
        +:+ Py.join " -> " (m_parents m) +:+ rest.
Proof.
  intros Hps Hchain Hh Hstrip Hdash Habsent.
  destruct (strip_fixed h Hstrip) as [Hl Hr].
  set (chain := Py.join " - " (m_parents m)) in *.
  assert (Hown : Py.strip (Py.lstrip_char "-"
                   (Py.strip (Py.replace h chain ""))) = h).
  { assert (Hrep : Py.replace h chain "" = h).
    { unfold Py.replace. destruct chain as [|c0 chain']; [contradiction |].
      apply replace_go_absent.
      change (" - " +:+ h) with (String " " (String "-" (String " " h))) in Habsent.
      now apply contains_tail, contains_tail, contains_tail in Habsent. }
    now rewrite Hrep, Hstrip, lstrip_char_fixed, Hstrip. }
  assert (Htitle : Py.strip (Py.lstrip_char "-"
                     (Py.strip (Py.replace
                        (hierarchized_title (m_parents m) h (length (m_parents m)))
                        chain ""))) = h).
  { unfold hierarchized_title. rewrite Nat.sub_diag, drop_0.
    rewrite py_join_snoc by exact Hps. fold chain.
    assert (Hrep : Py.replace (chain +:+ " - " +:+ h) chain "" = " - " +:+ h).
    { unfold Py.replace. destruct chain as [|c0 chain'] eqn:E; [contradiction |].
      rewrite <- E in *. rewrite replace_go_prefix by (rewrite E; discriminate).
      now rewrite str_app_nil_l, replace_go_absent. }
    rewrite Hrep.
    assert (Hs1 : Py.strip (" - " +:+ h) = "- " +:+ h).
    { unfold Py.strip.
      change (" - " +:+ h) with (String " " (String "-" (String " " h))).
      change (Py.lstrip (String " " (String "-" (String " " h))))
        with (Py.lstrip (String "-" (String " " h))).
      rewrite lstrip_cons_fixed by (vm_compute; first [reflexivity | lia]).
      change ("- " +:+ h) with (String "-" (String " " h)).
      apply rstrip_cons_fixed; [discriminate | | vm_compute; lia].
      apply rstrip_cons_fixed; [exact Hh | exact Hr | vm_compute; lia]. }
    rewrite Hs1.
    change ("- " +:+ h) with (String "-" (String " " h)).
    change (Py.lstrip_char "-" (String "-" (String " " h)))
      with (String " " h).
    unfold Py.strip.
    change (Py.lstrip (String " " h)) with (Py.lstrip h).
    now rewrite Hl, Hr. }
  assert (Htruthy : Py.truthy_list (m_parents m) = true)
    by (destruct (m_parents m); [contradiction | reflexivity]).
  split.
  - unfold _section_match_to_context_entry, match_with_header.
    cbn [m_header m_parents m_level m_score m_source_title m_source_url
         m_source_author m_source_type m_content m_sql_doc_id].
    rewrite Htruthy. fold chain. now rewrite Htitle, Hown.
  - unfold _section_match_to_context_entry, match_with_header.
    cbn [m_header m_parents m_level m_score m_source_title m_source_url
         m_source_author m_source_type m_content m_sql_doc_id].
    rewrite Htruthy. fold chain. rewrite Hown.
    eexists. reflexivity.
Qed.

(** X23 on an example: the section Setup of the Guide. *)
Lemma context_entry_of_hierarchized_title_witness :
  _section_match_to_context_entry Scripted.a_match
  = _section_match_to_context_entry
      (match_with_header Scripted.a_match "Setup").
Proof.
  assert (H1 : m_parents Scripted.a_match <> []) by discriminate.
  assert (H2 : Py.join " - " (m_parents Scripted.a_match) <> "") by discriminate.
  assert (H3 : "Setup" <> "") by discriminate.
  assert (H4 : first_char "Setup" <> Some "-"%char) by discriminate.
  destruct (context_entry_of_hierarchized_title Scripted.a_match "Setup"
              H1 H2 H3 eq_refl H4 eq_refl) as [Heq _].
  exact Heq.
Defined.
